(** * ceph_monitoring.cluster: the cluster loader and its micro-parsers

    A shallow embedding of [ceph_monitoring/cluster.py].  Python values
    that come out of [json.loads] are terms of [json]; a function that can
    raise returns an [outcome]; a function that also writes to the module
    logger runs in [M], which carries the records logged so far.  Strings
    are strings of code points below 256. *)

From Stdlib Require Import ZArith List Bool Ascii String Lia.
From Stdlib Require Import Floats.SpecFloat.
From Stdlib Require Import QArith Qpower Lqa.
From stdpp Require Import base gmap strings list.

Set Warnings "-register-all".

Open Scope string_scope.
Open Scope list_scope.
Open Scope Z_scope.

(* ===================================================================== *)
(** * Part I: definitions                                                 *)
(* ===================================================================== *)

(** ** Exceptions and results *)

Inductive exn :=
| KeyError | ValueError | TypeError | AssertionError
| AttributeError | OverflowError | ZeroDivisionError | IndexError.

Inductive outcome (A : Type) :=
| Return (a : A)
| Raise (e : exn).
Arguments Return {A} a.
Arguments Raise {A} e.

Definition obind {A B} (m : outcome A) (k : A -> outcome B) : outcome B :=
  match m with
  | Return a => k a
  | Raise e => Raise e
  end.

Notation "'do' x <- m ; k" := (obind m (fun x => k))
  (at level 10, x name, m at level 100, k at level 200).
Notation "'do' ' p <- m ; k" := (obind m (fun x => match x with p => k end))
  (at level 10, p pattern, m at level 100, k at level 200).

Definition raises {A} (m : outcome A) : Prop := exists e, m = Raise e.

Definition returns {A} (m : outcome A) : bool :=
  match m with
  | Return _ => true
  | Raise _ => false
  end.

Definition assert (b : bool) : outcome unit :=
  if b then Return tt else Raise AssertionError.

Fixpoint mapM {A B} (f : A -> outcome B) (l : list A) : outcome (list B) :=
  match l with
  | [] => Return []
  | x :: l' => do y <- f x; do ys <- mapM f l'; Return (y :: ys)
  end.

Fixpoint foldM {A S} (f : S -> A -> outcome S) (l : list A) (s : S) : outcome S :=
  match l with
  | [] => Return s
  | x :: l' => do s' <- f s x; foldM f l' s'
  end.

(** ** Characters and strings, as Python's [str] treats them *)

Definition code (c : ascii) : N := N_of_ascii c.

(** [\d] of a [str] pattern and the digits [int()] accepts. *)
Definition is_decimal (c : ascii) : bool :=
  ((48 <=? code c) && (code c <=? 57))%N.

(** [str.isdigit]: the decimal digits and the superscripts two, three, one. *)
Definition is_digit_char (c : ascii) : bool :=
  is_decimal c || (code c =? 178)%N || (code c =? 179)%N || (code c =? 185)%N.

(** [str.isspace], which [strip()] and [split()] use. *)
Definition is_space (c : ascii) : bool :=
  (((9 <=? code c) && (code c <=? 13)) || ((28 <=? code c) && (code c <=? 32))
   || (code c =? 133) || (code c =? 160))%N.

Fixpoint lstrip (s : string) : string :=
  match s with
  | String c s' => if is_space c then lstrip s' else s
  | EmptyString => EmptyString
  end.

Fixpoint rstrip (s : string) : string :=
  match s with
  | String c s' =>
      match rstrip s' with
      | EmptyString => if is_space c then EmptyString else String c EmptyString
      | t => String c t
      end
  | EmptyString => EmptyString
  end.

Definition strip (s : string) : string := rstrip (lstrip s).

(** [s.split(sep)] for a one-character separator: never empty. *)
Fixpoint split_on (sep : ascii) (s : string) : list string :=
  match s with
  | EmptyString => [EmptyString]
  | String c s' =>
      if Ascii.eqb c sep then EmptyString :: split_on sep s'
      else match split_on sep s' with
           | w :: ws => String c w :: ws
           | [] => [String c EmptyString]
           end
  end.

(** [s.split()]: runs of white space separate, empty words are dropped. *)
Fixpoint split_ws_aux (cur : option string) (s : string) : list string :=
  match s with
  | EmptyString => match cur with Some w => [w] | None => [] end
  | String c s' =>
      if is_space c then
        match cur with
        | Some w => w :: split_ws_aux None s'
        | None => split_ws_aux None s'
        end
      else
        split_ws_aux (Some (match cur with Some w => w +:+ String c EmptyString
                                          | None => String c EmptyString end)) s'
  end.

Definition split_ws (s : string) : list string := split_ws_aux None s.

(** [sub in s] for strings. *)
Fixpoint is_prefix (p s : string) : bool :=
  match p, s with
  | EmptyString, _ => true
  | String a p', String b s' => Ascii.eqb a b && is_prefix p' s'
  | String _ _, EmptyString => false
  end.

Fixpoint is_substring (p s : string) : bool :=
  is_prefix p s ||
  match s with
  | String _ s' => is_substring p s'
  | EmptyString => false
  end.

(** What follows a prefix [p] of [s], if [s] starts with [p]. *)
Fixpoint after_prefix (p s : string) : option string :=
  match p, s with
  | EmptyString, _ => Some s
  | String a p', String b s' => if Ascii.eqb b a then after_prefix p' s' else None
  | String _ _, EmptyString => None
  end.

(** [s.isdigit()]. *)
Fixpoint all_chars (p : ascii -> bool) (s : string) : bool :=
  match s with
  | EmptyString => true
  | String c s' => p c && all_chars p s'
  end.

Definition isdigit (s : string) : bool :=
  match s with
  | EmptyString => false
  | _ => all_chars is_digit_char s
  end.

(** [int(s)] for a string: white space around, an optional sign, decimal
    digits, single underscores between digits. *)
Definition digit_val (c : ascii) : Z := Z.of_N (code c) - 48.

Fixpoint int_digits (acc : Z) (after_digit : bool) (s : string) : outcome Z :=
  match s with
  | EmptyString => if after_digit then Return acc else Raise ValueError
  | String c s' =>
      if is_decimal c then int_digits (10 * acc + digit_val c) true s'
      else if Ascii.eqb c "_" && after_digit then int_digits acc false s'
      else Raise ValueError
  end.

(** The white space [int()] passes over at both ends of a [str]: that of
    [str.isspace] without the four separators U+001C to U+001F. *)
Definition is_int_space (c : ascii) : bool :=
  (((9 <=? code c) && (code c <=? 13)) || (code c =? 32)
   || (code c =? 133) || (code c =? 160))%N.

Fixpoint int_lstrip (s : string) : string :=
  match s with
  | String c s' => if is_int_space c then int_lstrip s' else s
  | EmptyString => EmptyString
  end.

Fixpoint int_rstrip (s : string) : string :=
  match s with
  | String c s' =>
      match int_rstrip s' with
      | EmptyString => if is_int_space c then EmptyString else String c EmptyString
      | t => String c t
      end
  | EmptyString => EmptyString
  end.

Definition int_of_str (s : string) : outcome Z :=
  match int_rstrip (int_lstrip s) with
  | String "-" s' => do n <- int_digits 0 false s'; Return (- n)
  | String "+" s' => int_digits 0 false s'
  | s' => int_digits 0 false s'
  end.

(** ** Regular expressions, for [re.match] *)

Inductive regex :=
| Void
| Eps
| Chr (c : ascii)
| Cls (p : ascii -> bool)
| Seq (r1 r2 : regex)
| Alt (r1 r2 : regex)
| Star (r : regex).

Definition Plus (r : regex) : regex := Seq r (Star r).

(** A pattern read left to right: its items in sequence. *)
Fixpoint Cat (rs : list regex) : regex :=
  match rs with
  | [] => Eps
  | [r] => r
  | r :: rs' => Seq r (Cat rs')
  end.

Fixpoint nullable (r : regex) : bool :=
  match r with
  | Void => false
  | Eps => true
  | Chr _ => false
  | Cls _ => false
  | Seq r1 r2 => nullable r1 && nullable r2
  | Alt r1 r2 => nullable r1 || nullable r2
  | Star _ => true
  end.

Fixpoint deriv (a : ascii) (r : regex) : regex :=
  match r with
  | Void => Void
  | Eps => Void
  | Chr c => if Ascii.eqb a c then Eps else Void
  | Cls p => if p a then Eps else Void
  | Seq r1 r2 =>
      if nullable r1 then Alt (Seq (deriv a r1) r2) (deriv a r2)
      else Seq (deriv a r1) r2
  | Alt r1 r2 => Alt (deriv a r1) (deriv a r2)
  | Star r1 => Seq (deriv a r1) (Star r1)
  end.

(** [re.match(r, s) is not None]: some prefix of [s] is in the language. *)
Fixpoint re_match (r : regex) (s : string) : bool :=
  nullable r ||
  match s with
  | EmptyString => false
  | String a s' => re_match (deriv a r) s'
  end.

(** [s] is [p], then a decimal digit, then anything. *)
Definition starts_decimal (s : string) : bool :=
  match s with
  | String d _ => is_decimal d
  | EmptyString => false
  end.

Definition decimal_after (p s : string) : bool :=
  match after_prefix p s with
  | Some t => starts_decimal t
  | None => false
  end.

(** ** Decoded JSON *)

Inductive json :=
| JNull
| JBool (b : bool)
| JInt (z : Z)
| JFloat (f : spec_float)
| JStr (s : string)
| JList (l : list json)
| JObj (kvs : list (string * json)).

(** A [dict] with [str] keys, in insertion order, keys unique. *)
Definition dict (V : Type) : Type := list (string * V).

Fixpoint dict_get {V} (d : dict V) (k : string) : option V :=
  match d with
  | [] => None
  | (k', v) :: d' => if String.eqb k' k then Some v else dict_get d' k
  end.

Fixpoint dict_set {V} (d : dict V) (k : string) (v : V) : dict V :=
  match d with
  | [] => [(k, v)]
  | (k', v') :: d' =>
      if String.eqb k' k then (k', v) :: d' else (k', v') :: dict_set d' k v
  end.

Fixpoint dict_del {V} (d : dict V) (k : string) : dict V :=
  match d with
  | [] => []
  | (k', v') :: d' => if String.eqb k' k then d' else (k', v') :: dict_del d' k
  end.

(** [obj[key]] with a [str] key. *)
Definition py_getitem (obj : json) (k : string) : outcome json :=
  match obj with
  | JObj kvs => match dict_get kvs k with
                | Some v => Return v
                | None => Raise KeyError
                end
  | _ => Raise TypeError
  end.

(** [for x in obj]. *)
Fixpoint chars (s : string) : list json :=
  match s with
  | EmptyString => []
  | String c s' => JStr (String c EmptyString) :: chars s'
  end.

Definition py_iter (obj : json) : outcome (list json) :=
  match obj with
  | JList l => Return l
  | JObj kvs => Return (map (fun kv => JStr (fst kv)) kvs)
  | JStr s => Return (chars s)
  | _ => Raise TypeError
  end.

Definition is_str (s : string) (j : json) : bool :=
  match j with
  | JStr t => String.eqb t s
  | _ => false
  end.

(** [s in obj] for a [str] [s]. *)
Definition py_contains (s : string) (obj : json) : outcome bool :=
  match obj with
  | JStr t => Return (is_substring s t)
  | JList l => Return (existsb (is_str s) l)
  | JObj kvs => Return (match dict_get kvs s with Some _ => true | None => false end)
  | _ => Raise TypeError
  end.

(** [len(obj)]. *)
Definition py_len (obj : json) : outcome Z :=
  match obj with
  | JStr t => Return (Z.of_nat (String.length t))
  | JList l => Return (Z.of_nat (length l))
  | JObj kvs => Return (Z.of_nat (length kvs))
  | _ => Raise TypeError
  end.

(** ['/dev/' + obj] and [re.match(pattern, obj)] need a [str]. *)
Definition as_str (obj : json) : outcome string :=
  match obj with
  | JStr s => Return s
  | _ => Raise TypeError
  end.

(** [hash(obj)] fails on lists and dicts. *)
Definition hashable (obj : json) : bool :=
  match obj with
  | JList _ | JObj _ => false
  | _ => true
  end.

(** ** The logger *)

Inductive log_event :=
| WarnNotDisk (hostname name : string) (tp : json)
| WarnDiskType (name hostname : string) (tran rota : json)
| WarnNoPGs (osd_num : Z)
| WarnNoMtu (dev hostname : string)
| WarnNoAdapter (dev_name : string) (ip : Z)
| ExcNoHostForOsd (osd_id : Z) (cluster_ip : string)
| ErrNoHostForMonitor (name : json).

Definition is_warning (ev : log_event) : bool :=
  match ev with
  | WarnNotDisk _ _ _ | WarnDiskType _ _ _ _ | WarnNoPGs _
  | WarnNoMtu _ _ | WarnNoAdapter _ _ => true
  | _ => false
  end.

(** A computation that logs and may raise: the records logged, in order,
    and how it ended. *)
Definition M (A : Type) : Type := list log_event * outcome A.

Definition ret {A} (a : A) : M A := ([], Return a).
Definition raise {A} (e : exn) : M A := ([], Raise e).
Definition log (ev : log_event) : M unit := ([ev], Return tt).
Definition lift {A} (m : outcome A) : M A := ([], m).

Definition bind {A B} (m : M A) (k : A -> M B) : M B :=
  match m with
  | (l, Return a) => let '(l', r) := k a in (l ++ l', r)
  | (l, Raise e) => (l, Raise e)
  end.

Notation "'run' x <- m ; k" := (bind m (fun x => k))
  (at level 10, x name, m at level 100, k at level 200).
Notation "'run' ' p <- m ; k" := (bind m (fun x => match x with p => k end))
  (at level 10, p pattern, m at level 100, k at level 200).
Notation "'exec' m ; k" := (bind m (fun _ => k))
  (at level 10, m at level 100, k at level 200).

(** The computation ends in an exception. *)
Definition mraises {A} (m : M A) : Prop := exists e, snd m = Raise e.

Fixpoint mapMl {A B} (f : A -> M B) (l : list A) : M (list B) :=
  match l with
  | [] => ret []
  | x :: l' => run y <- f x; run ys <- mapMl f l'; ret (y :: ys)
  end.

Fixpoint foldMl {A S} (f : S -> A -> M S) (l : list A) (s : S) : M S :=
  match l with
  | [] => ret s
  | x :: l' => run s' <- f s x; foldMl f l' s'
  end.

(** ** Entities built by the micro-parsers *)

Record DiskLoad := {
  read_bytes : spec_float;
  write_bytes : spec_float;
  read_iops : spec_float;
  write_iops : spec_float;
  io_time : spec_float;
  w_io_time : spec_float;
  iops : spec_float;
  queue_depth : spec_float;
  lat : option spec_float
}.

(** [Mountable]; Python's [None] is [JNull], the weak reference to the
    parent disk is the parent's name. *)
Record Mountable := {
  mnt_name : string;
  mnt_size : json;
  mnt_mountpoint : json;
  mnt_fs : json;
  mnt_free_space : json;
  mnt_parent : option string
}.

Record Disk := {
  dsk_name : string;
  dsk_size : json;
  dsk_mountpoint : json;
  dsk_fs : json;
  dsk_free_space : json;
  dsk_parent : option string;
  dsk_load : option DiskLoad;
  dsk_tp : string;
  dsk_extra : json;
  dsk_partitions : dict Mountable
}.

(** ** [parse_lsblkjs] *)

(** [r"sr\d+|loop\d+"] *)
Definition synthetic_re : regex :=
  Alt (Cat [Chr "s"; Chr "r"; Plus (Cls is_decimal)])
      (Cat [Chr "l"; Chr "o"; Chr "o"; Chr "p"; Plus (Cls is_decimal)]).

(** The literal [{('sata', '1'): 'hdd', ('sata', '0'): 'ssd', ('nvme', '0'): 'nvme'}]. *)
Definition stor_tp_table : list ((string * string) * string) :=
  [(("sata", "1"), "hdd"); (("sata", "0"), "ssd"); (("nvme", "0"), "nvme")].

Fixpoint table_get (t : list ((string * string) * string)) (tran rota : json)
  : option string :=
  match t with
  | [] => None
  | ((a, b), v) :: t' =>
      if is_str a tran && is_str b rota then Some v else table_get t' tran rota
  end.

(** [stor_tp_table.get((tran, rota))]: the key tuple is hashed first. *)
Definition stor_tp_get (tran rota : json) : outcome (option string) :=
  if hashable tran && hashable rota
  then Return (table_get stor_tp_table tran rota)
  else Raise TypeError.

Definition lsblk_partition (parent : string) (prt_js : json) : outcome Mountable :=
  do nm <- py_getitem prt_js "name";
  do slash <- py_contains "/" nm;
  do _ <- assert (negb slash);
  do name <- as_str nm;
  do size <- py_getitem prt_js "size";
  do mountpoint <- py_getitem prt_js "mountpoint";
  do fs <- py_getitem prt_js "fstype";
  Return {| mnt_name := "/dev/" +:+ name; mnt_size := size;
            mnt_mountpoint := mountpoint; mnt_fs := fs;
            mnt_free_space := JNull; mnt_parent := Some parent |}.

Definition lsblk_partitions (parent : string) (children : list json)
  : outcome (dict Mountable) :=
  foldM (fun parts prt_js =>
           do part <- lsblk_partition parent prt_js;
           Return (dict_set parts (mnt_name part) part))
        children [].

(** One turn of the loop: [None] where the body reaches [continue]. *)
Definition lsblk_disk (hostname : string) (disk_js : json) : M (option Disk) :=
  run nm <- lift (py_getitem disk_js "name");
  run name <- lift (as_str nm);
  if re_match synthetic_re name then ret None else
  run tp <- lift (py_getitem disk_js "type");
  if negb (is_str "disk" tp) then
    exec log (WarnNotDisk hostname name tp); ret None
  else
  run tran <- lift (py_getitem disk_js "tran");
  run rota <- lift (py_getitem disk_js "rota");
  run found <- lift (stor_tp_get tran rota);
  run stor_tp <- match found with
                 | Some t => ret t
                 | None => exec log (WarnDiskType name hostname tran rota); ret "hdd"
                 end;
  run size <- lift (py_getitem disk_js "size");
  run mountpoint <- lift (py_getitem disk_js "mountpoint");
  run fs <- lift (py_getitem disk_js "fstype");
  run children <- lift (do c <- py_getitem disk_js "children"; py_iter c);
  run parts <- lift (lsblk_partitions ("/dev/" +:+ name) children);
  ret (Some {| dsk_name := "/dev/" +:+ name; dsk_size := size;
               dsk_mountpoint := mountpoint; dsk_fs := fs;
               dsk_free_space := JNull; dsk_parent := None;
               dsk_load := None; dsk_tp := stor_tp; dsk_extra := disk_js;
               dsk_partitions := parts |}).

Fixpoint somes {A} (l : list (option A)) : list A :=
  match l with
  | [] => []
  | Some a :: l' => a :: somes l'
  | None :: l' => somes l'
  end.

(** The generator, run to its end: the disks yielded, in order. *)
Definition parse_lsblkjs (data : json) (hostname : string) : M (list Disk) :=
  run entries <- lift (py_iter data);
  run ds <- mapMl (lsblk_disk hostname) entries;
  ret (somes ds).

(** ** [parse_netdev] *)

Record NetStats := {
  recv_bytes_ : Z; recv_packets_ : Z; rerrs : Z; rdrop : Z;
  rfifo : Z; rframe : Z; rcompressed : Z; rmulticast : Z;
  send_bytes_ : Z; send_packets_ : Z; serrs : Z; sdrop : Z;
  sfifo : Z; scolls : Z; scarrier : Z; scompressed : Z
}.

(** [NetStats] called on the unpacked counters: the named tuple takes its
    sixteen fields, no fewer and no more. *)
Definition mk_NetStats (args : list Z) : outcome NetStats :=
  match args with
  | [a1; a2; a3; a4; a5; a6; a7; a8; a9; a10; a11; a12; a13; a14; a15; a16] =>
      Return {| recv_bytes_ := a1; recv_packets_ := a2; rerrs := a3; rdrop := a4;
                rfifo := a5; rframe := a6; rcompressed := a7; rmulticast := a8;
                send_bytes_ := a9; send_packets_ := a10; serrs := a11; sdrop := a12;
                sfifo := a13; scolls := a14; scarrier := a15; scompressed := a16 |}
  | _ => Raise TypeError
  end.

(** The fields in the order of [netstat_fields]. *)
Definition netstat_values (st : NetStats) : list Z :=
  [recv_bytes_ st; recv_packets_ st; rerrs st; rdrop st;
   rfifo st; rframe st; rcompressed st; rmulticast st;
   send_bytes_ st; send_packets_ st; serrs st; sdrop st;
   sfifo st; scolls st; scarrier st; scompressed st].

Definition newline : ascii := "010"%char.
Definition colon : ascii := ":"%char.

Definition netdev_line (info : gmap string NetStats) (line : string)
  : outcome (gmap string NetStats) :=
  match split_on colon line with
  | [adapter; data] =>
      let adapter := strip adapter in
      do _ <- assert (negb (bool_decide (is_Some (info !! adapter))));
      do counters <- mapM int_of_str (split_ws data);
      do stats <- mk_NetStats counters;
      Return (<[adapter := stats]> info)
  | _ => Raise ValueError
  end.

Definition parse_netdev (netdev : string) : outcome (gmap string NetStats) :=
  foldM netdev_line (drop 2 (split_on newline (strip netdev))) ∅.

(** A line of the listing and the entry it makes: the adapter name before
    the colon, stripped, and the counters after it, by position. *)
Definition netdev_row (line : string) (row : string * NetStats) : Prop :=
  exists adapter data,
    split_on colon line = [adapter; data] /\
    fst row = strip adapter /\
    mapM int_of_str (split_ws data) = Return (netstat_values (snd row)).

(** ** More of Python on decoded JSON *)

(** [int(f)] for a float: towards zero. *)
Definition float_trunc (f : spec_float) : outcome Z :=
  match f with
  | S754_zero _ => Return 0
  | S754_infinity _ => Raise OverflowError
  | S754_nan => Raise ValueError
  | S754_finite s m e =>
      let v := Z.shiftl (Zpos m) e in
      Return (if s then - v else v)
  end.

(** [int(obj)]. *)
Definition py_int (obj : json) : outcome Z :=
  match obj with
  | JInt z => Return z
  | JBool b => Return (if b then 1 else 0)
  | JFloat f => float_trunc f
  | JStr s => int_of_str s
  | _ => Raise TypeError
  end.

(** [obj[0]]. *)
Definition py_first (obj : json) : outcome json :=
  match obj with
  | JList (x :: _) => Return x
  | JList [] => Raise IndexError
  | JStr (String c _) => Return (JStr (String c EmptyString))
  | JStr EmptyString => Raise IndexError
  | JObj _ => Raise KeyError
  | _ => Raise TypeError
  end.

(** [obj.copy()]: dicts and lists have it. *)
Definition py_copy (obj : json) : outcome json :=
  match obj with
  | JObj _ | JList _ => Return obj
  | _ => Raise AttributeError
  end.

(** [del obj[key]] with a [str] key: what is left of [obj]. *)
Definition py_delitem (obj : json) (k : string) : outcome (dict json) :=
  match obj with
  | JObj kvs => match dict_get kvs k with
                | Some _ => Return (dict_del kvs k)
                | None => Raise KeyError
                end
  | _ => Raise TypeError
  end.

(** ** [Pool] and [CephCluster.load_pools] *)

(** A [Pool] is its [__dict__]: [load_pools] adds attributes to it by name. *)
Abbreviation Pool := (gmap string json) (only parsing).

Definition new_Pool (pool_id name size min_size pg pgp crush_rule extra : json)
  : Pool :=
  <["extra" := extra]> (<["crush_rule" := crush_rule]> (<["pgp" := pgp]>
  (<["pg" := pg]> (<["min_size" := min_size]> (<["size" := size]>
  (<["name" := name]> (<["id" := pool_id]> ∅))))))).

(** [d.update(kvs)] *)
Definition dict_update (d : gmap string json) (kvs : dict json) : gmap string json :=
  fold_left (fun m kv => <[fst kv := snd kv]> m) kvs d.

(** The first loop of [load_pools]. *)
Definition add_pool (is_luminous : bool) (pools : gmap Z Pool) (info : json)
  : outcome (gmap Z Pool) :=
  do pool_id <- py_getitem info "pool";
  do name <- py_getitem info "pool_name";
  do size <- py_getitem info "size";
  do min_size <- py_getitem info "min_size";
  do pg <- py_getitem info "pg_num";
  do pgp <- py_getitem info "pg_placement_num";
  do crush_rule <- py_getitem info (if is_luminous then "crush_rule" else "crush_ruleset");
  let pool := new_Pool pool_id name size min_size pg pgp crush_rule info in
  do key <- py_int pool_id;
  Return (<[key := pool]> pools).

(** [self.pools[int(pool_part['id'])]] *)
Definition pool_of_part (pools : gmap Z Pool) (pool_part : json)
  : outcome (Z * Pool) :=
  do id <- py_getitem pool_part "id";
  do key <- py_int id;
  match pools !! key with
  | Some pool => Return (key, pool)
  | None => Raise KeyError
  end.

(** The argument of [update] is a mapping. *)
Definition as_dict (obj : json) : outcome (dict json) :=
  match obj with
  | JObj kvs => Return kvs
  | _ => Raise TypeError
  end.

(** The second loop of [load_pools]. *)
Definition merge_usage (pools : gmap Z Pool) (pool_part : json)
  : outcome (gmap Z Pool) :=
  do has_categories <- py_contains "categories" pool_part;
  if negb has_categories then
    do ' (key, pool) <- pool_of_part pools pool_part;
    do fields <- as_dict pool_part;
    Return (<[key := dict_update pool fields]> pools)
  else
    do categories <- py_getitem pool_part "categories";
    do n <- py_len categories;
    do _ <- assert (n =? 1);
    do first <- py_first categories;
    do cat <- py_copy first;
    do fields <- py_delitem cat "name";
    do ' (key, pool) <- pool_of_part pools pool_part;
    Return (<[key := dict_update pool fields]> pools).

Definition load_pools (is_luminous : bool) (osd_dump rados_df : json)
  : outcome (gmap Z Pool) :=
  do infos <- (do l <- py_getitem osd_dump "pools"; py_iter l);
  do pools <- foldM (add_pool is_luminous) infos ∅;
  do parts <- (do l <- py_getitem rados_df "pools"; py_iter l);
  foldM merge_usage parts pools.

(** ** Hosts and monitors *)

(** The numeric arrays of the performance monitor, read as arrays of
    doubles. *)
Record PerfData := {
  collected_at : option (list spec_float);
  sensors : gmap string (gmap string (gmap string (list spec_float)))
}.

(** [Host], with the attributes the loaders below read or write. *)
Record Host := {
  host_name : string;
  host_stor_id : string;
  host_osd_ids : gset Z;
  host_mon_name : json;
  host_perf_monitoring : option PerfData
}.

Definition set_mon_name (h : Host) (name : json) : Host :=
  {| host_name := host_name h; host_stor_id := host_stor_id h;
     host_osd_ids := host_osd_ids h; host_mon_name := name;
     host_perf_monitoring := host_perf_monitoring h |}.

Record CephMonitor := {
  mon_name : json;
  mon_status : json;
  mon_host : json;
  mon_role : json;
  mon_health : json;
  mon_kb_avail : json;
  mon_avail_percent : json
}.

(** The [for host in self.hosts.values(): ... break / else] of
    [load_monitors]: the first host of that name gets the monitor's name;
    [None] when the loop ends without [break]. *)
Fixpoint assign_monitor (hosts : list Host) (mon_host mon_name : json)
  : option (list Host) :=
  match hosts with
  | [] => None
  | h :: hs =>
      if is_str (host_name h) mon_host then Some (set_mon_name h mon_name :: hs)
      else option_map (cons h) (assign_monitor hs mon_host mon_name)
  end.

(** Where the list of monitors comes from. *)
Definition monitor_listing (is_luminous : bool) (status : json) : outcome json :=
  if is_luminous then
    do monmap <- py_getitem status "monmap";
    py_getitem monmap "mons"
  else
    do health <- py_getitem status "health";
    do health' <- py_getitem health "health";
    do srv_health <- py_getitem health' "health_services";
    do n <- py_len srv_health;
    do _ <- assert (n =? 1);
    do first <- py_first srv_health;
    py_getitem first "mons".

(** One turn of the loop over the monitors; the state is the hosts (the
    values of [self.hosts], in order) and [self.mons]. *)
Definition load_monitor (is_luminous : bool) (st : list Host * list CephMonitor)
    (srv : json) : M (list Host * list CephMonitor) :=
  let '(hosts, mons) := st in
  run health <- lift (if is_luminous then Return JNull else py_getitem srv "health");
  run name <- lift (py_getitem srv "name");
  match assign_monitor hosts name name with
  | None => exec log (ErrNoHostForMonitor name); raise ValueError
  | Some hosts' =>
      run kb_avail <- lift (if is_luminous then Return JNull
                            else py_getitem srv "kb_avail");
      run avail_percent <- lift (if is_luminous then Return JNull
                                 else py_getitem srv "avail_percent");
      ret (hosts',
           mons ++ [{| mon_name := name; mon_status := JNull; mon_host := name;
                       mon_role := JNull; mon_health := health;
                       mon_kb_avail := kb_avail;
                       mon_avail_percent := avail_percent |}])
  end.

Definition load_monitors (is_luminous : bool) (status : json)
    (st : list Host * list CephMonitor) : M (list Host * list CephMonitor) :=
  run listing <- lift (monitor_listing is_luminous status);
  run srvs <- lift (py_iter listing);
  foldMl (load_monitor is_luminous) srvs st.

(** ** [CephCluster.load_PG_distribution] *)

(** [s.split(sep, 1)[0]]: what precedes the first separator. *)
Fixpoint before_first (sep : ascii) (s : string) : string :=
  match s with
  | EmptyString => EmptyString
  | String c s' => if Ascii.eqb c sep then EmptyString
                   else String c (before_first sep s')
  end.

(** An entry of the [pg_stats] list of [pg_dump]. *)
Record PgStat := {
  pgid : string;
  acting : list Z
}.

(** An entry of the [osd] folder of the bundle.  Iterating the folder gives
    the pairs [(is_file, name)]; [entry_pgs] is the text stored as
    [osd/<name>/pgs], when the collector saved one. *)
Record DirEntry := {
  entry_is_file : bool;
  entry_name : string;
  entry_pgs : option string
}.

Record PGCounters := {
  osd_pool_pg_2d : gmap Z (gmap string Z);
  sum_per_pool : gmap string Z;
  sum_per_osd : gmap Z Z
}.

Definition no_pgs : PGCounters :=
  {| osd_pool_pg_2d := ∅; sum_per_pool := ∅; sum_per_osd := ∅ |}.

(** [counter[key] += 1] *)
Definition incr `{Countable K} (c : gmap K Z) (k : K) : gmap K Z :=
  <[k := default 0 (c !! k) + 1]> c.

(** The three increments of the loops. *)
Definition credit (c : PGCounters) (osd_num : Z) (pool_name : string) : PGCounters :=
  {| osd_pool_pg_2d :=
       <[osd_num := incr (default ∅ (osd_pool_pg_2d c !! osd_num)) pool_name]>
         (osd_pool_pg_2d c);
     sum_per_pool := incr (sum_per_pool c) pool_name;
     sum_per_osd := incr (sum_per_osd c) osd_num |}.

(** [dict((dt['poolnum'], dt['poolname']) for dt in osd_lspools)] *)
Definition pool_id2name (osd_lspools : list (Z * string)) : gmap Z string :=
  fold_left (fun m kv => <[fst kv := snd kv]> m) osd_lspools ∅.

(** The loop over the [osd] folder, taken when there is no [pg_dump].
    [node] is the name of the entry, a [str]: ['pgs' in node] asks whether
    the name contains the letters, and [node.pgs] would be an attribute
    of the name.  The state is the counters and [pg_missing_reported]. *)
Definition pgs_of_entry (id2name : gmap Z string) (st : PGCounters * bool)
    (entry : DirEntry) : M (PGCounters * bool) :=
  let node := entry_name entry in
  if negb (entry_is_file entry) && isdigit node then
    run osd_num <- lift (int_of_str node);
    if is_substring "pgs" node then raise AttributeError
    else if negb (snd st) then
      exec log (WarnNoPGs osd_num); ret (fst st, true)
    else ret st
  else ret st.

(** The loop over [pg_dump['pg_stats']]. *)
Definition pgs_of_stat (id2name : gmap Z string) (c : PGCounters) (pg : PgStat)
  : outcome PGCounters :=
  do pool <- int_of_str (before_first "." (pgid pg));
  foldM (fun c osd_num =>
           match id2name !! pool with
           | Some pool_name => Return (credit c osd_num pool_name)
           | None => Raise KeyError
           end)
        (acting pg) c.

Definition load_PG_distribution (pg_dump : option (list PgStat))
    (osd_lspools : list (Z * string)) (txt_osd : list DirEntry) : M PGCounters :=
  let id2name := pool_id2name osd_lspools in
  match pg_dump with
  | None =>
      run st <- foldMl (pgs_of_entry id2name) txt_osd (no_pgs, false);
      ret (fst st)
  | Some pg_stats => lift (foldM (pgs_of_stat id2name) pg_stats no_pgs)
  end.

(** ** Doubles *)

Definition b64_add : spec_float -> spec_float -> spec_float := SFadd 53 1024.
Definition b64_mul : spec_float -> spec_float -> spec_float := SFmul 53 1024.
Definition b64_div : spec_float -> spec_float -> spec_float := SFdiv 53 1024.
Definition b64_ltb : spec_float -> spec_float -> bool := SFltb.

(** [1.0] *)
Definition b64_one : spec_float := S754_finite false 4503599627370496 (-52).

(** [bool(x)] for a float. *)
Definition float_truthy (x : spec_float) : bool :=
  match x with
  | S754_zero _ => false
  | _ => true
  end.

(** [sum(data)]: from the integer zero, left to right. *)
Definition py_sum (data : list spec_float) : spec_float :=
  fold_left b64_add data (S754_zero false).

(** ** Network adapters and [CephCluster.load_interfaces] *)

Record NetLoad := {
  nl_send_bytes : option (list spec_float);
  nl_recv_bytes : option (list spec_float);
  nl_send_packets : option (list spec_float);
  nl_recv_packets : option (list spec_float);
  nl_send_bytes_avg : option spec_float;
  nl_recv_bytes_avg : option spec_float;
  nl_send_packets_avg : option spec_float;
  nl_recv_packets_avg : option spec_float
}.

Definition new_NetLoad : NetLoad :=
  {| nl_send_bytes := None; nl_recv_bytes := None; nl_send_packets := None;
     nl_recv_packets := None; nl_send_bytes_avg := None; nl_recv_bytes_avg := None;
     nl_send_packets_avg := None; nl_recv_packets_avg := None |}.

(** The metrics of ['send_bytes send_packets recv_packets recv_bytes'.split()]. *)
Inductive metric := send_bytes | send_packets | recv_packets | recv_bytes.

Definition metrics : list metric := [send_bytes; send_packets; recv_packets; recv_bytes].

Definition metric_name (m : metric) : string :=
  match m with
  | send_bytes => "send_bytes"
  | send_packets => "send_packets"
  | recv_packets => "recv_packets"
  | recv_bytes => "recv_bytes"
  end.

(** [setattr(load, metric, data); setattr(load, metric + "_avg", avg)] *)
Definition set_metric (load : NetLoad) (m : metric) (data : list spec_float)
    (avg : spec_float) : NetLoad :=
  match m with
  | send_bytes =>
      {| nl_send_bytes := Some data; nl_recv_bytes := nl_recv_bytes load;
         nl_send_packets := nl_send_packets load;
         nl_recv_packets := nl_recv_packets load;
         nl_send_bytes_avg := Some avg; nl_recv_bytes_avg := nl_recv_bytes_avg load;
         nl_send_packets_avg := nl_send_packets_avg load;
         nl_recv_packets_avg := nl_recv_packets_avg load |}
  | send_packets =>
      {| nl_send_bytes := nl_send_bytes load; nl_recv_bytes := nl_recv_bytes load;
         nl_send_packets := Some data;
         nl_recv_packets := nl_recv_packets load;
         nl_send_bytes_avg := nl_send_bytes_avg load;
         nl_recv_bytes_avg := nl_recv_bytes_avg load;
         nl_send_packets_avg := Some avg;
         nl_recv_packets_avg := nl_recv_packets_avg load |}
  | recv_packets =>
      {| nl_send_bytes := nl_send_bytes load; nl_recv_bytes := nl_recv_bytes load;
         nl_send_packets := nl_send_packets load;
         nl_recv_packets := Some data;
         nl_send_bytes_avg := nl_send_bytes_avg load;
         nl_recv_bytes_avg := nl_recv_bytes_avg load;
         nl_send_packets_avg := nl_send_packets_avg load;
         nl_recv_packets_avg := Some avg |}
  | recv_bytes =>
      {| nl_send_bytes := nl_send_bytes load; nl_recv_bytes := Some data;
         nl_send_packets := nl_send_packets load;
         nl_recv_packets := nl_recv_packets load;
         nl_send_bytes_avg := nl_send_bytes_avg load;
         nl_recv_bytes_avg := Some avg;
         nl_send_packets_avg := nl_send_packets_avg load;
         nl_recv_packets_avg := nl_recv_packets_avg load |}
  end.

(** What [getattr(load, metric)] and [getattr(load, metric + "_avg")] give. *)
Definition get_metric (load : NetLoad) (m : metric)
  : option (list spec_float) * option spec_float :=
  match m with
  | send_bytes => (nl_send_bytes load, nl_send_bytes_avg load)
  | send_packets => (nl_send_packets load, nl_send_packets_avg load)
  | recv_packets => (nl_recv_packets load, nl_recv_packets_avg load)
  | recv_bytes => (nl_recv_bytes load, nl_recv_bytes_avg load)
  end.

(** An address of an adapter: the address and its network (network
    address, prefix length), both as numbers below [2^32]. *)
Record NetAdapterAddr := {
  addr_ip : Z;
  addr_net : Z * Z
}.

(** [NetworkAdapter]: the attributes that hold decoded JSON by name
    ([name], [is_phy], [speed], [duplex], [mtu] and what
    [__dict__.update] adds), the addresses and the load.  An interface
    record is taken to have no key [ips]. *)
Record NetworkAdapter := {
  na_attrs : gmap string json;
  na_ips : list NetAdapterAddr;
  na_load : option NetLoad
}.

Definition new_NetworkAdapter (name : string) : gmap string json :=
  <["mtu" := JNull]> (<["duplex" := JNull]> (<["speed" := JNull]>
  (<["is_phy" := JNull]> (<["name" := JStr name]> ∅)))).

(** The [for metric in ...: ... break / else] of [load_interfaces]:
    [None] when the loop ends in [break]. *)
Fixpoint fill_load (load_node : gmap string (list spec_float)) (dtime : spec_float)
    (ms : list metric) (load : NetLoad) : option NetLoad :=
  match ms with
  | [] => Some load
  | m :: ms' =>
      match load_node !! metric_name m with
      | None => None
      | Some data =>
          fill_load load_node dtime ms'
                    (set_metric load m data (b64_div (py_sum data) dtime))
      end
  end.

(** [host.perf_monitoring.get('net-io', {}).get(adapter.name, {})] *)
Definition load_node_of (perf : PerfData) (name : json)
  : outcome (gmap string (list spec_float)) :=
  if hashable name then
    Return (match name with
            | JStr s => default ∅ (default ∅ (sensors perf !! "net-io") !! s)
            | _ => ∅
            end)
  else Raise TypeError.

(** [bool(host.perf_monitoring)]: the dictionary is not empty. *)
Definition perf_truthy (perf : option PerfData) : bool :=
  match perf with
  | Some p => match collected_at p with
              | Some _ => true
              | None => negb (bool_decide (sensors p = ∅))
              end
  | None => false
  end.

(** [dtime and dtime > 1.0 and host.perf_monitoring] *)
Definition window_ok (dtime : option spec_float) (perf : option PerfData) : bool :=
  match dtime with
  | Some t => float_truthy t && b64_ltb b64_one t && perf_truthy perf
  | None => false
  end.

(** The load of an adapter, as the first loop leaves it. *)
Definition adapter_load (perf : option PerfData) (dtime : option spec_float)
    (name : json) : outcome (option NetLoad) :=
  match dtime, perf with
  | Some t, Some p =>
      if window_ok dtime perf then
        do load_node <- load_node_of p name;
        Return (fill_load load_node t metrics new_NetLoad)
      else Return None
  | _, _ => Return None
  end.

(** One turn of the first loop, for the record [adapter_dct] whose ['dev']
    is [dev] and whose other keys are [fields]. *)
Definition make_adapter (host : Host) (ifs_info : gmap string Z)
    (dtime : option spec_float) (dev : string) (fields : dict json)
  : M NetworkAdapter :=
  let attrs := delete "load" (dict_update (new_NetworkAdapter dev) fields) in
  run attrs' <- match ifs_info !! dev with
                | Some mtu => ret (<["mtu" := JInt mtu]> attrs)
                | None => exec log (WarnNoMtu dev (host_name host)); ret attrs
                end;
  run load <- lift (adapter_load (host_perf_monitoring host) dtime
                                 (default JNull (attrs' !! "name")));
  ret {| na_attrs := attrs'; na_ips := []; na_load := load |}.

(** [IPv4Network("{}/{}".format(ip, size), strict=False)] *)
Definition ipv4_network (ip size : Z) : outcome (Z * Z) :=
  if size <=? 32 then
    Return (Z.shiftl (Z.shiftr ip (32 - size)) (32 - size), size)
  else Raise ValueError.

(** One turn of the second loop, for a line of [ipa4] that the pattern
    matches: its adapter, address and prefix length. *)
Definition add_address (net_adapters : dict NetworkAdapter)
    (line : string * Z * Z) : M (dict NetworkAdapter) :=
  let '(dev_name, ip, size) := line in
  run net <- lift (ipv4_network ip size);
  match dict_get net_adapters dev_name with
  | None => exec log (WarnNoAdapter dev_name ip); ret net_adapters
  | Some adapter =>
      ret (dict_set net_adapters dev_name
             {| na_attrs := na_attrs adapter;
                na_ips := na_ips adapter ++ [{| addr_ip := ip; addr_net := net |}];
                na_load := na_load adapter |})
  end.

(** [load_interfaces].  [interfaces] is [jstor_node.interfaces], each
    record split into its ['dev'] and the rest; [ifs_info] is
    [parse_ipa(stor_node.ipa)] read as a map from adapter to MTU; [ipa4] is
    the lines of [stor_node.ipa4] that match the address pattern. *)
Definition load_interfaces (host : Host) (interfaces : list (string * dict json))
    (ifs_info : gmap string Z) (ipa4 : list (string * Z * Z))
    (dtime : option spec_float) : M (dict NetworkAdapter) :=
  run net_adapters <-
    foldMl (fun net_adapters '(dev, fields) =>
              run adapter <- make_adapter host ifs_info dtime dev fields;
              ret (dict_set net_adapters dev adapter))
           interfaces [];
  foldMl add_address ipa4 net_adapters.

(** ** Floating point: doubles and numpy's [float32] *)

Definition b64_of_Z (z : Z) : spec_float := binary_normalize 53 1024 z 0 false.

(** [float(z)] for a Python integer. *)
Definition py_float (z : Z) : outcome spec_float :=
  match b64_of_Z z with
  | S754_infinity _ => Raise OverflowError
  | f => Return f
  end.

(** [0.5] and [100.0] *)
Definition b64_half : spec_float := S754_finite false 4503599627370496 (-53).
Definition b64_hundred : spec_float := S754_finite false 7036874417766400 (-46).

Definition b32_sub : spec_float -> spec_float -> spec_float := SFsub 24 128.
Definition b32_div : spec_float -> spec_float -> spec_float := SFdiv 24 128.

(** A double rounded to [float32]. *)
Definition b32_of_b64 (f : spec_float) : spec_float :=
  match f with
  | S754_finite s m e => binary_round 24 128 s m e
  | _ => f
  end.

(** [NO_VALUE] and [numpy.inf] as [float32]. *)
Definition NO_VALUE : spec_float := S754_finite true 8388608 (-23).
Definition b32_inf : spec_float := S754_infinity false.

Definition b32_isnan (f : spec_float) : bool :=
  match f with
  | S754_nan => true
  | _ => false
  end.

(** [x < 0], [0 < x], and being a number (not an infinity, not a NaN). *)
Definition below_zero (x : spec_float) : bool := SFltb x (S754_zero false).
Definition above_zero (x : spec_float) : bool := SFltb (S754_zero false) x.

Definition is_finite (x : spec_float) : bool :=
  match x with
  | S754_zero _ | S754_finite _ _ _ => true
  | _ => false
  end.

Definition is_infinite (x : spec_float) : bool :=
  match x with
  | S754_infinity _ => true
  | _ => false
  end.

(** A number of a decoded JSON document. *)
Inductive number :=
| NInt (z : Z)
| NFloat (f : spec_float).

(** An element of [numpy.array(..., dtype=numpy.float32)]: a Python
    integer goes through a double. *)
Definition to_f32 (n : number) : outcome spec_float :=
  match n with
  | NInt z => do f <- py_float z; Return (b32_of_b64 f)
  | NFloat f => Return (b32_of_b64 f)
  end.

(** [a[1:] - a[:-1]] *)
Fixpoint diffs (a : list spec_float) : list spec_float :=
  match a with
  | x :: (y :: _) as a' => b32_sub y x :: diffs a'
  | _ => []
  end.

(** [avg_vals[avg_vals == numpy.inf] = NO_VALUE;
     avg_vals[numpy.isnan(avg_vals)] = NO_VALUE] *)
Definition mask_no_value (x : spec_float) : spec_float :=
  let x' := if SFeqb x b32_inf then NO_VALUE else x in
  if b32_isnan x' then NO_VALUE else x'.

(** [(values[1:] - values[:-1]) / (count[1:] - count[:-1])], masked. *)
Fixpoint zip_div (vd cd : list spec_float) : list spec_float :=
  match vd, cd with
  | v :: vd', c :: cd' => b32_div v c :: zip_div vd' cd'
  | _, _ => []
  end.

Definition avg_vals (values count : list spec_float) : list spec_float :=
  map mask_no_value (zip_div (diffs values) (diffs count)).

(** ** [parse_txt_ceph_config] *)

(** [line.split(sep, 1)]: the two parts around the first separator, if
    there is one. *)
Fixpoint split_first (sep : ascii) (s : string) : option (string * string) :=
  match s with
  | EmptyString => None
  | String c s' =>
      if Ascii.eqb c sep then Some (EmptyString, s')
      else match split_first sep s' with
           | Some (a, b) => Some (String c a, b)
           | None => None
           end
  end.

Definition parse_txt_ceph_config (data : string) : outcome (dict string) :=
  foldM (fun config line =>
           match split_first "=" line with
           | Some (name, val) => Return (dict_set config (strip name) (strip val))
           | None => Raise ValueError
           end)
        (split_on newline (strip data)) [].

(** ** [CephOSD] and [CephCluster.load_osds] *)

Inductive osd_status := up | down.

(** A value of [osd.osd_perf]: an array of [float32], or a number of the
    [osd_perf] listing. *)
Inductive perf_value :=
| PerfArray (a : list spec_float)
| PerfScalar (j : json).

(** An attribute that [__init__] does not create: an object has it only
    once a value was assigned to it. *)
Inductive attribute (A : Type) :=
| NoAttribute
| Attribute (a : A).
Arguments NoAttribute {A}.
Arguments Attribute {A} a.

Record CephOSD := {
  osd_id : option Z;
  osd_reweight : json;
  osd_status_ : option osd_status;
  osd_host : option nat;
  osd_cluster_ip : option string;
  osd_public_ip : option string;
  osd_pg_count : option Z;
  osd_config : option (dict string);
  osd_journal_dev : json;
  osd_journal_partition : json;
  osd_data_dev : json;
  osd_data_partition : json;
  osd_db_dev : json;
  osd_db_partition : json;
  osd_wal_dev : json;
  osd_wal_partition : json;
  osd_version : option (string * string);
  osd_perf : gmap string perf_value;
  osd_historic_ops_storage_path : option string;
  osd_historicjs_ops_storage_path : attribute (option string);
  osd_used_space : option Z;
  osd_free_space : option Z;
  osd_free_perc : option Z;
  osd_procinfo : json;
  osd_cmdline : option (list string);
  osd_storage_type : json
}.

(** [CephOSD()] *)
Definition new_CephOSD : CephOSD :=
  {| osd_id := None; osd_reweight := JNull; osd_status_ := None; osd_host := None;
     osd_cluster_ip := None; osd_public_ip := None; osd_pg_count := None;
     osd_config := None;
     osd_journal_dev := JNull; osd_journal_partition := JNull;
     osd_data_dev := JNull; osd_data_partition := JNull;
     osd_db_dev := JNull; osd_db_partition := JNull;
     osd_wal_dev := JNull; osd_wal_partition := JNull;
     osd_version := None; osd_perf := ∅;
     osd_historic_ops_storage_path := None;
     osd_historicjs_ops_storage_path := NoAttribute;
     osd_used_space := None; osd_free_space := None; osd_free_perc := None;
     osd_procinfo := JNull; osd_cmdline := None; osd_storage_type := JNull |}.

(** The artifacts [load_osds] reads, decoded, with the keys it uses. *)

(** An entry of [osd_dump['osds']]. *)
Record OsdDump := {
  od_osd : Z;
  od_up : bool;
  od_cluster_addr : string;
  od_public_addr : string
}.

(** An entry of [osd_df['nodes']]. *)
Record OsdDf := {
  df_id : Z;
  df_kb_used : Z;
  df_kb_avail : Z
}.

(** A counter of a performance dump. *)
Record PerfCounter := {
  avgcount : number;
  sum : number
}.

(** The ["filestore"] section of one performance dump. *)
Record FilestorePerf := {
  apply_latency : PerfCounter;
  commitcycle_latency : PerfCounter;
  journal_latency : PerfCounter;
  journal_wr_bytes : PerfCounter
}.

(** The folder [osd/<id>] of the bundle. *)
Record OsdNode := {
  node_devs_cfg : json;
  node_config : option string;
  node_cmdline : option string;
  node_procinfo : option json
}.

(** What [load_perf_monitoring] found for the OSDs. *)
Record OsdPerfData := {
  osd_perf_dump : gmap Z (list FilestorePerf);
  osd_historic_ops_paths : gmap Z string;
  osd_historicjs_ops_paths : gmap Z string
}.

Record OsdStorage := {
  osd_tree_nodes : list (Z * json);
  osd_versions : gmap Z (string * string);
  osd_perf_infos : list (Z * (json * json));
  osd_df_nodes : list OsdDf;
  osd_dump_osds : list OsdDump;
  osd_nodes : gmap Z OsdNode
}.

(** The part of [CephCluster] that [load_osds] reads and writes.  OSD
    objects live in [osd_heap] and are named by their position there:
    [osds] and [osd_map] hold such positions, so that what is written to
    an object after it was stored is seen through both.  The keys of
    [osd_map] are Python values, [None] or an integer.  [ip2host] and
    [osd_host] hold positions in [hosts]. *)
Record Cluster := {
  hosts : list Host;
  ip2host : gmap string nat;
  osd_heap : list CephOSD;
  osds : list nat;
  osd_map : gmap (option Z) nat;
  pg_sum_per_osd : gmap Z Z;
  perf_data : option OsdPerfData
}.

Definition has_performance_data (c : Cluster) : bool :=
  match perf_data c with Some _ => true | None => false end.

(** [dict((node['id'], node['reweight']) for node in ... if node['id'] >= 0)] *)
Definition osd_rw_dict (nodes : list (Z * json)) : gmap Z json :=
  fold_left (fun m kv => if 0 <=? fst kv then <[fst kv := snd kv]> m else m) nodes ∅.

Definition osd_perf_scalar (infos : list (Z * (json * json))) : gmap Z (json * json) :=
  fold_left (fun m kv => <[fst kv := snd kv]> m) infos ∅.

Definition osd_df_map (nodes : list OsdDf) : gmap Z OsdDf :=
  fold_left (fun m n => <[df_id n := n]> m) nodes ∅.

(** The quotient [n / d] rounded to the nearest integer, a half upwards. *)
Definition round_half_up (n d : Z) : Z := (2 * n + d) / (2 * d).

(** The quotient [n / d] rounded to the nearest integer, a half to the
    even one, as [round()] does in Python. *)
Definition round_half_even (n d : Z) : Z :=
  let q := n / d in
  match 2 * (n mod d) ?= d with
  | Lt => q
  | Gt => q + 1
  | Eq => if Z.even q then q else q + 1
  end.

(** The position of [a / b], in the unit interval, as the rounding of
    [SpecFloat] has it: exact, or below, at or above the middle. *)
Definition loc_of (a b : Z) : location :=
  if a =? 0 then loc_Exact else loc_Inexact (2 * a ?= b).

(** The rational value of a positive finite float. *)
Definition fval (m : positive) (e : Z) : Q := (inject_Z (Z.pos m) * 2 ^ e)%Q.

(** A full mantissa of 53 bits. *)
Definition normal (m : positive) : Prop := 2 ^ 52 <= Z.pos m < 2 ^ 53.

(** [int((free * 100.0) / (free + used) + 0.5)], in doubles. *)
Definition free_perc_of (free_space used_space : Z) : outcome Z :=
  do free <- py_float free_space;
  do total <- py_float (free_space + used_space);
  if float_truthy total then
    float_trunc (b64_add (b64_div (b64_mul free b64_hundred) total) b64_half)
  else Raise ZeroDivisionError.

(** The three latency series of an OSD and the two journal series. *)
Definition latency_series (dump : list FilestorePerf)
    (field : FilestorePerf -> PerfCounter) : outcome (list spec_float) :=
  do count <- mapM (fun obj => to_f32 (avgcount (field obj))) dump;
  do values <- mapM (fun obj => to_f32 (sum (field obj))) dump;
  Return (avg_vals values count).

Definition perf_of_dump (dump : list FilestorePerf)
    (osd_perf0 : gmap string perf_value) : outcome (gmap string perf_value) :=
  do a <- latency_series dump apply_latency;
  do c <- latency_series dump commitcycle_latency;
  do j <- latency_series dump journal_latency;
  do ops <- mapM (fun obj => to_f32 (avgcount (journal_wr_bytes obj))) dump;
  do bytes <- mapM (fun obj => to_f32 (sum (journal_wr_bytes obj))) dump;
  Return (<["journal_bytes" := PerfArray (diffs bytes)]>
          (<["journal_ops" := PerfArray (diffs ops)]>
          (<["journal_latency" := PerfArray j]>
          (<["commitcycle_latency" := PerfArray c]>
          (<["apply_latency" := PerfArray a]> osd_perf0))))).

(** [d[key]] for a dictionary with integer keys. *)
Definition getitem_Z {V} (d : gmap Z V) (k : Z) : outcome V :=
  match d !! k with
  | Some v => Return v
  | None => Raise KeyError
  end.

(** [host.osd_ids.add(osd_id)] for the host at position [h]. *)
Definition add_osd_id (hosts : list Host) (h : nat) (id : Z) : list Host :=
  alter (fun host =>
           {| host_name := host_name host; host_stor_id := host_stor_id host;
              host_osd_ids := {[id]} ∪ host_osd_ids host;
              host_mon_name := host_mon_name host;
              host_perf_monitoring := host_perf_monitoring host |})
        h hosts.

(** The OSD as it is when the loop reaches [if osd.status == 'down']. *)
Definition osd_identified (id : Z) (reweight : json) (status : osd_status)
    (version : option (string * string)) (pg_count : Z) (host : nat)
    (cluster_ip public_ip : string) : CephOSD :=
  {| osd_id := Some id; osd_reweight := reweight; osd_status_ := Some status;
     osd_host := Some host;
     osd_cluster_ip := Some cluster_ip; osd_public_ip := Some public_ip;
     osd_pg_count := Some pg_count;
     osd_config := osd_config new_CephOSD;
     osd_journal_dev := osd_journal_dev new_CephOSD;
     osd_journal_partition := osd_journal_partition new_CephOSD;
     osd_data_dev := osd_data_dev new_CephOSD;
     osd_data_partition := osd_data_partition new_CephOSD;
     osd_db_dev := osd_db_dev new_CephOSD;
     osd_db_partition := osd_db_partition new_CephOSD;
     osd_wal_dev := osd_wal_dev new_CephOSD;
     osd_wal_partition := osd_wal_partition new_CephOSD;
     osd_version := version; osd_perf := osd_perf new_CephOSD;
     osd_historic_ops_storage_path := osd_historic_ops_storage_path new_CephOSD;
     osd_historicjs_ops_storage_path := osd_historicjs_ops_storage_path new_CephOSD;
     osd_used_space := osd_used_space new_CephOSD;
     osd_free_space := osd_free_space new_CephOSD;
     osd_free_perc := osd_free_perc new_CephOSD;
     osd_procinfo := osd_procinfo new_CephOSD;
     osd_cmdline := osd_cmdline new_CephOSD;
     osd_storage_type := osd_storage_type new_CephOSD |}.

(** The devices of an OSD: [(journal_dev, journal_partition, data_dev,
    data_partition, db_dev, db_partition, wal_dev, wal_partition)]. *)
Definition osd_devices (storage_type devs_cfg : json)
  : outcome (json * json * json * json * json * json * json * json) :=
  if is_str "filestore" storage_type then
    do data_dev <- py_getitem devs_cfg "r_data";
    do data_partition <- py_getitem devs_cfg "data";
    do journal_dev <- py_getitem devs_cfg "r_journal";
    do journal_partition <- py_getitem devs_cfg "journal";
    Return (journal_dev, journal_partition, data_dev, data_partition,
            JNull, JNull, JNull, JNull)
  else
    do _ <- assert (is_str "bluestore" storage_type);
    do data_dev <- py_getitem devs_cfg "r_data";
    do data_partition <- py_getitem devs_cfg "data";
    do db_dev <- py_getitem devs_cfg "r_db";
    do db_partition <- py_getitem devs_cfg "db";
    do wal_dev <- py_getitem devs_cfg "r_wal";
    do wal_partition <- py_getitem devs_cfg "wal";
    Return (JNull, JNull, data_dev, data_partition,
            db_dev, db_partition, wal_dev, wal_partition).

(** [("apply_latency", "commitcycle_latency", "journal_latency")] *)
Definition latency_fields : list (string * (FilestorePerf -> PerfCounter)) :=
  [("apply_latency", apply_latency);
   ("commitcycle_latency", commitcycle_latency);
   ("journal_latency", journal_latency)].

(** The body of [if self.has_performance_data]: [osd_perf] and the two
    paths.  Without performance data nothing is assigned to
    [historicjs_ops_storage_path], and the object has no such attribute. *)
Definition osd_performance (perf : option OsdPerfData)
    (scalars : gmap Z (json * json)) (id : Z)
  : outcome (gmap string perf_value * option string
             * attribute (option string)) :=
  match perf with
  | None => Return (∅, None, NoAttribute)
  | Some p =>
      do series <- match osd_perf_dump p !! id with
                   | Some dump => perf_of_dump dump ∅
                   | None => Return ∅
                   end;
      do ' (apply_ms, commit_ms) <- getitem_Z scalars id;
      Return (<["commitcycle_latency_s" := PerfScalar commit_ms]>
              (<["apply_latency_s" := PerfScalar apply_ms]> series),
              osd_historic_ops_paths p !! id,
              Attribute (osd_historicjs_ops_paths p !! id))
  end.

(** What follows [if osd.status == 'down': continue], for an OSD that is
    up. *)
Definition osd_loaded (st : OsdStorage) (perf : option OsdPerfData)
    (osd : CephOSD) (id : Z) : outcome CephOSD :=
  do node <- getitem_Z (osd_nodes st) id;
  do storage_type <- py_getitem (node_devs_cfg node) "type";
  do ' (journal_dev, journal_partition, data_dev, data_partition,
        db_dev, db_partition, wal_dev, wal_partition)
     <- osd_devices storage_type (node_devs_cfg node);
  do osd_df_data <- getitem_Z (osd_df_map (osd_df_nodes st)) id;
  let used_space := df_kb_used osd_df_data * 1024 in
  let free_space := df_kb_avail osd_df_data * 1024 in
  do free_perc <- free_perc_of free_space used_space;
  do ' (perf_values, historic, historicjs)
     <- osd_performance perf (osd_perf_scalar (osd_perf_infos st)) id;
  do config <- match node_config node with
               | None => Return None
               | Some text => do c <- parse_txt_ceph_config text; Return (Some c)
               end;
  (* [get_raw] gives bytes, and [bytes.split] takes no [str] *)
  do _ <- match node_cmdline node with
          | None => Return tt
          | Some _ => Raise TypeError
          end;
  Return
    {| osd_id := osd_id osd; osd_reweight := osd_reweight osd;
       osd_status_ := osd_status_ osd; osd_host := osd_host osd;
       osd_cluster_ip := osd_cluster_ip osd; osd_public_ip := osd_public_ip osd;
       osd_pg_count := osd_pg_count osd;
       osd_config := config;
       osd_journal_dev := journal_dev; osd_journal_partition := journal_partition;
       osd_data_dev := data_dev; osd_data_partition := data_partition;
       osd_db_dev := db_dev; osd_db_partition := db_partition;
       osd_wal_dev := wal_dev; osd_wal_partition := wal_partition;
       osd_version := osd_version osd; osd_perf := perf_values;
       osd_historic_ops_storage_path := historic;
       osd_historicjs_ops_storage_path := historicjs;
       osd_used_space := Some used_space; osd_free_space := Some free_space;
       osd_free_perc := Some free_perc;
       osd_procinfo := default JNull (node_procinfo node);
       osd_cmdline := None;
       osd_storage_type := storage_type |}.

(** One turn of the loop over [osd_dump['osds']]. *)
Definition load_osd (st : OsdStorage) (c : Cluster) (osd_data : OsdDump) : M Cluster :=
  let osd := new_CephOSD in
  let ref := length (osd_heap c) in
  let osds' := osds c ++ [ref] in
  (* [self.osd_map[osd.id] = osd]: [osd.id] is what [CephOSD()] made it *)
  let osd_map' := <[osd_id osd := ref]> (osd_map c) in
  let cluster_ip := before_first ":" (od_cluster_addr osd_data) in
  let public_ip := before_first ":" (od_public_addr osd_data) in
  let id := od_osd osd_data in
  run reweight <- lift (getitem_Z (osd_rw_dict (osd_tree_nodes st)) id);
  let status := if od_up osd_data then up else down in
  let version := osd_versions st !! id in
  let pg_count := default 0 (pg_sum_per_osd c !! id) in
  run host <- match ip2host c !! cluster_ip with
              | Some h => ret h
              | None => exec log (ExcNoHostForOsd id cluster_ip); raise KeyError
              end;
  let hosts' := add_osd_id (hosts c) host id in
  let osd := osd_identified id reweight status version pg_count host
                            cluster_ip public_ip in
  run osd <- match status with
             | down => ret osd
             | up => lift (osd_loaded st (perf_data c) osd id)
             end;
  ret {| hosts := hosts'; ip2host := ip2host c;
         osd_heap := osd_heap c ++ [osd]; osds := osds'; osd_map := osd_map';
         pg_sum_per_osd := pg_sum_per_osd c; perf_data := perf_data c |}.

(** [self.osds.sort(key=lambda x: x.id)]: stable, by the identifier of the
    object each position names. *)
Fixpoint insert_by_id (x : Z * nat) (l : list (Z * nat)) : list (Z * nat) :=
  match l with
  | [] => [x]
  | y :: l' => if fst x <? fst y then x :: l else y :: insert_by_id x l'
  end.

Definition sort_by_id (l : list (Z * nat)) : list (Z * nat) :=
  fold_left (fun acc x => insert_by_id x acc) l [].

Definition osd_key (heap : list CephOSD) (ref : nat) : outcome (Z * nat) :=
  match heap !! ref with
  | Some osd => match osd_id osd with
                | Some id => Return (id, ref)
                | None => Raise TypeError
                end
  | None => Raise KeyError
  end.

Definition load_osds (st : OsdStorage) (c : Cluster) : M Cluster :=
  run c' <- foldMl (load_osd st) (osd_dump_osds st) c;
  run keyed <- lift (mapM (osd_key (osd_heap c')) (osds c'));
  ret {| hosts := hosts c'; ip2host := ip2host c'; osd_heap := osd_heap c';
         osds := map snd (sort_by_id keyed); osd_map := osd_map c';
         pg_sum_per_osd := pg_sum_per_osd c'; perf_data := perf_data c' |}.

(** A cluster before [load_osds]: no OSD yet. *)
Definition before_osds (hosts : list Host) (ip2host : gmap string nat)
    (pg_sum_per_osd : gmap Z Z) (perf_data : option OsdPerfData) : Cluster :=
  {| hosts := hosts; ip2host := ip2host; osd_heap := []; osds := [];
     osd_map := ∅; pg_sum_per_osd := pg_sum_per_osd; perf_data := perf_data |}.

(** The object that a turn of the loop leaves for the entry [osd_data]:
    for an OSD that is down, the object as identified; for one that is
    up, what [osd_loaded] makes of it. *)
Definition osd_of_entry (st : OsdStorage) (perf : option OsdPerfData)
    (osd_data : OsdDump) (osd : CephOSD) : Prop :=
  exists reweight version pg_count host,
    let base := osd_identified (od_osd osd_data) reweight
                  (if od_up osd_data then up else down) version pg_count host
                  (before_first ":" (od_cluster_addr osd_data))
                  (before_first ":" (od_public_addr osd_data)) in
    if od_up osd_data
    then osd_loaded st perf base (od_osd osd_data) = Return osd
    else osd = base.

(** ** Sample inputs *)

Definition proc_net_dev_header : string :=
  "Inter-|   Receive                            |  Transmit"
  +:+ String newline
  " face |bytes packets errs drop fifo frame compressed multicast|bytes packets errs drop fifo colls carrier compressed"
  +:+ String newline "".

Definition netdev_eth0_16 : string :=
  "  eth0: 1 2 3 4 5 6 7 8 9 10 11 12 13 14 15 16".

Definition netdev_eth0_15 : string :=
  "  eth0: 1 2 3 4 5 6 7 8 9 10 11 12 13 14 15".

Definition sample_pool_info : json :=
  JObj [("pool", JInt 1); ("pool_name", JStr "rbd"); ("size", JInt 3);
        ("min_size", JInt 2); ("pg_num", JInt 64);
        ("pg_placement_num", JInt 64); ("crush_ruleset", JInt 0)].



Definition sample_category : dict json :=
  [("name", JStr ""); ("num_objects", JInt 7); ("size_kb", JInt 20)].

Definition sample_usage_one : dict json :=
  [("name", JStr "rbd"); ("id", JStr "1");
   ("categories", JList [JObj sample_category])].


Definition sample_hosts : list Host :=
  [{| host_name := "ceph-1"; host_stor_id := "10.0.0.1-ceph-1";
      host_osd_ids := ∅; host_mon_name := JNull; host_perf_monitoring := None |};
   {| host_name := "ceph-2"; host_stor_id := "10.0.0.2-ceph-2";
      host_osd_ids := ∅; host_mon_name := JNull; host_perf_monitoring := None |}].

Definition sample_status (mon : string) : json :=
  JObj [("monmap", JObj [("mons", JList [JObj [("name", JStr mon); ("rank", JInt 0)]])])].

Definition sample_osd_folder : list DirEntry :=
  [{| entry_is_file := false; entry_name := "0"; entry_pgs := Some "1.0 1.1 1.2" |};
   {| entry_is_file := false; entry_name := "1"; entry_pgs := None |};
   {| entry_is_file := false; entry_name := "2"; entry_pgs := None |}].

Definition sample_samples : list spec_float :=
  [S754_finite false 4503599627370496 (-52); S754_finite false 4503599627370496 (-51)].

Definition sample_perf (eth0 : gmap string (list spec_float)) : PerfData :=
  {| collected_at := Some [S754_zero false; S754_finite false 5629499534213120 (-49)];
     sensors := {[ "net-io" := {[ "eth0" := eth0 ]} ]} |}.

Definition sample_host (eth0 : gmap string (list spec_float)) : Host :=
  {| host_name := "ceph-1"; host_stor_id := "10.0.0.1-ceph-1";
     host_osd_ids := ∅; host_mon_name := JNull;
     host_perf_monitoring := Some (sample_perf eth0) |}.

(** Ten seconds. *)
Definition sample_dtime : spec_float := S754_finite false 5629499534213120 (-49).

(** Samples for three of the four metrics of [eth0]: [recv_bytes] is
    missing. *)
Definition sample_eth0_partial : gmap string (list spec_float) :=
  {[ "send_bytes" := sample_samples; "send_packets" := sample_samples;
     "recv_packets" := sample_samples ]}.

Definition sample_eth0_full : gmap string (list spec_float) :=
  <["recv_bytes" := sample_samples]> sample_eth0_partial.

(** Entries of an [lsblk] listing: a disk and a partition of given names;
    a CD drive and a partition listed at the top. *)
Definition sample_lsblk_partition (name : string) : json :=
  JObj [("name", JStr name); ("size", JStr "100G");
        ("mountpoint", JNull); ("fstype", JStr "xfs")].

Definition sample_lsblk_disk (name tran rota : string) (children : list json)
  : json :=
  JObj [("name", JStr name); ("type", JStr "disk"); ("tran", JStr tran);
        ("rota", JStr rota); ("size", JStr "200G"); ("mountpoint", JNull);
        ("fstype", JNull); ("children", JList children)].

Definition sample_lsblk_rom : json :=
  JObj [("name", JStr "sr0"); ("type", JStr "rom")].

Definition sample_lsblk_top_part : json :=
  JObj [("name", JStr "sdz1"); ("type", JStr "part")].

Definition sample_osd_hosts : list Host :=
  [{| host_name := "ceph-1"; host_stor_id := "10.0.0.1-ceph-1";
      host_osd_ids := ∅; host_mon_name := JNull; host_perf_monitoring := None |}].

(** Two OSDs on one host: OSD 0 is up, with a filestore and 3 GiB free of
    4 GiB; OSD 1 is down. *)
Definition sample_osd_storage : OsdStorage :=
  {| osd_tree_nodes := [(-1, JNull); (0, JInt 1); (1, JInt 1)];
     osd_versions := ∅;
     osd_perf_infos := [(0, (JInt 3, JInt 4)); (1, (JInt 0, JInt 0))];
     osd_df_nodes := [{| df_id := 0; df_kb_used := 1048576; df_kb_avail := 3145728 |}];
     osd_dump_osds :=
       [{| od_osd := 0; od_up := true;
           od_cluster_addr := "10.0.0.1:6800/1234";
           od_public_addr := "192.168.0.1:6801/1234" |};
        {| od_osd := 1; od_up := false;
           od_cluster_addr := "10.0.0.1:6802/1235";
           od_public_addr := "192.168.0.1:6803/1235" |}];
     osd_nodes :=
       {[ 0 := {| node_devs_cfg :=
                    JObj [("type", JStr "filestore"); ("r_data", JStr "/dev/sdb");
                          ("data", JStr "/dev/sdb1"); ("r_journal", JStr "/dev/sdc");
                          ("journal", JStr "/dev/sdc1")];
                  node_config := Some "osd_journal_size = 1024";
                  node_cmdline := None;
                  node_procinfo := None |} ]} |}.

(** The same with 56 PiB free of 86 PiB on OSD 0. *)
Definition sample_osd_storage_large : OsdStorage :=
  {| osd_tree_nodes := osd_tree_nodes sample_osd_storage;
     osd_versions := osd_versions sample_osd_storage;
     osd_perf_infos := osd_perf_infos sample_osd_storage;
     osd_df_nodes :=
       [{| df_id := 0; df_kb_used := 31985321124632;
           df_kb_avail := 60725754598939 |}];
     osd_dump_osds := osd_dump_osds sample_osd_storage;
     osd_nodes := osd_nodes sample_osd_storage |}.

(** The same with 1 KiB free of 200 KiB on OSD 0: half a percent. *)
Definition sample_osd_storage_half : OsdStorage :=
  {| osd_tree_nodes := osd_tree_nodes sample_osd_storage;
     osd_versions := osd_versions sample_osd_storage;
     osd_perf_infos := osd_perf_infos sample_osd_storage;
     osd_df_nodes := [{| df_id := 0; df_kb_used := 199; df_kb_avail := 1 |}];
     osd_dump_osds := osd_dump_osds sample_osd_storage;
     osd_nodes := osd_nodes sample_osd_storage |}.

Definition sample_cluster : Cluster :=
  before_osds sample_osd_hosts {[ "10.0.0.1" := 0%nat ]} ∅ None.

(** Performance dumps: every counter of a dump has the same [avgcount] and
    [sum]. *)
Definition sample_dump (count : Z) (total : spec_float) : FilestorePerf :=
  let c := {| avgcount := NInt count; sum := NFloat total |} in
  {| apply_latency := c; commitcycle_latency := c; journal_latency := c;
     journal_wr_bytes := c |}.

(** [0.5], [2.5] and [1.0] as doubles; [0.5] and [1.0] as [float32]. *)
Definition d_half : spec_float := S754_finite false 4503599627370496 (-53).
Definition d_two_half : spec_float := S754_finite false 5629499534213120 (-51).
Definition f_half : spec_float := S754_finite false 8388608 (-24).
Definition f_one : spec_float := S754_finite false 8388608 (-23).

(** Three dumps of OSD 0: 10 operations in 0.5 s, the same again, then 14
    operations in 2.5 s. *)
Definition sample_perf_data : OsdPerfData :=
  {| osd_perf_dump :=
       {[ 0 := [sample_dump 10 d_half; sample_dump 10 d_half;
                sample_dump 14 d_two_half] ]};
     osd_historic_ops_paths := ∅;
     osd_historicjs_ops_paths := ∅ |}.

(** Two dumps taken past the 16777216th operation: one more operation,
    one more second. *)
Definition sample_dump_large : list FilestorePerf :=
  [sample_dump 16777216 (S754_zero false); sample_dump 16777217 b64_one].


(* ===================================================================== *)
(** * Part I, continued: the rest of the module                          *)
(* ===================================================================== *)

(** [CephOSD.daemon_runs] *)
Definition daemon_runs (osd : CephOSD) : bool :=
  match osd_config osd with
  | Some _ => true
  | None => false
  end.

(** The object that a turn of the loop of [load_osds] leaves for the
    entry [osd_data], with what it read: the reweight of [osd_tree], the
    host that owns the cluster address, the version of [osd_versions] and
    the count of [sum_per_osd]. *)
Definition osd_entry (st : OsdStorage) (ip2host : gmap string nat)
    (sums : gmap Z Z) (perf : option OsdPerfData)
    (osd_data : OsdDump) (osd : CephOSD) : Prop :=
  exists reweight host,
    osd_rw_dict (osd_tree_nodes st) !! od_osd osd_data = Some reweight /\
    ip2host !! before_first ":" (od_cluster_addr osd_data) = Some host /\
    let base := osd_identified (od_osd osd_data) reweight
                  (if od_up osd_data then up else down)
                  (osd_versions st !! od_osd osd_data)
                  (default 0 (sums !! od_osd osd_data)) host
                  (before_first ":" (od_cluster_addr osd_data))
                  (before_first ":" (od_public_addr osd_data)) in
    if od_up osd_data
    then osd_loaded st perf base (od_osd osd_data) = Return osd
    else osd = base.

(** The dump entries whose cluster address belongs to the host at
    position [h]. *)
Definition entries_of_host (ip2host : gmap string nat) (h : nat)
    (entries : list OsdDump) : list OsdDump :=
  filter (fun d => ip2host !! before_first ":" (od_cluster_addr d) = Some h) entries.

(** Two OSDs that are down, the dump listing OSD 1 before OSD 0. *)
Definition sample_osd_storage_reversed : OsdStorage :=
  {| osd_tree_nodes := osd_tree_nodes sample_osd_storage;
     osd_versions := ∅;
     osd_perf_infos := [];
     osd_df_nodes := [];
     osd_dump_osds :=
       [{| od_osd := 1; od_up := false;
           od_cluster_addr := "10.0.0.1:6802/1235";
           od_public_addr := "192.168.0.1:6803/1235" |};
        {| od_osd := 0; od_up := false;
           od_cluster_addr := "10.0.0.1:6800/1234";
           od_public_addr := "192.168.0.1:6801/1234" |}];
     osd_nodes := ∅ |}.

(** The name of the pool of a placement group: the number before the
    first dot of its [pgid], looked up in the pool listing. *)
Definition pg_pool (id2name : gmap Z string) (pg : PgStat) : option string :=
  match int_of_str (before_first "." (pgid pg)) with
  | Return pool => id2name !! pool
  | Raise _ => None
  end.

(** The acting sets of the placement groups of the pool [name], one
    after the other. *)
Definition acting_of_pool (id2name : gmap Z string) (name : string)
    (pg_stats : list PgStat) : list Z :=
  concat (map acting (filter (fun pg => pg_pool id2name pg = Some name) pg_stats)).

(** Three placement groups, two of pool [rbd] and one of pool [cephfs],
    on three OSDs. *)
Definition sample_pg_stats : list PgStat :=
  [{| pgid := "1.0"; acting := [0; 1] |};
   {| pgid := "1.1"; acting := [1; 2] |};
   {| pgid := "2.0"; acting := [0] |}].

Definition sample_lspools : list (Z * string) := [(1, "rbd"); (2, "cephfs")].

(** ** [parse_df] *)

(** [["Filesystem", "1K-blocks", "Used", "Available", "Use%", "Mounted", "on"]] *)
Definition df_header : list string :=
  ["Filesystem"; "1K-blocks"; "Used"; "Available"; "Use%"; "Mounted"; "on"].

(** [("name", "size", None, "free", None, "mountpoint")] *)
Definition df_keys : list (option string) :=
  [Some "name"; Some "size"; None; Some "free"; None; Some "mountpoint"].

(** [{key: val for key, val in zip(keys, ln.split()) if key is not None}] *)
Definition df_row (fields : list string) : dict string :=
  fold_left (fun row kv =>
               match fst kv with
               | Some key => dict_set row key (snd kv)
               | None => row
               end)
            (combine df_keys fields) [].

(** The generator run to its end: the assertion is checked when the first
    row is asked for, and whoever iterates gets the rows in order. *)
Definition parse_df (data : string) : outcome (list (dict string)) :=
  match split_on newline (strip data) with
  | first :: rest =>
      do _ <- assert (bool_decide (split_ws first = df_header));
      Return (map (fun ln => df_row (split_ws ln)) rest)
  | [] => Raise IndexError
  end.

(** ** [CephCluster.load_hdds] *)

(** A value of [storage_devs]: a disk or a partition. *)
Inductive storage_dev :=
| DevDisk (d : Disk)
| DevPart (p : Mountable).

(** [{info['name']: info for info in parse_df(stor_node.df)}] *)
Definition df_by_name (rows : list (dict string)) : outcome (dict (dict string)) :=
  foldM (fun df_info info =>
           match dict_get info "name" with
           | Some name => Return (dict_set df_info name info)
           | None => Raise KeyError
           end)
        rows [].

(** [df_info.get(part.name, {}).get('free', None)] *)
Definition free_of (df_info : dict (dict string)) (name : string) : json :=
  match dict_get df_info name with
  | Some info => match dict_get info "free" with
                 | Some free => JStr free
                 | None => JNull
                 end
  | None => JNull
  end.

(** [part.free_space = df_info.get(part.name, {}).get('free', None)] for a
    partition. *)
Definition part_with_free (df_info : dict (dict string)) (part : Mountable)
  : Mountable :=
  {| mnt_name := mnt_name part; mnt_size := mnt_size part;
     mnt_mountpoint := mnt_mountpoint part; mnt_fs := mnt_fs part;
     mnt_free_space := free_of df_info (mnt_name part);
     mnt_parent := mnt_parent part |}.

(** The inner loop over [[dsk] + list(dsk.partitions.values())]: the disk
    and its partitions with [free_space] set. *)
Definition set_free_space (df_info : dict (dict string)) (dsk : Disk) : Disk :=
  {| dsk_name := dsk_name dsk; dsk_size := dsk_size dsk;
     dsk_mountpoint := dsk_mountpoint dsk; dsk_fs := dsk_fs dsk;
     dsk_free_space := free_of df_info (dsk_name dsk);
     dsk_parent := dsk_parent dsk; dsk_load := dsk_load dsk;
     dsk_tp := dsk_tp dsk; dsk_extra := dsk_extra dsk;
     dsk_partitions :=
       map (fun kv => (fst kv, part_with_free df_info (snd kv)))
           (dsk_partitions dsk) |}.

(** One turn of the loop of [load_hdds], for the disk [dsk] that the
    generator yields. *)
Definition add_disk (df_info : dict (dict string))
    (st : dict Disk * dict storage_dev) (dsk : Disk)
  : dict Disk * dict storage_dev :=
  let dsk' := set_free_space df_info dsk in
  (dict_set (fst st) (dsk_name dsk') dsk',
   fold_left (fun devs kv => dict_set devs (fst kv) (DevPart (snd kv)))
             (dsk_partitions dsk')
             (dict_set (snd st) (dsk_name dsk') (DevDisk dsk'))).

(** [load_hdds], for the host name, the decoded [lsblkjs] and the text of
    [df]: [disks] and [storage_devs]. *)
Definition load_hdds (hostname : string) (lsblkjs : json) (df : string)
  : M (dict Disk * dict storage_dev) :=
  run rows <- lift (parse_df df);
  run df_info <- lift (df_by_name rows);
  run blockdevices <- lift (py_getitem lsblkjs "blockdevices");
  run dsks <- parse_lsblkjs blockdevices hostname;
  ret (fold_left (add_disk df_info) dsks ([], [])).

(** The output of [df] for a root file system and a data partition, and
    the [lsblk] record of the disk [sdb] with its two partitions. *)
Definition sample_df : string :=
  "Filesystem     1K-blocks    Used Available Use% Mounted on"
  +:+ String newline
  "/dev/sda1       41251136 9232160  30270872  24% /"
  +:+ String newline
  "/dev/sdb1      103081248   61468  97760516   1% /var/lib/ceph/osd/ceph-0"
  +:+ String newline "".

Definition sample_part (name : string) (mountpoint : json) : json :=
  JObj [("name", JStr name); ("size", JStr "100G");
        ("mountpoint", mountpoint); ("fstype", JStr "xfs")].

Definition sample_sdb : json :=
  JObj [("name", JStr "sdb"); ("type", JStr "disk"); ("tran", JStr "sata");
        ("rota", JStr "1"); ("size", JStr "200G"); ("mountpoint", JNull);
        ("fstype", JNull);
        ("children", JList [sample_part "sdb1" (JStr "/var/lib/ceph/osd/ceph-0");
                            sample_part "sdb2" JNull])].

Definition sample_lsblkjs : json :=
  JObj [("blockdevices", JList [JObj [("name", JStr "sr0")]; sample_sdb])].

(** ** The addresses of a host: the last loop of [load_hosts] *)

Definition digit_char (d : Z) : ascii := ascii_of_nat (48 + Z.to_nat d).

(** [str(n)] for a byte. *)
Definition str_octet (n : Z) : string :=
  if n <? 10 then String (digit_char n) ""
  else if n <? 100 then
    String (digit_char (n / 10)) (String (digit_char (n mod 10)) "")
  else
    String (digit_char (n / 100))
      (String (digit_char (n / 10 mod 10)) (String (digit_char (n mod 10)) "")).

(** [str(ip)] for an [IPv4Address], given as its number: the four bytes in
    decimal, the most significant first. *)
Definition ip_str (ip : Z) : string :=
  str_octet (Z.shiftr ip 24 mod 256) +:+ "." +:+
  str_octet (Z.shiftr ip 16 mod 256) +:+ "." +:+
  str_octet (Z.shiftr ip 8 mod 256) +:+ "." +:+
  str_octet (ip mod 256).

(** [ip in net] for an address and an [IPv4Network] (network address,
    prefix length): the address lies between the network address, which
    has no host bit set, and the broadcast address. *)
Definition net_contains (net : Z * Z) (ip : Z) : bool :=
  (fst net <=? ip) && (ip <=? fst net + 2 ^ (32 - snd net) - 1).

(** The record of [logger.error("Ip %s beelong to both %s and %s ...")]:
    the address, the host that is loaded and the host that has the
    address, both as positions in the list of hosts. *)
Record ip_clash := {
  clash_ip : string;
  clash_host : nat;
  clash_owner : nat
}.

(** What the loop writes: [self.ip2host] and the two adapters of the
    host. *)
Record host_nets := {
  hn_ip2host : gmap string nat;
  ceph_cluster_adapter : option NetworkAdapter;
  ceph_public_adapter : option NetworkAdapter
}.

(** One turn of the inner loop, for the address [a] of [adapter]. *)
Definition register_ip (host : nat) (cluster_net public_net : Z * Z)
    (adapter : NetworkAdapter) (acc : list ip_clash * host_nets)
    (a : NetAdapterAddr) : list ip_clash * host_nets :=
  let '(errors, st) := acc in
  let ip_s := ip_str (addr_ip a) in
  if is_prefix "127." ip_s then acc
  else
    match hn_ip2host st !! ip_s with
    | Some owner =>
        (errors ++ [{| clash_ip := ip_s; clash_host := host; clash_owner := owner |}],
         st)
    | None =>
        (errors,
         {| hn_ip2host := <[ip_s := host]> (hn_ip2host st);
            ceph_cluster_adapter :=
              if net_contains cluster_net (addr_ip a) then Some adapter
              else ceph_cluster_adapter st;
            ceph_public_adapter :=
              if net_contains public_net (addr_ip a) then Some adapter
              else ceph_public_adapter st |})
    end.

(** [for adapter in host.net_adapters.values(): for ip in adapter.ips: ...]
    at the end of a turn of [load_hosts], for the host at position [host]:
    the errors logged and the state left. *)
Definition load_hosts_ips (host : nat) (cluster_net public_net : Z * Z)
    (net_adapters : dict NetworkAdapter) (st : host_nets)
  : list ip_clash * host_nets :=
  fold_left (fun acc '(_, adapter) =>
               fold_left (register_ip host cluster_net public_net adapter)
                         (na_ips adapter) acc)
            net_adapters ([], st).

(** The addresses of the adapters, each with its adapter, in the order
    in which the two loops come to them. *)
Definition adapter_addrs (net_adapters : dict NetworkAdapter)
  : list (NetworkAdapter * NetAdapterAddr) :=
  flat_map (fun kv => map (pair (snd kv)) (na_ips (snd kv))) net_adapters.

(** The key of an address in [ip2host], and whether the loop passes it
    over as a loopback address. *)
Definition addr_key (a : NetAdapterAddr) : string := ip_str (addr_ip a).
Definition is_loopback (a : NetAdapterAddr) : bool := is_prefix "127." (addr_key a).

(** ** [CephCluster.fill_io_devices_usage_stats] *)





(** [data[key]] *)
Definition series (data : gmap string (list spec_float)) (key : string)
  : outcome (list spec_float) :=
  match data !! key with
  | Some a => Return a
  | None => Raise KeyError
  end.





(** A host with the addresses 10.0.0.1 and 127.0.0.1 on [eth0] and
    10.0.0.1 again on [eth1]. *)
Definition sample_addr (ip : Z) (size : Z) : NetAdapterAddr :=
  {| addr_ip := ip;
     addr_net := (Z.shiftl (Z.shiftr ip (32 - size)) (32 - size), size) |}.

Definition sample_adapter (name : string) (ips : list NetAdapterAddr)
  : NetworkAdapter :=
  {| na_attrs := new_NetworkAdapter name; na_ips := ips; na_load := None |}.

Definition sample_net_adapters : dict NetworkAdapter :=
  [("eth0", sample_adapter "eth0" [sample_addr 167772161 24;
                                   sample_addr 2130706433 8]);
   ("eth1", sample_adapter "eth1" [sample_addr 167772161 24])].

Definition no_nets : host_nets :=
  {| hn_ip2host := ∅; ceph_cluster_adapter := None;
     ceph_public_adapter := None |}.




(* ===================================================================== *)
(** * Part II: theorems                                                   *)
(* ===================================================================== *)

(** ** The two monads *)

Lemma bind_lift_Return {A B} (a : A) (k : A -> M B) :
  bind (lift (Return a)) k = k a.
Proof. unfold bind, lift. destruct (k a); reflexivity. Qed.

Lemma bind_lift_Raise {A B} (e : exn) (k : A -> M B) :
  bind (lift (Raise e)) k = ([], Raise e).
Proof. reflexivity. Qed.

Lemma bind_ret {A B} (a : A) (k : A -> M B) : bind (ret a) k = k a.
Proof. apply bind_lift_Return. Qed.

Lemma bind_Return_inv {A B} (m : M A) (k : A -> M B) lg b :
  bind m k = (lg, Return b) ->
  exists l1 a l2, m = (l1, Return a) /\ k a = (l2, Return b) /\ lg = l1 ++ l2.
Proof.
  destruct m as [l1 [a|e]]; simpl; [|discriminate].
  destruct (k a) as [l2 r] eqn:E. intros [= <- ->].
  exists l1, a, l2. auto.
Qed.

Lemma mapMl_Return_inv {A B} (f : A -> M B) l lg ys :
  mapMl f l = (lg, Return ys) ->
  exists rs : list (list log_event * B),
    Forall2 (fun x r => f x = (fst r, Return (snd r))) l rs /\
    ys = map snd rs /\ lg = concat (map fst rs).
Proof.
  revert lg ys. induction l as [|x l IH]; intros lg ys; simpl.
  - intros [= <- <-]. exists []. split; [constructor | auto].
  - intros H. apply bind_Return_inv in H as (l1 & y & l2 & Hx & H & ->).
    apply bind_Return_inv in H as (l3 & ys' & l4 & Hl & H & ->).
    injection H as <- <-.
    destruct (IH _ _ Hl) as (rs & HF & -> & ->).
    exists ((l1, y) :: rs). split; [constructor; auto|].
    split; simpl; [reflexivity | rewrite app_nil_r; reflexivity].
Qed.

Lemma somes_In {A} (l : list (option A)) a : In a (somes l) <-> In (Some a) l.
Proof.
  induction l as [|[b|] l IH]; simpl.
  - tauto.
  - rewrite IH. split; intros [H|H]; auto; left; congruence.
  - rewrite IH. split; [auto | intros [H|H]; [discriminate | auto]].
Qed.

(** ** [re.match] *)

Lemma re_match_Void s : re_match Void s = false.
Proof. induction s as [|a s IH]; simpl; auto. Qed.

Lemma re_match_Alt r1 r2 s :
  re_match (Alt r1 r2) s = re_match r1 s || re_match r2 s.
Proof.
  revert r1 r2. induction s as [|a s IH]; intros r1 r2; simpl.
  - destruct (nullable r1), (nullable r2); reflexivity.
  - rewrite IH. destruct (nullable r1), (nullable r2); simpl;
      rewrite ?orb_true_r; auto.
Qed.

Lemma re_match_Seq_Void r s : re_match (Seq Void r) s = false.
Proof. induction s as [|a s IH]; simpl; auto. Qed.

Lemma re_match_Seq_Eps r s : re_match (Seq Eps r) s = re_match r s.
Proof.
  destruct s as [|a s]; simpl.
  - rewrite orb_false_r. reflexivity.
  - rewrite re_match_Alt, re_match_Seq_Void. reflexivity.
Qed.

Lemma re_match_Seq_Chr c r s :
  re_match (Seq (Chr c) r) s =
  match s with
  | String a s' => Ascii.eqb a c && re_match r s'
  | EmptyString => false
  end.
Proof.
  destruct s as [|a s]; simpl; auto.
  destruct (Ascii.eqb a c); simpl.
  - apply re_match_Seq_Eps.
  - apply re_match_Seq_Void.
Qed.

Lemma re_match_Plus_Cls p s :
  re_match (Plus (Cls p)) s =
  match s with
  | String a _ => p a
  | EmptyString => false
  end.
Proof.
  unfold Plus. destruct s as [|a s]; simpl; auto.
  destruct (p a).
  - rewrite re_match_Seq_Eps. destruct s; reflexivity.
  - apply re_match_Seq_Void.
Qed.

Lemma after_prefix_Some p s t : after_prefix p s = Some t <-> s = p +:+ t.
Proof.
  revert s. induction p as [|a p IH]; intros s; simpl.
  - split; [intros [= ->]; reflexivity | intros ->; reflexivity].
  - destruct s as [|b s]; [split; discriminate|].
    destruct (Ascii.eqb_spec b a) as [->|Hne].
    + rewrite IH. split; [intros ->; reflexivity | intros [= ->]; reflexivity].
    + split; [discriminate | intros [= ? ?]; contradiction].
Qed.

Lemma synthetic_re_eq name :
  re_match synthetic_re name = decimal_after "sr" name || decimal_after "loop" name.
Proof.
  unfold synthetic_re, decimal_after. simpl Cat. rewrite re_match_Alt. f_equal.
  - destruct name as [|a [|b t]]; simpl after_prefix;
      rewrite ?re_match_Seq_Chr; auto.
    + destruct (Ascii.eqb a "s"); reflexivity.
    + rewrite re_match_Plus_Cls.
      destruct (Ascii.eqb a "s"), (Ascii.eqb b "r"); reflexivity.
  - destruct name as [|a [|b [|c [|e t]]]]; simpl after_prefix;
      rewrite ?re_match_Seq_Chr, ?re_match_Plus_Cls; auto.
    + destruct (Ascii.eqb a "l"); reflexivity.
    + destruct (Ascii.eqb a "l"), (Ascii.eqb b "o"); reflexivity.
    + destruct (Ascii.eqb a "l"), (Ascii.eqb b "o"), (Ascii.eqb c "o"); reflexivity.
    + destruct (Ascii.eqb a "l"), (Ascii.eqb b "o"), (Ascii.eqb c "o"), (Ascii.eqb e "p"); reflexivity.
Qed.

Lemma decimal_after_true p s :
  decimal_after p s = true <->
  exists d rest, is_decimal d = true /\ s = p +:+ String d rest.
Proof.
  unfold decimal_after. split.
  - destruct (after_prefix p s) as [t|] eqn:E; [|discriminate].
    apply after_prefix_Some in E. destruct t as [|d rest]; [discriminate|].
    simpl. intros Hd. exists d, rest. auto.
  - intros (d & rest & Hd & ->).
    assert (E : after_prefix p (p +:+ String d rest) = Some (String d rest))
      by (apply after_prefix_Some; reflexivity).
    rewrite E. exact Hd.
Qed.

Lemma synthetic_re_spec name :
  re_match synthetic_re name = true <->
  exists d rest, is_decimal d = true /\
    (name = "sr" +:+ String d rest \/ name = "loop" +:+ String d rest).
Proof.
  rewrite synthetic_re_eq, orb_true_iff, !decimal_after_true.
  split.
  - intros [(d & rest & Hd & ->)|(d & rest & Hd & ->)]; exists d, rest; auto.
  - intros (d & rest & Hd & [->| ->]); [left|right]; exists d, rest; auto.
Qed.

(** ** [parse_lsblkjs] *)

Lemma lsblk_disk_synthetic hostname disk_js name :
  py_getitem disk_js "name" = Return (JStr name) ->
  re_match synthetic_re name = true ->
  lsblk_disk hostname disk_js = ([], Return None).
Proof.
  intros Hn Hm. unfold lsblk_disk.
  rewrite Hn, bind_lift_Return. simpl as_str.
  rewrite bind_lift_Return, Hm. reflexivity.
Qed.

Lemma lsblk_disk_not_disk hostname disk_js name tp :
  py_getitem disk_js "name" = Return (JStr name) ->
  re_match synthetic_re name = false ->
  py_getitem disk_js "type" = Return tp ->
  is_str "disk" tp = false ->
  lsblk_disk hostname disk_js = ([WarnNotDisk hostname name tp], Return None).
Proof.
  intros Hn Hm Ht Hd. unfold lsblk_disk.
  rewrite Hn, bind_lift_Return. simpl as_str.
  rewrite bind_lift_Return, Hm, Ht, bind_lift_Return, Hd. reflexivity.
Qed.

Lemma bind_lift_inv {A B} (m : outcome A) (k : A -> M B) lg b :
  bind (lift m) k = (lg, Return b) ->
  exists a, m = Return a /\ k a = (lg, Return b).
Proof.
  destruct m as [a|e]; [|discriminate].
  rewrite bind_lift_Return. eauto.
Qed.

(** What a yielded disk says about the entry it was built from. *)
Lemma lsblk_disk_yield hostname disk_js lg dsk :
  lsblk_disk hostname disk_js = (lg, Return (Some dsk)) ->
  exists name tp tran rota,
    py_getitem disk_js "name" = Return (JStr name) /\
    re_match synthetic_re name = false /\
    py_getitem disk_js "type" = Return tp /\ is_str "disk" tp = true /\
    py_getitem disk_js "tran" = Return tran /\
    py_getitem disk_js "rota" = Return rota /\
    dsk_name dsk = "/dev/" +:+ name /\
    dsk_extra dsk = disk_js /\
    match table_get stor_tp_table tran rota with
    | Some t => dsk_tp dsk = t /\ lg = []
    | None => dsk_tp dsk = "hdd" /\ lg = [WarnDiskType name hostname tran rota]
    end.
Proof.
  unfold lsblk_disk. intros H.
  apply bind_lift_inv in H as (nm & Hnm & H).
  apply bind_lift_inv in H as (name & Hname & H).
  destruct nm; try discriminate. injection Hname as ->.
  destruct (re_match synthetic_re name) eqn:Hm; [discriminate|].
  apply bind_lift_inv in H as (tp & Htp & H).
  destruct (is_str "disk" tp) eqn:Hd; [|discriminate]. simpl negb in H. cbv iota in H.
  apply bind_lift_inv in H as (tran & Htran & H).
  apply bind_lift_inv in H as (rota & Hrota & H).
  apply bind_lift_inv in H as (found & Hfound & H).
  unfold stor_tp_get in Hfound.
  destruct (hashable tran && hashable rota); [|discriminate].
  assert (Hf : table_get stor_tp_table tran rota = found) by congruence.
  clear Hfound.
  apply bind_Return_inv in H as (l1 & stor_tp & l2 & Hst & H & ->).
  apply bind_lift_inv in H as (size & _ & H).
  apply bind_lift_inv in H as (mp & _ & H).
  apply bind_lift_inv in H as (fs & _ & H).
  apply bind_lift_inv in H as (children & _ & H).
  apply bind_lift_inv in H as (parts & _ & H).
  injection H as <- <-.
  exists name, tp, tran, rota. repeat (split; [assumption || reflexivity|]).
  rewrite Hf, app_nil_r. simpl dsk_tp.
  destruct found as [t|].
  - unfold ret in Hst. injection Hst as <- <-. auto.
  - cbv in Hst. injection Hst as <- <-. auto.
Qed.

(** The table of [parse_lsblkjs], entry by entry. *)
Lemma stor_tp_table_spec tran rota t :
  table_get stor_tp_table tran rota = Some t <->
  (tran = JStr "sata" /\ rota = JStr "1" /\ t = "hdd") \/
  (tran = JStr "sata" /\ rota = JStr "0" /\ t = "ssd") \/
  (tran = JStr "nvme" /\ rota = JStr "0" /\ t = "nvme").
Proof.
  assert (Hs : forall s j, is_str s j = true <-> j = JStr s).
  { intros s j. destruct j; simpl; try (split; [discriminate | intros [=]]).
    rewrite String.eqb_eq. split; [intros ->; reflexivity | intros [= ->]; reflexivity]. }
  unfold stor_tp_table. simpl.
  destruct (is_str "sata" tran) eqn:E1; simpl.
  - apply Hs in E1 as ->.
    destruct (is_str "1" rota) eqn:E2.
    + apply Hs in E2 as ->. split; [intros [= <-]; auto|].
      intros [(_ & _ & ->)|[(_ & [=] & _)|([=] & _)]]. reflexivity.
    + destruct (is_str "0" rota) eqn:E3.
      * apply Hs in E3 as ->. simpl. split; [intros [= <-]; auto|].
        intros [(_ & [=] & _)|[(_ & _ & ->)|([=] & _)]]. reflexivity.
      * simpl. split; [discriminate|].
        intros [(_ & -> & _)|[(_ & -> & _)|([=] & _)]]; simpl in *; discriminate.
  - destruct (is_str "nvme" tran) eqn:E2; simpl.
    + apply Hs in E2 as ->. destruct (is_str "0" rota) eqn:E3.
      * apply Hs in E3 as ->. split; [intros [= <-]; auto|].
        intros [([=] & _)|[([=] & _)|(_ & _ & ->)]]. reflexivity.
      * split; [discriminate|].
        intros [([=] & _)|[([=] & _)|(_ & -> & _)]]. simpl in E3. discriminate.
    + split; [discriminate|].
      intros [(-> & _)|[(-> & _)|(-> & _)]]; simpl in *; discriminate.
Qed.

(** The generator's output is the per-entry results, in order. *)
Lemma parse_lsblkjs_entries data hostname lg disks :
  parse_lsblkjs data hostname = (lg, Return disks) ->
  exists entries (rs : list (list log_event * option Disk)),
    py_iter data = Return entries /\
    Forall2 (fun e r => lsblk_disk hostname e = (fst r, Return (snd r))) entries rs /\
    disks = somes (map snd rs) /\ lg = concat (map fst rs).
Proof.
  unfold parse_lsblkjs. intros H.
  apply bind_lift_inv in H as (entries & Hit & H).
  apply bind_Return_inv in H as (l1 & ds & l2 & Hds & H & ->).
  injection H as <- <-.
  apply mapMl_Return_inv in Hds as (rs & HF & -> & ->).
  exists entries, rs. rewrite app_nil_r. auto.
Qed.

Lemma parse_lsblkjs_In data hostname lg disks dsk :
  parse_lsblkjs data hostname = (lg, Return disks) ->
  In dsk disks ->
  exists entries disk_js lg',
    py_iter data = Return entries /\ In disk_js entries /\
    lsblk_disk hostname disk_js = (lg', Return (Some dsk)).
Proof.
  intros H Hin.
  apply parse_lsblkjs_entries in H as (entries & rs & Hit & HF & -> & _).
  apply somes_In in Hin. apply in_map_iff in Hin as ([l o] & Ho & Hin).
  simpl in Ho. subst o.
  assert (Hex : exists disk_js lg', In disk_js entries /\
            lsblk_disk hostname disk_js = (lg', Return (Some dsk))).
  { clear Hit. induction HF as [|e r es rs' He HF IH]; [destruct Hin|].
    destruct Hin as [->|Hin].
    - exists e, l. split; [left; reflexivity | exact He].
    - destruct (IH Hin) as (d & l' & Hd & Hl).
      exists d, l'. split; [right; exact Hd | exact Hl]. }
  destruct Hex as (d & l' & Hd & Hl). exists entries, d, l'. auto.
Qed.

Lemma parse_lsblkjs_source data hostname lg disks dsk :
  parse_lsblkjs data hostname = (lg, Return disks) ->
  In dsk disks ->
  exists name,
    py_getitem (dsk_extra dsk) "name" = Return (JStr name) /\
    re_match synthetic_re name = false /\
    dsk_name dsk = "/dev/" +:+ name.
Proof.
  intros H Hin.
  destruct (parse_lsblkjs_In _ _ _ _ _ H Hin) as (es & d & l & _ & _ & Hd).
  apply lsblk_disk_yield in Hd
    as (name & tp & tran & rota & Hn & Hm & _ & _ & _ & _ & Hnm & Hex & _).
  exists name. rewrite Hex. auto.
Qed.

Lemma somes_app {A} (l1 l2 : list (option A)) :
  somes (l1 ++ l2) = somes l1 ++ somes l2.
Proof.
  induction l1 as [|[a|] l1 IH]; simpl; [reflexivity| |exact IH].
  rewrite IH. reflexivity.
Qed.

(** The turns of the loop over a list of entries, one after the other. *)
Lemma mapMl_app {A B} (f : A -> M B) l1 l2 :
  mapMl f (l1 ++ l2)
  = match mapMl f l1 with
    | (lg1, Return r1) =>
        match mapMl f l2 with
        | (lg2, Return r2) => (lg1 ++ lg2, Return (r1 ++ r2))
        | (lg2, Raise e) => (lg1 ++ lg2, Raise e)
        end
    | (lg1, Raise e) => (lg1, Raise e)
    end.
Proof.
  induction l1 as [|x l1 IH]; simpl.
  - destruct (mapMl f l2) as [lg2 [r2|e]]; reflexivity.
  - rewrite IH. destruct (f x) as [lx [y|e]]; simpl; [|reflexivity].
    destruct (mapMl f l1) as [lg1 [r1|e]]; simpl.
    + destruct (mapMl f l2) as [lg2 [r2|e]]; simpl;
        rewrite ?app_nil_r, ?app_assoc; reflexivity.
    + rewrite ?app_nil_r. reflexivity.
Qed.

Lemma parse_lsblkjs_list entries hostname :
  parse_lsblkjs (JList entries) hostname
  = match mapMl (lsblk_disk hostname) entries with
    | (lg, Return rs) => (lg, Return (somes rs))
    | (lg, Raise e) => (lg, Raise e)
    end.
Proof.
  unfold parse_lsblkjs. simpl py_iter. rewrite bind_lift_Return.
  destruct (mapMl (lsblk_disk hostname) entries) as [lg [rs|e]]; simpl;
    rewrite ?app_nil_r; reflexivity.
Qed.

(** The generator on a list of entries, around one of them: the turns
    before it, its own turn, the turns after it. *)
Lemma parse_lsblkjs_around data hostname before disk_js after :
  py_iter data = Return (before ++ disk_js :: after) ->
  parse_lsblkjs data hostname
  = run ds1 <- parse_lsblkjs (JList before) hostname;
    run d <- lsblk_disk hostname disk_js;
    run ds2 <- parse_lsblkjs (JList after) hostname;
    ret (ds1 ++ match d with Some dsk => dsk :: ds2 | None => ds2 end).
Proof.
  intros Hit. rewrite !parse_lsblkjs_list.
  unfold parse_lsblkjs. rewrite Hit, bind_lift_Return.
  rewrite mapMl_app. cbn [mapMl].
  destruct (mapMl (lsblk_disk hostname) before) as [lg1 [r1|e]];
    [|reflexivity].
  cbn [bind].
  destruct (lsblk_disk hostname disk_js) as [lgd [d|e]]; cbn [bind];
    [|rewrite ?app_nil_r; reflexivity].
  destruct (mapMl (lsblk_disk hostname) after) as [lg2 [r2|e]]; cbn [bind ret];
    rewrite ?app_nil_r, ?app_assoc; [|reflexivity].
  rewrite somes_app. destruct d; reflexivity.
Qed.

Lemma parse_lsblkjs_without hostname before after :
  parse_lsblkjs (JList (before ++ after)) hostname
  = run ds1 <- parse_lsblkjs (JList before) hostname;
    run ds2 <- parse_lsblkjs (JList after) hostname;
    ret (ds1 ++ ds2).
Proof.
  rewrite !parse_lsblkjs_list, mapMl_app.
  destruct (mapMl (lsblk_disk hostname) before) as [lg1 [r1|e]];
    [|reflexivity].
  cbn [bind].
  destruct (mapMl (lsblk_disk hostname) after) as [lg2 [r2|e]]; cbn [bind ret];
    rewrite ?app_nil_r; [|reflexivity].
  rewrite somes_app. reflexivity.
Qed.

(** The turn of the loop for a disk: the warning for a pair that the table
    lacks, and the disk. *)
Lemma lsblk_disk_disk hostname disk_js name tp tran rota size mountpoint fs
    children parts :
  py_getitem disk_js "name" = Return (JStr name) ->
  re_match synthetic_re name = false ->
  py_getitem disk_js "type" = Return tp -> is_str "disk" tp = true ->
  py_getitem disk_js "tran" = Return tran ->
  py_getitem disk_js "rota" = Return rota ->
  hashable tran && hashable rota = true ->
  py_getitem disk_js "size" = Return size ->
  py_getitem disk_js "mountpoint" = Return mountpoint ->
  py_getitem disk_js "fstype" = Return fs ->
  (do c <- py_getitem disk_js "children"; py_iter c) = Return children ->
  lsblk_partitions ("/dev/" +:+ name) children = Return parts ->
  lsblk_disk hostname disk_js
  = (match table_get stor_tp_table tran rota with
     | Some _ => []
     | None => [WarnDiskType name hostname tran rota]
     end,
     Return (Some {| dsk_name := "/dev/" +:+ name; dsk_size := size;
                     dsk_mountpoint := mountpoint; dsk_fs := fs;
                     dsk_free_space := JNull; dsk_parent := None;
                     dsk_load := None;
                     dsk_tp := default "hdd" (table_get stor_tp_table tran rota);
                     dsk_extra := disk_js; dsk_partitions := parts |})).
Proof.
  intros Hn Hm Ht Hd Htr Hro Hh Hs Hmp Hfs Hch Hp. unfold lsblk_disk.
  rewrite Hn, bind_lift_Return. simpl as_str.
  rewrite bind_lift_Return, Hm, Ht, bind_lift_Return, Hd. cbn [negb].
  rewrite Htr, bind_lift_Return, Hro, bind_lift_Return.
  unfold stor_tp_get. rewrite Hh, bind_lift_Return.
  rewrite Hs, Hmp, Hfs, Hch.
  destruct (table_get stor_tp_table tran rota) as [t|]; cbn [default];
    cbn [bind lift log ret]; rewrite Hp; reflexivity.
Qed.

(** C9: [parse_lsblkjs] on a listing, entry by entry.  Whatever stands
    before and after it in the listing and whatever its other fields
    are, an entry named [sr0], [sr12] or [loop0] changes nothing: the
    parser gives the disks, the log records and the exception it gives
    for the listing without the entry, and no disk it ever yields
    carries such a name or stems from such an entry.  An entry of
    another name whose type is not ['disk'] adds one warning, between
    the records of the entries before and after it, and no disk.  An
    entry of type ['disk'] adds one disk, between the disks of the
    entries before and after it, of the type that the table
    [{(sata,1): hdd, (sata,0): ssd, (nvme,0): nvme}] gives to its
    [(tran, rota)] pair and without a log record, or, for a pair that
    the table lacks, of type [hdd] and with one warning.  Every disk of
    the output has the type so given to the pair of its own entry. *)
Theorem parse_lsblkjs_skips_and_classifies (hostname : string) :
  (forall data before disk_js after name,
      py_iter data = Return (before ++ disk_js :: after) ->
      py_getitem disk_js "name" = Return (JStr name) ->
      In name ["sr0"; "sr12"; "loop0"] ->
      parse_lsblkjs data hostname
      = parse_lsblkjs (JList (before ++ after)) hostname /\
      forall data' lg disks dsk,
        parse_lsblkjs data' hostname = (lg, Return disks) -> In dsk disks ->
        dsk_extra dsk <> disk_js /\ dsk_name dsk <> "/dev/" +:+ name) /\
  (forall data before disk_js after name tp,
      py_iter data = Return (before ++ disk_js :: after) ->
      py_getitem disk_js "name" = Return (JStr name) ->
      re_match synthetic_re name = false ->
      py_getitem disk_js "type" = Return tp ->
      is_str "disk" tp = false ->
      parse_lsblkjs data hostname
      = (run ds1 <- parse_lsblkjs (JList before) hostname;
         exec log (WarnNotDisk hostname name tp);
         run ds2 <- parse_lsblkjs (JList after) hostname;
         ret (ds1 ++ ds2)) /\
      is_warning (WarnNotDisk hostname name tp) = true) /\
  (forall data before disk_js after name tp tran rota size mountpoint fs
          children parts,
      py_iter data = Return (before ++ disk_js :: after) ->
      py_getitem disk_js "name" = Return (JStr name) ->
      re_match synthetic_re name = false ->
      py_getitem disk_js "type" = Return tp -> is_str "disk" tp = true ->
      py_getitem disk_js "tran" = Return tran ->
      py_getitem disk_js "rota" = Return rota ->
      hashable tran && hashable rota = true ->
      py_getitem disk_js "size" = Return size ->
      py_getitem disk_js "mountpoint" = Return mountpoint ->
      py_getitem disk_js "fstype" = Return fs ->
      (do c <- py_getitem disk_js "children"; py_iter c) = Return children ->
      lsblk_partitions ("/dev/" +:+ name) children = Return parts ->
      parse_lsblkjs data hostname
      = (run ds1 <- parse_lsblkjs (JList before) hostname;
         exec match table_get stor_tp_table tran rota with
              | Some _ => ret tt
              | None => log (WarnDiskType name hostname tran rota)
              end;
         run ds2 <- parse_lsblkjs (JList after) hostname;
         ret (ds1 ++
              {| dsk_name := "/dev/" +:+ name; dsk_size := size;
                 dsk_mountpoint := mountpoint; dsk_fs := fs;
                 dsk_free_space := JNull; dsk_parent := None;
                 dsk_load := None;
                 dsk_tp := default "hdd" (table_get stor_tp_table tran rota);
                 dsk_extra := disk_js; dsk_partitions := parts |} :: ds2)) /\
      is_warning (WarnDiskType name hostname tran rota) = true) /\
  (forall data lg disks dsk,
      parse_lsblkjs data hostname = (lg, Return disks) -> In dsk disks ->
      exists tran rota,
        py_getitem (dsk_extra dsk) "tran" = Return tran /\
        py_getitem (dsk_extra dsk) "rota" = Return rota /\
        dsk_tp dsk = default "hdd" (table_get stor_tp_table tran rota)) /\
  (forall tran rota t,
      table_get stor_tp_table tran rota = Some t <->
      (tran = JStr "sata" /\ rota = JStr "1" /\ t = "hdd") \/
      (tran = JStr "sata" /\ rota = JStr "0" /\ t = "ssd") \/
      (tran = JStr "nvme" /\ rota = JStr "0" /\ t = "nvme")).
Proof.
  split; [|split; [|split; [|split]]].
  - intros data before disk_js after name Hit Hn Hin.
    assert (Hm : re_match synthetic_re name = true).
    { destruct Hin as [<-|[<-|[<-|[]]]]; reflexivity. }
    split.
    + rewrite (parse_lsblkjs_around _ _ _ _ _ Hit), parse_lsblkjs_without.
      rewrite (lsblk_disk_synthetic _ _ _ Hn Hm).
      destruct (parse_lsblkjs (JList before) hostname) as [l1 [ds1|e]];
        destruct (parse_lsblkjs (JList after) hostname) as [l2 [ds2|e']];
        reflexivity.
    + intros data' lg disks dsk H Hd.
      destruct (parse_lsblkjs_source _ _ _ _ _ H Hd) as (name' & Hn' & Hm' & Hnm).
      split.
      * intros E. rewrite E, Hn in Hn'. congruence.
      * rewrite Hnm. intros E. apply String.app_inj in E.
        assert (name' = name) by congruence. subst name'. congruence.
  - intros data before disk_js after name tp Hit Hn Hm Ht Hd.
    split; [|reflexivity].
    rewrite (parse_lsblkjs_around _ _ _ _ _ Hit).
    rewrite (lsblk_disk_not_disk _ _ _ _ Hn Hm Ht Hd).
    destruct (parse_lsblkjs (JList before) hostname) as [l1 [ds1|e]];
      destruct (parse_lsblkjs (JList after) hostname) as [l2 [ds2|e']];
      reflexivity.
  - intros data before disk_js after name tp tran rota size mountpoint fs
      children parts Hit Hn Hm Ht Hd Htr Hro Hh Hs Hmp Hfs Hch Hp.
    split; [|reflexivity].
    rewrite (parse_lsblkjs_around _ _ _ _ _ Hit).
    rewrite (lsblk_disk_disk _ _ _ _ _ _ _ _ _ _ _
               Hn Hm Ht Hd Htr Hro Hh Hs Hmp Hfs Hch Hp).
    destruct (parse_lsblkjs (JList before) hostname) as [l1 [ds1|e]];
      destruct (parse_lsblkjs (JList after) hostname) as [l2 [ds2|e']];
      destruct (table_get stor_tp_table tran rota); reflexivity.
  - intros data lg disks dsk H Hd.
    destruct (parse_lsblkjs_In _ _ _ _ _ H Hd) as (es & d & l & _ & _ & Hy).
    apply lsblk_disk_yield in Hy
      as (name & tp & tran & rota & _ & _ & _ & _ & Htr & Hro & _ & Hex & Hc).
    exists tran, rota. rewrite Hex. split; [exact Htr|]. split; [exact Hro|].
    destruct (table_get stor_tp_table tran rota); destruct Hc as [-> _];
      reflexivity.
  - apply stor_tp_table_spec.
Qed.

(** The witness of C9: a listing of a CD drive, a partition listed at the
    top, a USB disk and a SATA disk that does not rotate.  The parser
    warns of the partition and of the pair [(usb, 1)], and yields the USB
    disk as [hdd] and the SATA disk as [ssd]. *)
Lemma parse_lsblkjs_skips_and_classifies_witness :
  match parse_lsblkjs
          (JList [sample_lsblk_rom; sample_lsblk_top_part;
                  sample_lsblk_disk "sdc" "usb" "1" [];
                  sample_lsblk_disk "sda" "sata" "0"
                    [sample_lsblk_partition "sda1"]])
          "node-1" with
  | (lg, Return disks) =>
      lg = [WarnNotDisk "node-1" "sdz1" (JStr "part");
            WarnDiskType "sdc" "node-1" (JStr "usb") (JStr "1")] /\
      map (fun dsk => (dsk_name dsk, dsk_tp dsk)) disks
      = [("/dev/sdc", "hdd"); ("/dev/sda", "ssd")]
  | (_, Raise _) => False
  end.
Proof.
  pose proof (parse_lsblkjs_skips_and_classifies "node-1")
    as (Hskip & Hpart & Hdisk & _).
  set (usb := sample_lsblk_disk "sdc" "usb" "1" []).
  set (ssd := sample_lsblk_disk "sda" "sata" "0" [sample_lsblk_partition "sda1"]).
  rewrite (proj1 (Hskip (JList [sample_lsblk_rom; sample_lsblk_top_part; usb; ssd])
                    [] sample_lsblk_rom [sample_lsblk_top_part; usb; ssd] "sr0"
                    eq_refl eq_refl (or_introl eq_refl))).
  cbn [app].
  rewrite (proj1 (Hpart (JList [sample_lsblk_top_part; usb; ssd])
                    [] sample_lsblk_top_part [usb; ssd] "sdz1"
                    (JStr "part") eq_refl eq_refl eq_refl eq_refl eq_refl)).
  rewrite (proj1 (Hdisk (JList [usb; ssd]) [] usb [ssd]
                    "sdc" (JStr "disk") (JStr "usb") (JStr "1") (JStr "200G")
                    JNull JNull [] []
                    eq_refl eq_refl eq_refl eq_refl eq_refl eq_refl eq_refl
                    eq_refl eq_refl eq_refl eq_refl eq_refl eq_refl)).
  vm_compute. split; reflexivity.
Defined.

(** C10: the exclusion is anchored at the start of the name only.  An
    entry whose name begins with [sr] or [loop] and then a decimal digit,
    whatever follows (as in [sr0backup]), ends its turn of the loop
    without a disk, and no disk yielded comes from it. *)
Theorem parse_lsblkjs_prefix_anchored hostname disk_js name d rest :
  py_getitem disk_js "name" = Return (JStr name) ->
  is_decimal d = true ->
  name = "sr" +:+ String d rest \/ name = "loop" +:+ String d rest ->
  re_match synthetic_re name = true /\
  lsblk_disk hostname disk_js = ([], Return None) /\
  forall data lg disks dsk,
    parse_lsblkjs data hostname = (lg, Return disks) -> In dsk disks ->
    dsk_extra dsk <> disk_js /\ dsk_name dsk <> "/dev/" +:+ name.
Proof.
  intros Hn Hd Hname.
  assert (Hm : re_match synthetic_re name = true).
  { apply synthetic_re_spec. exists d, rest. auto. }
  split; [exact Hm|].
  split; [eapply lsblk_disk_synthetic; eassumption|].
  intros data lg disks dsk H Hin.
  destruct (parse_lsblkjs_source _ _ _ _ _ H Hin) as (name' & Hn' & Hm' & Hnm).
  split.
  - intros E. rewrite E, Hn in Hn'. congruence.
  - rewrite Hnm. intros E. apply String.app_inj in E.
      assert (name' = name) by congruence. subst name'. congruence.
Qed.

Lemma parse_lsblkjs_prefix_anchored_witness :
  lsblk_disk "node-1"
    (JObj [("name", JStr "sr0backup"); ("type", JStr "disk")]) = ([], Return None).
Proof.
  apply (parse_lsblkjs_prefix_anchored "node-1"
           (JObj [("name", JStr "sr0backup"); ("type", JStr "disk")])
           "sr0backup" "0"%char "backup").
  - reflexivity.
  - reflexivity.
  - left. reflexivity.
Defined.

(** ** [parse_netdev] *)

Lemma obind_Return_inv {A B} (m : outcome A) (k : A -> outcome B) b :
  obind m k = Return b -> exists a, m = Return a /\ k a = Return b.
Proof. destruct m as [a|e]; simpl; [eauto | discriminate]. Qed.

Lemma mk_NetStats_Return cs st :
  mk_NetStats cs = Return st <-> cs = netstat_values st.
Proof.
  split.
  - unfold mk_NetStats.
    do 16 (destruct cs as [|? cs]; [discriminate|]).
    destruct cs; [|discriminate]. intros [= <-]. reflexivity.
  - intros ->. destruct st. reflexivity.
Qed.

Lemma mk_NetStats_length cs st :
  mk_NetStats cs = Return st -> length cs = 16%nat.
Proof. intros H. apply mk_NetStats_Return in H as ->. reflexivity. Qed.

Lemma mk_NetStats_arity cs :
  length cs <> 16%nat -> mk_NetStats cs = Raise TypeError.
Proof.
  intros H. unfold mk_NetStats.
  do 16 (destruct cs as [|? cs]; [reflexivity|]).
  destruct cs; [contradiction H; reflexivity | reflexivity].
Qed.

Lemma netdev_line_Return info line info' :
  netdev_line info line = Return info' ->
  exists row, netdev_row line row /\ info !! fst row = None /\
              info' = <[fst row := snd row]> info.
Proof.
  unfold netdev_line.
  destruct (split_on colon line) as [|adapter [|data [|? ?]]] eqn:Hs;
    try discriminate.
  intros H.
  apply obind_Return_inv in H as ([] & Ha & H).
  apply obind_Return_inv in H as (cs & Hcs & H).
  apply obind_Return_inv in H as (st & Hst & H).
  injection H as <-.
  exists (strip adapter, st). split; [|split].
  - exists adapter, data. apply mk_NetStats_Return in Hst as ->. auto.
  - simpl. unfold assert in Ha.
    destruct (bool_decide (is_Some (info !! strip adapter))) eqn:Hb;
      [discriminate|].
    apply bool_decide_eq_false in Hb.
    destruct (info !! strip adapter) eqn:E; [|reflexivity].
    exfalso. apply Hb. eauto.
  - reflexivity.
Qed.

Lemma netdev_line_duplicate info line adapter data :
  split_on colon line = [adapter; data] ->
  is_Some (info !! strip adapter) ->
  netdev_line info line = Raise AssertionError.
Proof.
  intros Hs Hin. unfold netdev_line. rewrite Hs.
  rewrite (bool_decide_eq_true_2 _ Hin). reflexivity.
Qed.

Lemma netdev_fold_Return lines info0 info :
  foldM netdev_line lines info0 = Return info ->
  exists rows,
    Forall2 netdev_row lines rows /\
    List.NoDup (map fst rows) /\
    (forall r, In r rows -> info0 !! fst r = None) /\
    (forall a, info !! a =
               match info0 !! a with
               | Some st => Some st
               | None => snd <$> List.find (fun r => String.eqb (fst r) a) rows
               end).
Proof.
  revert info0. induction lines as [|line lines IH]; intros info0; simpl.
  - intros [= <-]. exists []. split; [constructor|]. split; [constructor|].
    split; [intros r []|]. intros a. simpl. destruct (info0 !! a); reflexivity.
  - intros H. apply obind_Return_inv in H as (info1 & H1 & H).
    apply netdev_line_Return in H1 as ([a0 st0] & Hrow & Hnone & ->).
    simpl in Hnone.
    apply IH in H as (rows & HF & Hnd & Hfresh & Hlook).
    exists ((a0, st0) :: rows). simpl.
    assert (Hnotin : ~ In a0 (map fst rows)).
    { intros Hin. apply in_map_iff in Hin as ([a1 st1] & E & Hin).
      simpl in E. subst a1. specialize (Hfresh _ Hin). simpl in Hfresh.
      rewrite lookup_insert_eq in Hfresh. discriminate. }
    split; [constructor; assumption|].
    split; [constructor; assumption|].
    split.
    + intros r [<-|Hr]; [exact Hnone|].
      specialize (Hfresh _ Hr).
      destruct (decide (a0 = fst r)) as [E|E].
      * rewrite <- E in Hfresh. simpl in Hfresh.
        rewrite lookup_insert_eq in Hfresh. discriminate.
      * simpl in Hfresh. rewrite lookup_insert_ne in Hfresh by exact E.
        exact Hfresh.
    + intros a. rewrite Hlook. simpl.
      destruct (String.eqb_spec a0 a) as [->|Hne].
      * rewrite lookup_insert_eq, Hnone. reflexivity.
      * rewrite lookup_insert_ne by exact Hne. reflexivity.
Qed.

Lemma foldM_app {A S} (f : S -> A -> outcome S) l1 l2 s :
  foldM f (l1 ++ l2) s = do s' <- foldM f l1 s; foldM f l2 s'.
Proof.
  revert s. induction l1 as [|x l1 IH]; intros s; simpl; [reflexivity|].
  destruct (f s x); simpl; [apply IH | reflexivity].
Qed.

Lemma mapM_length {A B} (f : A -> outcome B) l ys :
  mapM f l = Return ys -> length ys = length l.
Proof.
  revert ys. induction l as [|x l IH]; intros ys; simpl.
  - intros [= <-]. reflexivity.
  - intros H. apply obind_Return_inv in H as (y & _ & H).
    apply obind_Return_inv in H as (ys' & Hys & H).
    injection H as <-. simpl. f_equal. apply IH. exact Hys.
Qed.

Lemma find_fst_NoDup {V} (rows : list (string * V)) a v :
  List.NoDup (map fst rows) ->
  (List.find (fun r => String.eqb (fst r) a) rows = Some (a, v) <-> In (a, v) rows).
Proof.
  induction rows as [|[a0 v0] rows IH]; simpl; intros Hnd.
  - split; [discriminate | intros []].
  - inversion Hnd as [|? ? Hnotin Hnd']; subst.
    destruct (String.eqb_spec a0 a) as [->|Hne].
    + split; [intros [= ->]; auto|].
      intros [[= ->]|Hin]; [reflexivity|].
      exfalso. apply Hnotin. apply in_map_iff. exists (a, v). auto.
    + rewrite (IH Hnd'). split; [auto|].
      intros [[= ? ?]|Hin]; [contradiction | exact Hin].
Qed.

Lemma find_fst_key {V} (rows : list (string * V)) a r :
  List.find (fun r => String.eqb (fst r) a) rows = Some r -> fst r = a.
Proof.
  intros H. apply find_some in H as [_ H]. apply String.eqb_eq in H. exact H.
Qed.

(** C6, as the code has it: [parse_netdev] drops the first two lines of
    the stripped text and reads every other line as an adapter name, a
    colon, and sixteen integer counters separated by white space, which
    fill the fields of [NetStats] by position; the adapter names of a
    listing that parses are pairwise distinct and the result maps each to
    its counters; a line that repeats an adapter name already read fails
    the assertion. *)
Theorem parse_netdev_rows (netdev : string) :
  (forall info,
      parse_netdev netdev = Return info ->
      exists rows : list (string * NetStats),
        Forall2
          (fun line row =>
             exists adapter data,
               split_on colon line = [adapter; data] /\
               fst row = strip adapter /\
               length (split_ws data) = 16%nat /\
               mapM int_of_str (split_ws data) = Return (netstat_values (snd row)))
          (drop 2 (split_on newline (strip netdev))) rows /\
        List.NoDup (map fst rows) /\
        forall a st, info !! a = Some st <-> In (a, st) rows) /\
  (forall pre line post info adapter data,
      drop 2 (split_on newline (strip netdev)) = pre ++ line :: post ->
      foldM netdev_line pre ∅ = Return info ->
      split_on colon line = [adapter; data] ->
      is_Some (info !! strip adapter) ->
      parse_netdev netdev = Raise AssertionError).
Proof.
  split.
  - intros info H. unfold parse_netdev in H.
    apply netdev_fold_Return in H as (rows & HF & Hnd & _ & Hlook).
    exists rows. split; [|split; [exact Hnd|]].
    + eapply Forall2_impl; [exact HF|].
      intros line row (adapter & data & Hs & Hn & Hm).
      exists adapter, data. repeat (split; [assumption|]).
      split; [|exact Hm].
      apply mapM_length in Hm. rewrite <- Hm. reflexivity.
    + intros a st. rewrite Hlook, lookup_empty.
      rewrite <- (find_fst_NoDup rows a st Hnd).
      destruct (List.find _ rows) as [[a' st']|] eqn:E; simpl.
      * apply find_fst_key in E as E'. simpl in E'. subst a'.
        split; intros [= ->]; reflexivity.
      * split; discriminate.
  - intros pre line post info adapter data Hl Hpre Hs Hin.
    unfold parse_netdev. rewrite Hl, foldM_app, Hpre. simpl.
    rewrite (netdev_line_duplicate _ _ _ _ Hs Hin). reflexivity.
Qed.

Lemma parse_netdev_rows_witness :
  parse_netdev
    (proc_net_dev_header +:+ netdev_eth0_16 +:+ String newline netdev_eth0_16)
  = Raise AssertionError.
Proof.
  eapply (proj2 (parse_netdev_rows _) [netdev_eth0_16] netdev_eth0_16 []).
  - vm_compute. reflexivity.
  - vm_compute. reflexivity.
  - vm_compute. reflexivity.
  - vm_compute. eauto.
Defined.

(** C6 as stated fails: a line of fifteen counters is refused with a
    [TypeError], and the listing that parses has sixteen counters on its
    line. *)
Lemma parse_netdev_fifteen_counters :
  parse_netdev (proc_net_dev_header +:+ netdev_eth0_15) = Raise TypeError /\
  length (split_ws " 1 2 3 4 5 6 7 8 9 10 11 12 13 14 15") = 15%nat /\
  match parse_netdev (proc_net_dev_header +:+ netdev_eth0_16) with
  | Return info => netstat_values <$> info !! "eth0"
  | Raise _ => None
  end = Some [1; 2; 3; 4; 5; 6; 7; 8; 9; 10; 11; 12; 13; 14; 15; 16].
Proof. repeat split; vm_compute; reflexivity. Qed.

(** ** [dict] and [update] *)


Lemma dict_get_Some_In {V} (d : dict V) k v :
  dict_get d k = Some v -> In k (map fst d).
Proof.
  induction d as [|[k' v'] d IH]; simpl; [discriminate|].
  destruct (String.eqb_spec k' k) as [->|Hne]; [auto|].
  intros H. right. apply IH. exact H.
Qed.





Lemma foldM_raises {A S} (f : S -> A -> outcome S) l x s :
  In x l -> (forall s', raises (f s' x)) -> raises (foldM f l s).
Proof.
  revert s. induction l as [|y l IH]; intros s; simpl; [intros []|].
  intros [->|Hin] Hx.
  - destruct (Hx s) as [e ->]. exists e. reflexivity.
  - destruct (f s y) as [s'|e]; simpl; [apply IH; assumption|].
    exists e. reflexivity.
Qed.

(** ** [load_pools] *)






(** ** [load_monitors] *)

Lemma is_str_true s j : is_str s j = true <-> j = JStr s.
Proof.
  destruct j; simpl; try (split; [discriminate | intros [=]]).
  rewrite String.eqb_eq. split; [intros ->; reflexivity | intros [= ->]; reflexivity].
Qed.

Lemma assign_monitor_Some hosts mh mn hosts' :
  assign_monitor hosts mh mn = Some hosts' ->
  map host_name hosts' = map host_name hosts /\
  exists h, In h hosts /\ mh = JStr (host_name h).
Proof.
  revert hosts'. induction hosts as [|h hs IH]; intros hosts'; simpl; [discriminate|].
  destruct (is_str (host_name h) mh) eqn:E.
  - intros [= <-]. split; [reflexivity|].
    exists h. split; [left; reflexivity | apply is_str_true; exact E].
  - destruct (assign_monitor hs mh mn) as [hs'|]; [|discriminate].
    intros [= <-]. destruct (IH hs' eq_refl) as (Hn & h' & Hin & Hh).
    split; [simpl; f_equal; exact Hn|].
    exists h'. split; [right; exact Hin | exact Hh].
Qed.

Lemma assign_monitor_None hosts mh mn :
  (forall h, In h hosts -> mh <> JStr (host_name h)) ->
  assign_monitor hosts mh mn = None.
Proof.
  induction hosts as [|h hs IH]; simpl; [reflexivity|]. intros H.
  destruct (is_str (host_name h) mh) eqn:E.
  - apply is_str_true in E. exfalso. apply (H h); auto.
  - rewrite IH; [reflexivity|]. intros h' Hin. apply H. right. exact Hin.
Qed.

Lemma In_host_names hosts hosts' h :
  map host_name hosts' = map host_name hosts -> In h hosts ->
  exists h', In h' hosts' /\ host_name h' = host_name h.
Proof.
  intros Hn Hin. apply (in_map host_name) in Hin. rewrite <- Hn in Hin.
  apply in_map_iff in Hin as (h' & E & Hin'). eauto.
Qed.

Lemma load_monitor_Return is_luminous hosts mons srv lg hosts' mons' :
  load_monitor is_luminous (hosts, mons) srv = (lg, Return (hosts', mons')) ->
  map host_name hosts' = map host_name hosts /\
  exists m h,
    mons' = mons ++ [m] /\
    py_getitem srv "name" = Return (mon_name m) /\
    In h hosts /\ mon_host m = JStr (host_name h).
Proof.
  unfold load_monitor. intros H.
  apply bind_lift_inv in H as (health & _ & H).
  apply bind_lift_inv in H as (name & Hname & H).
  destruct (assign_monitor hosts name name) as [hs|] eqn:Ha; [|discriminate].
  apply assign_monitor_Some in Ha as (Hn & h & Hin & Hh).
  apply bind_lift_inv in H as (kb & _ & H).
  apply bind_lift_inv in H as (ap & _ & H).
  injection H as <- <- <-.
  split; [exact Hn|].
  eexists _, h. split; [reflexivity|]. simpl. auto.
Qed.

Lemma load_monitor_unresolved is_luminous hosts mons srv name :
  py_getitem srv "name" = Return name ->
  (forall h, In h hosts -> name <> JStr (host_name h)) ->
  mraises (load_monitor is_luminous (hosts, mons) srv) /\
  (is_luminous = true ->
   load_monitor is_luminous (hosts, mons) srv
   = ([ErrNoHostForMonitor name], Raise ValueError)).
Proof.
  intros Hname Hno. unfold load_monitor, mraises.
  destruct (if is_luminous then Return JNull else py_getitem srv "health")
    as [health|e] eqn:Eh.
  - rewrite bind_lift_Return, Hname, bind_lift_Return.
    rewrite (assign_monitor_None hosts name name Hno).
    split; [exists ValueError; reflexivity | intros _; reflexivity].
  - split; [exists e; reflexivity|]. intros ->. discriminate Eh.
Qed.

Lemma foldMl_loop_monitors is_luminous srvs hosts mons lg hosts' mons' :
  foldMl (load_monitor is_luminous) srvs (hosts, mons) = (lg, Return (hosts', mons')) ->
  map host_name hosts' = map host_name hosts /\
  exists new,
    mons' = mons ++ new /\
    Forall2 (fun srv m => py_getitem srv "name" = Return (mon_name m)) srvs new /\
    Forall (fun m => exists h, In h hosts /\ mon_host m = JStr (host_name h)) new.
Proof.
  revert hosts mons lg. induction srvs as [|srv srvs IH]; intros hosts mons lg; simpl.
  - intros [= <- <- <-]. split; [reflexivity|]. exists [].
    rewrite app_nil_r. repeat constructor.
  - intros H. apply bind_Return_inv in H as (l1 & [hs1 ms1] & l2 & H1 & H & ->).
    apply load_monitor_Return in H1 as (Hn1 & m & h & -> & Hname & Hin & Hh).
    apply IH in H as (Hn & new & -> & HF2 & HF).
    split; [congruence|].
    exists (m :: new). split; [rewrite <- app_assoc; reflexivity|].
    split; [constructor; assumption|].
    constructor; [eauto|].
    eapply Forall_impl; [exact HF|].
    intros m' (h' & Hin' & Hh').
    destruct (In_host_names hs1 hosts h' (eq_sym Hn1) Hin') as (h'' & Hin'' & E).
    exists h''. split; [exact Hin''|]. rewrite Hh'. f_equal. auto.
Qed.

Lemma foldMl_cons {A S} (f : S -> A -> M S) x l s :
  foldMl f (x :: l) s = bind (f s x) (fun s' => foldMl f l s').
Proof. reflexivity. Qed.

Lemma bind_mraises {A B} (m : M A) (k : A -> M B) :
  mraises m -> mraises (bind m k).
Proof.
  intros [e He]. destruct m as [l [a|e']]; simpl in He; [discriminate|].
  exists e'. reflexivity.
Qed.

Lemma bind_mraises_k {A B} (m : M A) (k : A -> M B) l a :
  m = (l, Return a) -> mraises (k a) -> mraises (bind m k).
Proof.
  intros -> [e He]. simpl. destruct (k a) as [l' r]. simpl in He. subst r.
  exists e. reflexivity.
Qed.

Lemma foldMl_monitors_raises is_luminous srvs srv name hosts mons :
  In srv srvs ->
  py_getitem srv "name" = Return name ->
  (forall h, In h hosts -> name <> JStr (host_name h)) ->
  mraises (foldMl (load_monitor is_luminous) srvs (hosts, mons)).
Proof.
  revert hosts mons. induction srvs as [|s srvs IH]; intros hosts mons;
    [intros []|].
  rewrite foldMl_cons. intros [->|Hin] Hname Hno.
  - apply bind_mraises.
    apply (load_monitor_unresolved is_luminous hosts mons srv name Hname Hno).
  - destruct (load_monitor is_luminous (hosts, mons) s) as [l [[hs1 ms1]|e]] eqn:E;
      [|exists e; reflexivity].
    eapply bind_mraises_k; [reflexivity|].
    apply load_monitor_Return in E as (Hn & _).
    apply IH; [exact Hin | exact Hname |].
    intros h Hh. destruct (In_host_names hs1 hosts h (eq_sym Hn) Hh)
      as (h' & Hin' & E'). rewrite <- E'. apply Hno. exact Hin'.
Qed.

(** C4: when [load_monitors] returns, the hosts keep their names, one
    monitor has been appended for every entry of the monitor listing, in
    order and under that entry's name, and the [host] attribute of each is
    the name of a host loaded before; when the name of some entry of the
    listing is the name of no host, [load_monitors] raises. *)
Theorem load_monitors_resolves_hosts is_luminous status hosts mons :
  (forall lg hosts' mons',
      load_monitors is_luminous status (hosts, mons) = (lg, Return (hosts', mons')) ->
      map host_name hosts' = map host_name hosts /\
      exists listing srvs new,
        monitor_listing is_luminous status = Return listing /\
        py_iter listing = Return srvs /\
        mons' = mons ++ new /\
        Forall2 (fun srv m => py_getitem srv "name" = Return (mon_name m)) srvs new /\
        Forall (fun m => exists h, In h hosts /\ mon_host m = JStr (host_name h)) new) /\
  (forall listing srvs srv name,
      monitor_listing is_luminous status = Return listing ->
      py_iter listing = Return srvs ->
      In srv srvs ->
      py_getitem srv "name" = Return name ->
      (forall h, In h hosts -> name <> JStr (host_name h)) ->
      mraises (load_monitors is_luminous status (hosts, mons))).
Proof.
  split.
  - intros lg hosts' mons' H. unfold load_monitors in H.
    apply bind_lift_inv in H as (listing & Hl & H).
    apply bind_lift_inv in H as (srvs & Hs & H).
    apply foldMl_loop_monitors in H as (Hn & new & -> & HF2 & HF).
    split; [exact Hn|]. exists listing, srvs, new. auto.
  - intros listing srvs srv name Hl Hs Hin Hname Hno.
    unfold load_monitors. rewrite Hl, bind_lift_Return, Hs, bind_lift_Return.
    eapply foldMl_monitors_raises; eassumption.
Qed.

Lemma load_monitors_resolves_hosts_witness :
  mraises (load_monitors true (sample_status "ceph-9") (sample_hosts, [])).
Proof.
  apply (proj2 (load_monitors_resolves_hosts true (sample_status "ceph-9")
                  sample_hosts [])
           (JList [JObj [("name", JStr "ceph-9"); ("rank", JInt 0)]])
           [JObj [("name", JStr "ceph-9"); ("rank", JInt 0)]]
           (JObj [("name", JStr "ceph-9"); ("rank", JInt 0)])
           (JStr "ceph-9")).
  - reflexivity.
  - reflexivity.
  - left. reflexivity.
  - reflexivity.
  - intros h [<-|[<-|[]]]; discriminate.
Defined.

(** The monitor of a known host is kept, and the host learns its name. *)
Example load_monitors_resolved :
  load_monitors true (sample_status "ceph-2") (sample_hosts, [])
  = ([], Return
           ([{| host_name := "ceph-1"; host_stor_id := "10.0.0.1-ceph-1";
                host_osd_ids := ∅; host_mon_name := JNull;
                host_perf_monitoring := None |};
             {| host_name := "ceph-2"; host_stor_id := "10.0.0.2-ceph-2";
                host_osd_ids := ∅; host_mon_name := JStr "ceph-2";
                host_perf_monitoring := None |}],
            [{| mon_name := JStr "ceph-2"; mon_status := JNull;
                mon_host := JStr "ceph-2"; mon_role := JNull;
                mon_health := JNull; mon_kb_avail := JNull;
                mon_avail_percent := JNull |}])).
Proof. reflexivity. Qed.

(** ** [load_PG_distribution] *)

Lemma digit_char_not_p c : is_digit_char c = true -> Ascii.eqb "p" c = false.
Proof.
  intros H. destruct (Ascii.eqb_spec "p"%char c) as [<-|]; [discriminate H | reflexivity].
Qed.

Lemma all_digits_no_pgs node :
  all_chars is_digit_char node = true -> is_substring "pgs" node = false.
Proof.
  induction node as [|c node IH]; [reflexivity|].
  intros H. simpl in H. apply andb_prop in H as [Hc Hn].
  change (is_substring "pgs" (String c node))
    with ((Ascii.eqb "p" c && is_prefix "gs" node) || is_substring "pgs" node).
  rewrite (digit_char_not_p c Hc). simpl. apply IH. exact Hn.
Qed.

Lemma isdigit_no_pgs node : isdigit node = true -> is_substring "pgs" node = false.
Proof.
  destruct node as [|c node]; [discriminate|]. apply all_digits_no_pgs.
Qed.

Lemma pgs_of_entry_cases id2name c b entry :
  let r := pgs_of_entry id2name (c, b) entry in
  mraises r \/
  (exists b', snd r = Return (c, b') /\
     ((fst r = [] /\ b' = b) \/
      (b = false /\ b' = true /\ exists n, fst r = [WarnNoPGs n]))).
Proof.
  unfold pgs_of_entry.
  destruct (negb (entry_is_file entry) && isdigit (entry_name entry)) eqn:E;
    [|right; exists b; simpl; auto].
  apply andb_prop in E as [_ Hd].
  rewrite (isdigit_no_pgs _ Hd).
  destruct (int_of_str (entry_name entry)) as [n|e]; [|left; exists e; reflexivity].
  rewrite bind_lift_Return. simpl snd.
  destruct b; simpl; right.
  - exists true. auto.
  - exists true. split; [reflexivity|]. right. eauto.
Qed.

Lemma pgs_fold_cases id2name c b txt_osd :
  let r := foldMl (pgs_of_entry id2name) txt_osd (c, b) in
  (mraises r \/ exists b', snd r = Return (c, b')) /\
  (length (fst r) <= (if b then 0 else 1))%nat.
Proof.
  revert b. induction txt_osd as [|entry rest IH]; intros b.
  - simpl. split; [right; eauto | destruct b; simpl; lia].
  - cbv zeta. rewrite foldMl_cons.
    pose proof (pgs_of_entry_cases id2name c b entry) as Hc. cbv zeta in Hc.
    destruct (pgs_of_entry id2name (c, b) entry) as [l1 [st1|e]] eqn:E;
      simpl in Hc.
    + destruct Hc as [[e He]|(b' & Hst & Hc)]; [discriminate He|].
      injection Hst as ->.
      specialize (IH b'). cbv zeta in IH. simpl.
      destruct (foldMl (pgs_of_entry id2name) rest (c, b')) as [l2 r2].
      simpl in IH |- *. destruct IH as [IHr IHl].
      split; [exact IHr|].
      rewrite length_app.
      destruct Hc as [[-> ->]|(-> & -> & n & ->)]; simpl in *; lia.
    + simpl. split; [left; exists e; reflexivity|].
      destruct Hc as [_|(b' & [=] & _)].
      (* the turn that raised logged nothing *)
      unfold pgs_of_entry in E.
      destruct (negb (entry_is_file entry) && isdigit (entry_name entry)) eqn:E1;
        [|discriminate E].
      apply andb_prop in E1 as [_ Hd]. rewrite (isdigit_no_pgs _ Hd) in E.
      destruct (int_of_str (entry_name entry)) as [n|e'].
      * rewrite bind_lift_Return in E. destruct b; discriminate E.
      * injection E as <- _. simpl. lia.
Qed.

(** C7, what the code does: without a [pg_dump], [load_PG_distribution]
    never reads a PG listing.  Whatever the [osd] folder holds, the load
    either raises or leaves the three counters empty, with at most one
    warning; with the listing of OSD 0 in the bundle ([1.0 1.1 1.2], three
    placement groups of pool 1), no placement group is credited and the
    one warning names OSD 0. *)
Theorem load_PG_distribution_without_pg_dump osd_lspools txt_osd :
  let r := load_PG_distribution None osd_lspools txt_osd in
  (mraises r \/ snd r = Return no_pgs) /\
  (length (fst r) <= 1)%nat /\
  load_PG_distribution None [(1, "rbd")] sample_osd_folder
  = ([WarnNoPGs 0], Return no_pgs).
Proof.
  cbv zeta. unfold load_PG_distribution.
  pose proof (pgs_fold_cases (pool_id2name osd_lspools) no_pgs false txt_osd) as H.
  cbv zeta in H.
  destruct (foldMl (pgs_of_entry (pool_id2name osd_lspools)) txt_osd (no_pgs, false))
    as [l [st|e]]; simpl in H |- *.
  - destruct H as [[[e He]|[b' Hb]] Hl]; [discriminate He|].
    injection Hb as ->. simpl. rewrite app_nil_r.
    split; [right; reflexivity|]. split; [exact Hl | reflexivity].
  - destruct H as [_ Hl].
    split; [left; exists e; reflexivity|]. split; [exact Hl | reflexivity].
Qed.

(** ** [load_interfaces] *)

Lemma foldMl_inv {A S} (f : S -> A -> M S) (P : S -> Prop) l :
  (forall s x lg s', In x l -> P s -> f s x = (lg, Return s') -> P s') ->
  forall s lg s', P s -> foldMl f l s = (lg, Return s') -> P s'.
Proof.
  induction l as [|x l IH]; intros Hf s lg s' Hs H.
  - injection H as <- <-. exact Hs.
  - rewrite foldMl_cons in H.
    apply bind_Return_inv in H as (l1 & s1 & l2 & H1 & H2 & ->).
    eapply IH; [| |exact H2].
    + intros s0 x0 lg0 s0' Hin. apply Hf. right. exact Hin.
    + eapply Hf; [left; reflexivity | exact Hs | exact H1].
Qed.

Lemma dict_get_set {V} (d : dict V) k v k' :
  dict_get (dict_set d k v) k' = if String.eqb k k' then Some v else dict_get d k'.
Proof.
  induction d as [|[k0 v0] d IH]; simpl.
  - reflexivity.
  - destruct (String.eqb_spec k0 k) as [->|Hne]; simpl.
    + destruct (String.eqb k k'); reflexivity.
    + rewrite IH. destruct (String.eqb_spec k0 k') as [->|Hne'].
      * destruct (String.eqb_spec k k'); [congruence | reflexivity].
      * reflexivity.
Qed.

Lemma fill_load_break load_node t ms load m :
  In m ms -> load_node !! metric_name m = None ->
  fill_load load_node t ms load = None.
Proof.
  revert load. induction ms as [|m0 ms IH]; intros load; [intros []|].
  intros [->|Hin] Hm; cbn [fill_load].
  - rewrite Hm. reflexivity.
  - destruct (load_node !! metric_name m0); [apply IH; assumption | reflexivity].
Qed.

Lemma get_set_metric load m data avg m' :
  get_metric (set_metric load m data avg) m' =
  if decide (metric_name m = metric_name m') then (Some data, Some avg)
  else get_metric load m'.
Proof. destruct m, m'; reflexivity. Qed.

Lemma fill_load_else load_node t ms load load' :
  fill_load load_node t ms load = Some load' ->
  forall m,
    (In m ms ->
     exists data, load_node !! metric_name m = Some data /\
                  get_metric load' m = (Some data, Some (b64_div (py_sum data) t))) /\
    (~ In m ms -> get_metric load' m = get_metric load m).
Proof.
  revert load. induction ms as [|m0 ms IH]; intros load; cbn [fill_load].
  - intros [= <-] m. split; [intros [] | reflexivity].
  - destruct (load_node !! metric_name m0) as [data0|] eqn:E0; [|discriminate].
    intros H m. destruct (IH _ H m) as [IHin IHout].
    assert (Hdec : In m ms \/ ~ In m ms).
    { clear. induction ms as [|a ms IH]; [right; intros []|].
      destruct IH as [IH|IH]; [left; right; exact IH|].
      destruct m, a; (left; left; reflexivity) ||
                     (right; intros [F|F]; [discriminate F | exact (IH F)]). }
    split.
    + intros [->|Hin]; [|apply IHin; exact Hin].
      destruct Hdec as [Hin|Hout]; [apply IHin; exact Hin|].
      exists data0. split; [exact E0|].
      rewrite (IHout Hout), get_set_metric.
      destruct (decide (metric_name m = metric_name m)); [reflexivity | contradiction].
    + intros Hout.
      assert (Hne : m0 <> m) by (intros ->; apply Hout; left; reflexivity).
      assert (Hout' : ~ In m ms) by (intros Hin; apply Hout; right; exact Hin).
      rewrite (IHout Hout'), get_set_metric.
      destruct (decide (metric_name m0 = metric_name m)) as [E|_]; [|reflexivity].
      exfalso. apply Hne. destruct m0, m; (reflexivity || discriminate E).
Qed.

Lemma In_metrics m : In m metrics.
Proof. destruct m; simpl; auto. Qed.

Lemma b64_ltb_one_truthy t : b64_ltb b64_one t = true -> float_truthy t = true.
Proof. destruct t as [[|]|[|]| |[|] m e]; simpl; intros H; (reflexivity || discriminate H). Qed.

Lemma dict_update_keeps g fields k :
  is_Some (g !! k) -> is_Some (dict_update g fields !! k).
Proof.
  unfold dict_update. revert g.
  induction fields as [|[k0 v0] fields IH]; intros g Hi; simpl; [exact Hi|].
  apply IH. destruct (decide (k0 = k)) as [->|Hne].
  - rewrite lookup_insert_eq. eauto.
  - rewrite lookup_insert_ne by exact Hne. exact Hi.
Qed.

Lemma make_adapter_Return host ifs_info dtime dev fields lg adapter :
  make_adapter host ifs_info dtime dev fields = (lg, Return adapter) ->
  exists name,
    na_attrs adapter !! "name" = Some name /\
    adapter_load (host_perf_monitoring host) dtime name = Return (na_load adapter).
Proof.
  unfold make_adapter. intros H.
  apply bind_Return_inv in H as (l1 & attrs' & l2 & Ha & H & ->).
  apply bind_lift_inv in H as (load & Hload & H).
  injection H as <- <-. simpl.
  assert (Hn : is_Some (attrs' !! "name")).
  { assert (H0 : is_Some (delete "load"
              (dict_update (new_NetworkAdapter dev) fields) !! "name")).
    { rewrite lookup_delete_ne by discriminate.
      apply dict_update_keeps. unfold new_NetworkAdapter.
      rewrite !lookup_insert_ne by discriminate.
      rewrite lookup_insert_eq. eauto. }
    destruct (ifs_info !! dev).
    - injection Ha as <- <-. rewrite lookup_insert_ne by discriminate. exact H0.
    - cbv in Ha. injection Ha as <- <-. exact H0. }
  destruct Hn as [name Hn]. exists name. rewrite Hn in Hload. auto.
Qed.

(** Every adapter of the result was made by a turn of the first loop; the
    second loop adds addresses only. *)
Lemma load_interfaces_adapters host interfaces ifs_info ipa4 dtime lg adapters :
  load_interfaces host interfaces ifs_info ipa4 dtime = (lg, Return adapters) ->
  forall dev adapter,
    dict_get adapters dev = Some adapter ->
    exists fields lg' made,
      make_adapter host ifs_info dtime dev fields = (lg', Return made) /\
      na_attrs adapter = na_attrs made /\ na_load adapter = na_load made.
Proof.
  unfold load_interfaces. intros H.
  apply bind_Return_inv in H as (l1 & d1 & l2 & H1 & H2 & ->).
  set (Inv := fun d : dict NetworkAdapter =>
    forall dev adapter,
      dict_get d dev = Some adapter ->
      exists fields lg' made,
        make_adapter host ifs_info dtime dev fields = (lg', Return made) /\
        na_attrs adapter = na_attrs made /\ na_load adapter = na_load made).
  assert (Hd1 : Inv d1).
  { eapply (foldMl_inv _ Inv); [| |exact H1].
    - intros d [dev fields] lg0 d' _ Hd Hf.
      apply bind_Return_inv in Hf as (l3 & a & l4 & Ha & Hr & ->).
      injection Hr as <- <-.
      intros dev' adapter. rewrite dict_get_set.
      destruct (String.eqb_spec dev dev') as [<-|_].
      + intros [= <-]. exists fields, l3, a. auto.
      + apply Hd.
    - intros dev adapter [=]. }
  eapply (foldMl_inv _ Inv); [|exact Hd1|exact H2].
  intros d [[dev_name ip] size] lg0 d' _ Hd Hf. unfold add_address in Hf.
  apply bind_lift_inv in Hf as (net & _ & Hf).
  destruct (dict_get d dev_name) as [a|] eqn:Ea.
  - injection Hf as <- <-.
    intros dev' adapter. rewrite dict_get_set.
    destruct (String.eqb_spec dev_name dev') as [<-|_]; [|apply Hd].
    intros [= <-]. simpl. apply Hd. exact Ea.
  - cbv in Hf. injection Hf as <- <-. exact Hd.
Qed.

Lemma make_adapter_all_or_nothing host ifs_info t perf :
  b64_ltb b64_one t = true ->
  host_perf_monitoring host = Some perf ->
  perf_truthy (Some perf) = true ->
  forall dev fields lg adapter,
    make_adapter host ifs_info (Some t) dev fields = (lg, Return adapter) ->
    exists name load_node,
      na_attrs adapter !! "name" = Some name /\
      load_node_of perf name = Return load_node /\
      (forall m, load_node !! metric_name m = None -> na_load adapter = None) /\
      (forall load,
          na_load adapter = Some load ->
          forall m, exists data,
              load_node !! metric_name m = Some data /\
              get_metric load m = (Some data, Some (b64_div (py_sum data) t))) /\
      ((forall m, is_Some (load_node !! metric_name m)) ->
       is_Some (na_load adapter)).
Proof.
  intros Ht Hp Htruthy dev fields lg adapter H.
  apply make_adapter_Return in H as (name & Hname & Hload).
  rewrite Hp in Hload. unfold adapter_load, window_ok in Hload.
  rewrite Ht, (b64_ltb_one_truthy t Ht), Htruthy in Hload. cbn [andb] in Hload.
  destruct (load_node_of perf name) as [load_node|e] eqn:Hnode; [|discriminate].
  cbn [obind] in Hload.
  assert (Hfill : fill_load load_node t metrics new_NetLoad = na_load adapter)
    by congruence.
  clear Hload. rename Hfill into Hload.
  exists name, load_node. split; [exact Hname|]. split; [exact Hnode|].
  split; [|split].
  - intros m Hm. rewrite <- Hload.
    eapply fill_load_break; [apply In_metrics | exact Hm].
  - intros load Hl m. rewrite <- Hload in Hl.
    apply (fill_load_else _ _ _ _ _ Hl m). apply In_metrics.
  - intros Hall. rewrite <- Hload.
    destruct (fill_load load_node t metrics new_NetLoad) as [load|] eqn:E; [eauto|].
    exfalso.
    assert (Hex : exists m, In m metrics /\ load_node !! metric_name m = None).
    { clear -E. revert E. generalize new_NetLoad. generalize metrics.
      induction l as [|m ms IH]; intros load; cbn [fill_load]; [discriminate|].
      destruct (load_node !! metric_name m) eqn:Em.
      - intros H. destruct (IH _ H) as (m' & Hin & Hm').
        exists m'. split; [right; exact Hin | exact Hm'].
      - intros _. exists m. split; [left; reflexivity | exact Em]. }
    destruct Hex as (m & _ & Hm). destruct (Hall m) as [x Hx]. congruence.
Qed.

(** C8: in the result of [load_interfaces], for a window of more than one
    second (and performance data for the host), the load of an adapter is
    all or nothing.  When one of [send_bytes], [send_packets],
    [recv_packets], [recv_bytes] has no samples for the adapter, [load]
    is [None]; [load] is set only when the four are there, and then holds
    the samples and the rate of every one of them. *)
Theorem load_interfaces_all_or_nothing host interfaces ifs_info ipa4 t perf
    lg adapters :
  b64_ltb b64_one t = true ->
  host_perf_monitoring host = Some perf ->
  perf_truthy (Some perf) = true ->
  load_interfaces host interfaces ifs_info ipa4 (Some t) = (lg, Return adapters) ->
  forall dev adapter,
    dict_get adapters dev = Some adapter ->
    exists name load_node,
      na_attrs adapter !! "name" = Some name /\
      load_node_of perf name = Return load_node /\
      (forall m, load_node !! metric_name m = None -> na_load adapter = None) /\
      (forall load,
          na_load adapter = Some load ->
          forall m, exists data,
              load_node !! metric_name m = Some data /\
              get_metric load m = (Some data, Some (b64_div (py_sum data) t))) /\
      ((forall m, is_Some (load_node !! metric_name m)) ->
       is_Some (na_load adapter)).
Proof.
  intros Ht Hp Htruthy H dev adapter Hd.
  destruct (load_interfaces_adapters _ _ _ _ _ _ _ H dev adapter Hd)
    as (fields & lg' & made & Hm & Ha & Hl).
  rewrite Ha, Hl.
  eapply make_adapter_all_or_nothing; eassumption.
Qed.

Lemma load_interfaces_all_or_nothing_witness :
  match load_interfaces (sample_host sample_eth0_partial)
          [("eth0", [("is_phy", JBool true)])] {[ "eth0" := 1500 ]}
          [("eth0", 167772161, 24)] (Some sample_dtime) with
  | (_, Return adapters) =>
      match dict_get adapters "eth0" with
      | Some adapter => na_load adapter = None
      | None => False
      end
  | (_, Raise _) => False
  end.
Proof.
  assert (Hr : match load_interfaces (sample_host sample_eth0_partial)
                       [("eth0", [("is_phy", JBool true)])] {[ "eth0" := 1500 ]}
                       [("eth0", 167772161, 24)] (Some sample_dtime) with
               | (_, Return adapters) =>
                   match dict_get adapters "eth0" with
                   | Some adapter => na_attrs adapter !! "name"
                   | None => None
                   end
               | (_, Raise _) => None
               end = Some (JStr "eth0"))
    by (vm_compute; reflexivity).
  destruct (load_interfaces _ _ _ _ _) as [lg [adapters|e]] eqn:E;
    [|discriminate Hr].
  destruct (dict_get adapters "eth0") as [adapter|] eqn:Ea; [|discriminate Hr].
  destruct (load_interfaces_all_or_nothing (sample_host sample_eth0_partial)
              _ _ _ sample_dtime
              (sample_perf sample_eth0_partial) lg adapters
              eq_refl eq_refl eq_refl E "eth0" adapter Ea)
    as (name & load_node & Hn & Hnode & Hnone & _).
  assert (name = JStr "eth0") by congruence. subst name.
  assert (Hl : load_node = sample_eth0_partial)
    by (vm_compute in Hnode; vm_compute; congruence).
  subst load_node.
  apply (Hnone recv_bytes). vm_compute. reflexivity.
Defined.

(** ** [load_osds] *)

Lemma load_osd_Return st c osd_data lg c' :
  load_osd st c osd_data = (lg, Return c') ->
  exists osd,
    osd_heap c' = osd_heap c ++ [osd] /\
    osds c' = osds c ++ [length (osd_heap c)] /\
    osd_map c' = <[None := length (osd_heap c)]> (osd_map c) /\
    perf_data c' = perf_data c /\
    osd_of_entry st (perf_data c) osd_data osd.
Proof.
  unfold load_osd. intros H.
  apply bind_lift_inv in H as (reweight & _ & H).
  apply bind_Return_inv in H as (l1 & host & l2 & _ & H & ->).
  apply bind_Return_inv in H as (l3 & osd & l4 & Hosd & H & ->).
  injection H as <- <-. exists osd. simpl.
  repeat (split; [reflexivity|]).
  exists reweight, (osd_versions st !! od_osd osd_data),
    (default 0 (pg_sum_per_osd c !! od_osd osd_data)), host.
  cbv zeta. destruct (od_up osd_data).
  - unfold lift in Hosd. injection Hosd as <- Ho. exact Ho.
  - injection Hosd as <- <-. reflexivity.
Qed.

Lemma load_osds_loop st entries c lg c' :
  foldMl (load_osd st) entries c = (lg, Return c') ->
  perf_data c' = perf_data c /\
  exists new,
    Forall2 (osd_of_entry st (perf_data c)) entries new /\
    osd_heap c' = osd_heap c ++ new /\
    osds c' = osds c ++ seq (length (osd_heap c)) (length new) /\
    osd_map c' =
      match new with
      | [] => osd_map c
      | _ => <[None := (length (osd_heap c) + length new - 1)%nat]> (osd_map c)
      end.
Proof.
  revert c lg. induction entries as [|d entries IH]; intros c lg H.
  - injection H as <- <-. split; [reflexivity|]. exists [].
    rewrite !app_nil_r. split; [constructor | auto].
  - rewrite foldMl_cons in H.
    apply bind_Return_inv in H as (l1 & c1 & l2 & H1 & H & ->).
    apply load_osd_Return in H1 as (osd & Hheap & Hosds & Hmap & Hperf & Hosd).
    apply IH in H as (Hperf' & new & HF & Hheap' & Hosds' & Hmap').
    split; [congruence|].
    exists (osd :: new). rewrite Hperf in HF.
    split; [constructor; assumption|].
    rewrite Hheap' , Hheap, <- app_assoc. split; [reflexivity|].
    rewrite Hosds', Hosds, Hheap, length_app, <- app_assoc. simpl.
    split; [f_equal; f_equal; f_equal; lia|].
    rewrite Hmap', Hmap, Hheap, length_app. simpl.
    destruct new as [|o new]; simpl.
    + f_equal. lia.
    + rewrite insert_insert_eq. f_equal. lia.
Qed.

Lemma insert_by_id_perm x l : Permutation (insert_by_id x l) (x :: l).
Proof.
  induction l as [|y l IH]; simpl; [reflexivity|].
  destruct (fst x <? fst y); [reflexivity|].
  rewrite IH. apply perm_swap.
Qed.

Lemma sort_by_id_perm l : Permutation (sort_by_id l) l.
Proof.
  unfold sort_by_id.
  assert (H : forall acc, Permutation (fold_left (fun acc x => insert_by_id x acc) l acc)
                                      (acc ++ l)).
  { induction l as [|x l IH]; intros acc; simpl.
    - rewrite app_nil_r. reflexivity.
    - rewrite IH, insert_by_id_perm. apply Permutation_middle. }
  apply (H []).
Qed.

Lemma osd_keys_snd heap refs keyed :
  mapM (osd_key heap) refs = Return keyed -> map snd keyed = refs.
Proof.
  revert keyed. induction refs as [|r refs IH]; intros keyed; simpl.
  - intros [= <-]. reflexivity.
  - intros H. apply obind_Return_inv in H as (k & Hk & H).
    apply obind_Return_inv in H as (ks & Hks & H). injection H as <-.
    simpl. f_equal; [|apply IH; exact Hks].
    unfold osd_key in Hk. destruct (heap !! r) as [o|]; [|discriminate].
    destruct (osd_id o); [|discriminate]. injection Hk as <-. reflexivity.
Qed.

(** What [load_osds] leaves, from a cluster without OSDs. *)
Lemma load_osds_Return st hs ips sums perf lg c' :
  load_osds st (before_osds hs ips sums perf) = (lg, Return c') ->
  Forall2 (osd_of_entry st perf) (osd_dump_osds st) (osd_heap c') /\
  Permutation (osds c') (seq 0 (length (osd_heap c'))) /\
  osd_map c' =
    match osd_heap c' with
    | [] => ∅
    | _ => {[ None := (length (osd_heap c') - 1)%nat ]}
    end.
Proof.
  unfold load_osds. intros H.
  apply bind_Return_inv in H as (l1 & c1 & l2 & H1 & H & ->).
  apply bind_lift_inv in H as (keyed & Hk & H).
  injection H as <- <-. simpl.
  apply load_osds_loop in H1 as (_ & new & HF & Hheap & Hosds & Hmap).
  simpl in *. subst new. split; [exact HF|].
  split.
  - rewrite sort_by_id_perm, (osd_keys_snd _ _ _ Hk), Hosds. reflexivity.
  - rewrite Hmap. destruct (osd_heap c1); [reflexivity|].
    simpl. rewrite insert_empty. f_equal.
Qed.

Lemma getitem_Z_Return {V} (d : gmap Z V) k v :
  getitem_Z d k = Return v -> d !! k = Some v.
Proof. unfold getitem_Z. destruct (d !! k); [intros [= ->]; reflexivity | discriminate]. Qed.

(** What [osd_loaded] writes, and what it keeps. *)
Lemma osd_loaded_Return st perf base id osd :
  osd_loaded st perf base id = Return osd ->
  osd_id osd = osd_id base /\
  osd_status_ osd = osd_status_ base /\
  exists df free_perc perf_values historic historicjs,
    osd_df_map (osd_df_nodes st) !! id = Some df /\
    osd_used_space osd = Some (df_kb_used df * 1024) /\
    osd_free_space osd = Some (df_kb_avail df * 1024) /\
    osd_free_perc osd = Some free_perc /\
    free_perc_of (df_kb_avail df * 1024) (df_kb_used df * 1024) = Return free_perc /\
    osd_performance perf (osd_perf_scalar (osd_perf_infos st)) id
    = Return (perf_values, historic, historicjs) /\
    osd_perf osd = perf_values.
Proof.
  unfold osd_loaded. intros H.
  apply obind_Return_inv in H as (node & _ & H).
  apply obind_Return_inv in H as (storage_type & _ & H).
  apply obind_Return_inv in H as ([[[[[[[jd jp] dd] dp] bd] bp] wd] wp] & _ & H).
  apply obind_Return_inv in H as (df & Hdf & H).
  apply getitem_Z_Return in Hdf.
  apply obind_Return_inv in H as (free_perc & Hfp & H).
  apply obind_Return_inv in H as ([[pv h] hj] & Hperf & H).
  apply obind_Return_inv in H as (config & _ & H).
  apply obind_Return_inv in H as (u & _ & H).
  injection H as <-. simpl.
  split; [reflexivity|]. split; [reflexivity|].
  exists df, free_perc, pv, h, hj. auto 10.
Qed.

Lemma osd_of_entry_id st perf d osd :
  osd_of_entry st perf d osd ->
  osd_id osd = Some (od_osd d) /\
  osd_status_ osd = Some (if od_up d then up else down).
Proof.
  intros (rw & v & pg & h & H). cbv zeta in H.
  destruct (od_up d).
  - apply osd_loaded_Return in H as (Hid & Hst & _).
    rewrite Hid, Hst. auto.
  - subst osd. auto.
Qed.

(** C1, what the code does: [load_osds] stores every new OSD in [osd_map]
    under the [id] that [CephOSD()] gave it, which is [None], and sets the
    [id] afterwards.  From a cluster without OSDs, when the load returns,
    the list holds one object for every entry of the dump, each with the
    identifier of an entry, and no identifier is a key of [osd_map]: the
    map has at most the key [None]. *)
Theorem load_osds_osd_map st hs ips sums perf lg c' :
  load_osds st (before_osds hs ips sums perf) = (lg, Return c') ->
  length (osds c') = length (osd_dump_osds st) /\
  (forall ref, In ref (osds c') ->
     exists osd d, osd_heap c' !! ref = Some osd /\ In d (osd_dump_osds st) /\
                   osd_id osd = Some (od_osd d)) /\
  (forall i : Z, osd_map c' !! Some i = None) /\
  (size (osd_map c') <= 1)%nat.
Proof.
  intros H. apply load_osds_Return in H as (HF & Hperm & Hmap).
  split; [|split; [|split]].
  - rewrite (Permutation_length Hperm), length_seq.
    symmetry. eapply Forall2_length. exact HF.
  - intros ref Hin.
    apply (Permutation_in _ Hperm) in Hin. apply in_seq in Hin.
    destruct (lookup_lt_is_Some_2 (osd_heap c') ref) as [osd Hosd]; [lia|].
    destruct (Forall2_lookup_r _ _ _ _ _ HF Hosd) as (d & Hd & Hde).
    exists osd, d. split; [exact Hosd|].
    split; [|apply (osd_of_entry_id _ _ _ _ Hde)].
    apply list_elem_of_In. eapply list_elem_of_lookup_2. exact Hd.
  - intros i. rewrite Hmap. destruct (osd_heap c'); [apply lookup_empty|].
    apply lookup_singleton_ne. discriminate.
  - rewrite Hmap. destruct (osd_heap c').
    + rewrite map_size_empty. lia.
    + rewrite map_size_singleton. lia.
Qed.

Lemma load_osds_osd_map_witness :
  match load_osds sample_osd_storage sample_cluster with
  | (_, Return c') =>
      length (osds c') = 2%nat /\
      osd_map c' !! Some 0 = None /\ osd_map c' !! Some 1 = None
  | (_, Raise _) => False
  end.
Proof.
  assert (Hr : returns (snd (load_osds sample_osd_storage sample_cluster)) = true)
    by (vm_compute; reflexivity).
  unfold sample_cluster in *.
  destruct (load_osds sample_osd_storage _) as [lg [c'|e]] eqn:E;
    [|discriminate Hr].
  destruct (load_osds_osd_map _ _ _ _ _ _ _ E) as (Hlen & _ & Hmap & _).
  split; [exact Hlen|]. split; apply Hmap.
Defined.

(** ** Floating point *)

Lemma iter_pos_invariant {A} (f : A -> A) (P : A -> Prop) :
  (forall x, P x -> P (f x)) -> forall p x, P x -> P (SpecFloat.iter_pos f p x).
Proof.
  intros Hf. induction p as [p IH|p IH|]; intros x Hx; simpl; auto.
Qed.

Lemma shr_1_nonneg mrs : 0 <= shr_m mrs -> 0 <= shr_m (shr_1 mrs).
Proof.
  destruct mrs as [m r s]. simpl.
  destruct m as [|[p|p|]|[p|p|]]; simpl; lia.
Qed.

Lemma shr_fexp_nonneg prec emax m e l :
  0 <= m -> 0 <= shr_m (fst (shr_fexp prec emax m e l)).
Proof.
  intros Hm. unfold shr_fexp, shr.
  assert (H0 : 0 <= shr_m (shr_record_of_loc m l))
    by (destruct l as [|[| |]]; exact Hm).
  destruct (fexp prec emax (Zdigits2 m + e) - e); simpl; try exact H0.
  apply iter_pos_invariant; [apply shr_1_nonneg | exact H0].
Qed.

Lemma round_nearest_even_nonneg m l : 0 <= m -> 0 <= round_nearest_even m l.
Proof.
  intros Hm. destruct l as [|[| |]]; simpl; try lia.
  destruct (Z.even m); lia.
Qed.

(** What rounding can give: the sign is the one asked for, and a mantissa
    that is not negative gives no NaN. *)
Lemma binary_round_aux_cases prec emax sx mx ex lx :
  0 <= mx ->
  match binary_round_aux prec emax sx mx ex lx with
  | S754_zero s | S754_infinity s | S754_finite s _ _ => s = sx
  | S754_nan => False
  end.
Proof.
  intros Hm. unfold binary_round_aux.
  pose proof (shr_fexp_nonneg prec emax mx ex lx Hm) as H1.
  destruct (shr_fexp prec emax mx ex lx) as [mrs' e'].
  simpl in H1.
  pose proof (shr_fexp_nonneg prec emax
                (round_nearest_even (shr_m mrs') (loc_of_shr_record mrs')) e'
                loc_Exact (round_nearest_even_nonneg _ _ H1)) as H2.
  destruct (shr_fexp prec emax _ e' loc_Exact) as [mrs'' e''].
  simpl in H2.
  destruct (shr_m mrs'') as [|p|p]; [reflexivity| |lia].
  destruct (e'' <=? emax - prec); reflexivity.
Qed.

Lemma SFsub_diag prec emax x :
  SFsub prec emax x x = S754_zero false \/ SFsub prec emax x x = S754_nan.
Proof.
  destruct x as [[|]|[|]| |s m e]; try (simpl; auto; fail).
  left. unfold SFsub.
  match goal with
  | |- binary_normalize _ _ ?d _ _ = _ =>
      assert (HX : d = 0) by apply Z.sub_diag; rewrite HX
  end.
  reflexivity.
Qed.

Lemma div_eucl_nonneg a b : 0 <= a -> 0 < b -> 0 <= fst (Z.div_eucl a b).
Proof.
  intros Ha Hb. pose proof (Z.div_pos a b Ha Hb) as H.
  unfold Z.div in H. exact H.
Qed.

Lemma SFdiv_core_nonneg prec emax m1 e1 m2 e2 :
  0 <= fst (fst (SFdiv_core_binary prec emax (Zpos m1) e1 (Zpos m2) e2)).
Proof.
  unfold SFdiv_core_binary.
  set (s := e1 - e2 - _).
  set (m' := match s with Z0 => Zpos m1 | Zpos _ => Z.shiftl (Zpos m1) s | Zneg _ => 0 end).
  assert (Hm' : 0 <= m').
  { unfold m'. destruct s; try lia. apply Z.shiftl_nonneg. lia. }
  pose proof (div_eucl_nonneg m' (Zpos m2) Hm' ltac:(lia)) as H.
  destruct (Z.div_eucl m' (Zpos m2)) as [q r]. exact H.
Qed.

(** The quotient of what is not below zero by what is above zero is not
    below zero, and it is a NaN only if the dividend is none of the
    numbers. *)
Lemma b32_div_above x y :
  below_zero x = false -> above_zero y = true ->
  match b32_div x y with
  | S754_zero _ => True
  | S754_infinity s | S754_finite s _ _ => s = false
  | S754_nan => is_finite x = false
  end.
Proof.
  unfold below_zero, above_zero, b32_div.
  destruct x as [sx|[|]| |[|] mx ex]; try discriminate; intros _;
    destruct y as [sy|[|]| |[|] my ey]; try discriminate; intros _;
    try (simpl; auto; fail).
  unfold SFdiv.
  pose proof (SFdiv_core_nonneg 24 128 mx ex my ey) as H.
  destruct (SFdiv_core_binary 24 128 (Zpos mx) ex (Zpos my) ey) as [[mz ez] lz].
  simpl in H.
  pose proof (binary_round_aux_cases 24 128 false mz ez lz H) as Hc.
  simpl xorb.
  destruct (binary_round_aux 24 128 false mz ez lz); auto. destruct Hc.
Qed.

(** The quotient by a zero count delta. *)
Lemma b32_div_zero x :
  below_zero x = false ->
  let q := b32_div x (S754_zero false) in
  q = S754_nan \/ q = S754_infinity false.
Proof.
  unfold below_zero, b32_div.
  destruct x as [sx|[|]| |[|] mx ex]; try discriminate; intros _; simpl; auto.
Qed.

Lemma b32_div_nan x : b32_div x S754_nan = S754_nan.
Proof. destruct x; reflexivity. Qed.

Lemma mask_no_value_number x :
  b32_isnan (mask_no_value x) = false /\ mask_no_value x <> S754_infinity false.
Proof.
  unfold mask_no_value.
  destruct x as [s|[|]| |s m e]; simpl; split; (reflexivity || discriminate).
Qed.

Lemma mask_no_value_id x :
  b32_isnan x = false -> x <> S754_infinity false -> mask_no_value x = x.
Proof.
  unfold mask_no_value.
  destruct x as [s|[|]| |s m e]; simpl; intros Hn Hi;
    (reflexivity || discriminate || contradiction).
Qed.

(** ** The latency series *)

Lemma diffs_length a : length (diffs a) = pred (length a).
Proof.
  induction a as [|x [|y a] IH]; simpl in *; auto.
Qed.

Lemma diffs_lookup a i x y :
  a !! i = Some x -> a !! S i = Some y -> diffs a !! i = Some (b32_sub y x).
Proof.
  revert i. induction a as [|x0 [|y0 a] IH]; intros i Hx Hy; [discriminate Hx| |].
  - destruct i; discriminate Hy.
  - destruct i as [|i].
    + injection Hx as ->. injection Hy as ->. reflexivity.
    + change (diffs (y0 :: a) !! i = Some (b32_sub y x)). apply IH; assumption.
Qed.

Lemma zip_div_length vd cd :
  length vd = length cd -> length (zip_div vd cd) = length vd.
Proof.
  revert cd. induction vd as [|v vd IH]; intros [|c cd]; simpl; try discriminate; auto.
Qed.

Lemma zip_div_lookup vd cd i v c :
  vd !! i = Some v -> cd !! i = Some c -> zip_div vd cd !! i = Some (b32_div v c).
Proof.
  revert cd i. induction vd as [|v0 vd IH]; intros [|c0 cd] [|i]; try discriminate; simpl.
  - intros [= ->] [= ->]. reflexivity.
  - apply IH.
Qed.

Lemma avg_vals_length values count :
  length values = length count -> length (avg_vals values count) = pred (length values).
Proof.
  intros H. unfold avg_vals.
  rewrite length_map, zip_div_length, diffs_length; [reflexivity|].
  rewrite !diffs_length, H. reflexivity.
Qed.

Lemma avg_vals_lookup values count i v0 v1 c0 c1 :
  values !! i = Some v0 -> values !! S i = Some v1 ->
  count !! i = Some c0 -> count !! S i = Some c1 ->
  avg_vals values count !! i
  = Some (mask_no_value (b32_div (b32_sub v1 v0) (b32_sub c1 c0))).
Proof.
  intros Hv0 Hv1 Hc0 Hc1. unfold avg_vals.
  rewrite list_lookup_fmap.
  rewrite (zip_div_lookup _ _ i _ _ (diffs_lookup _ _ _ _ Hv0 Hv1)
             (diffs_lookup _ _ _ _ Hc0 Hc1)).
  reflexivity.
Qed.

(** An element of the series, from the two deltas it is made of. *)
Lemma masked_quotient vd c0 c1 :
  let q := b32_div vd (b32_sub c1 c0) in
  let x := mask_no_value q in
  b32_isnan x = false /\ x <> S754_infinity false /\
  (c1 = c0 -> below_zero vd = false -> x = NO_VALUE) /\
  (above_zero (b32_sub c1 c0) = true -> below_zero vd = false ->
   x <> S754_infinity true /\
   (is_finite vd = true -> q <> S754_infinity false -> x = q)).
Proof.
  cbv zeta.
  destruct (mask_no_value_number (b32_div vd (b32_sub c1 c0))) as [Hn Hi].
  split; [exact Hn|]. split; [exact Hi|]. split.
  - intros -> Hv.
    destruct (SFsub_diag 24 128 c0) as [E|E]; unfold b32_sub; rewrite E.
    + destruct (b32_div_zero vd Hv) as [E'|E']; rewrite E'; reflexivity.
    + rewrite b32_div_nan. reflexivity.
  - intros Hc Hv.
    pose proof (b32_div_above vd (b32_sub c1 c0) Hv Hc) as Hq.
    split.
    + destruct (b32_div vd (b32_sub c1 c0)) as [s|s| |s m e];
        try (subst s); intros Hx; cbv in Hx; discriminate Hx.
    + intros Hf Hinf. apply mask_no_value_id; [|exact Hinf].
      destruct (b32_div vd (b32_sub c1 c0)); try reflexivity. congruence.
Qed.

Lemma latency_series_Return dump field series :
  latency_series dump field = Return series ->
  exists count values,
    mapM (fun obj => to_f32 (avgcount (field obj))) dump = Return count /\
    mapM (fun obj => to_f32 (sum (field obj))) dump = Return values /\
    series = avg_vals values count.
Proof.
  unfold latency_series. intros H.
  apply obind_Return_inv in H as (count & Hc & H).
  apply obind_Return_inv in H as (values & Hv & H).
  injection H as <-. eauto.
Qed.

Lemma osd_performance_series p scalars id dump perf_values historic historicjs :
  osd_perf_dump p !! id = Some dump ->
  osd_performance (Some p) scalars id = Return (perf_values, historic, historicjs) ->
  forall key field,
    In (key, field) latency_fields ->
    exists series,
      latency_series dump field = Return series /\
      perf_values !! key = Some (PerfArray series).
Proof.
  intros Hd H. unfold osd_performance in H. rewrite Hd in H.
  apply obind_Return_inv in H as (series & Hs & H).
  apply obind_Return_inv in H as ([apply_ms commit_ms] & _ & H).
  injection H as <- _ _.
  unfold perf_of_dump in Hs.
  apply obind_Return_inv in Hs as (a & Ha & Hs).
  apply obind_Return_inv in Hs as (c & Hc & Hs).
  apply obind_Return_inv in Hs as (j & Hj & Hs).
  apply obind_Return_inv in Hs as (ops & _ & Hs).
  apply obind_Return_inv in Hs as (bytes & _ & Hs).
  injection Hs as <-.
  intros key field [[= <- <-]|[[= <- <-]|[[= <- <-]|[]]]].
  - exists a. split; [exact Ha|].
    rewrite !lookup_insert_ne by discriminate. apply lookup_insert_eq.
  - exists c. split; [exact Hc|].
    rewrite !lookup_insert_ne by discriminate. apply lookup_insert_eq.
  - exists j. split; [exact Hj|].
    rewrite !lookup_insert_ne by discriminate. apply lookup_insert_eq.
Qed.

(** C3, as the code has it.  For an OSD with performance dumps, each of
    the three latency entries of [osd_perf] is an array with one element
    fewer than there are dumps (none for no dump).  With [count] and
    [values] the counters of the dumps as [float32], the element at [i]
    is never a NaN and never [+inf]; when the two counts are equal and
    the values do not decrease it is [-1]; when the count delta is above
    zero and the values do not decrease it is not [-inf] either, and it
    is the [float32] quotient of the two deltas whenever the value delta
    is a number and the quotient is not [+inf]. *)
Theorem osd_latency_series p scalars id dump perf_values historic historicjs :
  osd_perf_dump p !! id = Some dump ->
  osd_performance (Some p) scalars id = Return (perf_values, historic, historicjs) ->
  forall key field,
    In (key, field) latency_fields ->
    exists series count values,
      perf_values !! key = Some (PerfArray series) /\
      mapM (fun obj => to_f32 (avgcount (field obj))) dump = Return count /\
      mapM (fun obj => to_f32 (sum (field obj))) dump = Return values /\
      length series = pred (length dump) /\
      forall i c0 c1 v0 v1,
        count !! i = Some c0 -> count !! S i = Some c1 ->
        values !! i = Some v0 -> values !! S i = Some v1 ->
        let vd := b32_sub v1 v0 in
        let cd := b32_sub c1 c0 in
        exists x,
          series !! i = Some x /\
          b32_isnan x = false /\ x <> S754_infinity false /\
          (c1 = c0 -> below_zero vd = false -> x = NO_VALUE) /\
          (above_zero cd = true -> below_zero vd = false ->
           x <> S754_infinity true /\
           (is_finite vd = true -> b32_div vd cd <> S754_infinity false ->
            x = b32_div vd cd)).
Proof.
  intros Hd H key field Hin.
  destruct (osd_performance_series _ _ _ _ _ _ _ Hd H key field Hin)
    as (series & Hs & Hk).
  apply latency_series_Return in Hs as (count & values & Hc & Hv & ->).
  exists (avg_vals values count), count, values.
  repeat (split; [assumption|]).
  pose proof (mapM_length _ _ _ Hc) as Hlc.
  pose proof (mapM_length _ _ _ Hv) as Hlv.
  split; [rewrite avg_vals_length by congruence; congruence|].
  intros i c0 c1 v0 v1 Hc0 Hc1 Hv0 Hv1. cbv zeta.
  exists (mask_no_value (b32_div (b32_sub v1 v0) (b32_sub c1 c0))).
  split; [apply avg_vals_lookup; assumption|].
  apply masked_quotient.
Qed.

Lemma osd_latency_series_witness :
  match osd_performance (Some sample_perf_data) {[ 0 := (JInt 3, JInt 4) ]} 0 with
  | Return (perf_values, _, _) =>
      exists series,
        perf_values !! "apply_latency" = Some (PerfArray series) /\
        length series = 2%nat /\
        series !! 0%nat = Some NO_VALUE /\
        series !! 1%nat = Some f_half
  | Raise _ => False
  end.
Proof.
  assert (Hr : returns (osd_performance (Some sample_perf_data)
                          {[ 0 := (JInt 3, JInt 4) ]} 0) = true)
    by (vm_compute; reflexivity).
  destruct (osd_performance _ _ 0) as [[[pv h] hj]|e] eqn:E; [|discriminate Hr].
  destruct (osd_latency_series sample_perf_data _ 0
              [sample_dump 10 d_half; sample_dump 10 d_half;
               sample_dump 14 d_two_half] pv h hj eq_refl E
              "apply_latency" apply_latency (or_introl eq_refl))
    as (series & count & values & Hk & Hc & Hv & Hlen & Hi).
  assert (Hc' : count = [S754_finite false 10485760 (-20);
                         S754_finite false 10485760 (-20);
                         S754_finite false 14680064 (-20)])
    by (vm_compute in Hc; congruence).
  assert (Hv' : values = [f_half; f_half; S754_finite false 10485760 (-22)])
    by (vm_compute in Hv; vm_compute; congruence).
  subst count values.
  exists series. split; [exact Hk|]. split; [exact Hlen|].
  destruct (Hi 0%nat _ _ _ _ eq_refl eq_refl eq_refl eq_refl)
    as (x0 & Hx0 & _ & _ & Hzero & _).
  destruct (Hi 1%nat _ _ _ _ eq_refl eq_refl eq_refl eq_refl)
    as (x1 & Hx1 & _ & _ & _ & Hpos).
  split.
  - rewrite Hx0. f_equal. apply Hzero; vm_compute; reflexivity.
  - rewrite Hx1. f_equal.
    destruct (Hpos ltac:(vm_compute; reflexivity) ltac:(vm_compute; reflexivity))
      as [_ Hq].
    rewrite (Hq ltac:(vm_compute; reflexivity) ltac:(vm_compute; discriminate)).
    vm_compute. reflexivity.
Defined.

(** C3 as stated fails past [2^24] operations: the counts 16777216 and
    16777217 are the same [float32], so that with a count delta of one
    operation and one more second of latency, where the claim gives
    [1.0], the code gives [-1]. *)
Lemma latency_series_large_counts :
  16777217 - 16777216 > 0 /\
  to_f32 (NInt 16777216) = to_f32 (NInt 16777217) /\
  b32_div (b32_sub f_one (S754_zero false)) f_one = f_one /\
  latency_series sample_dump_large apply_latency = Return [NO_VALUE] /\
  NO_VALUE <> f_one.
Proof.
  split; [lia|]. repeat split; try (vm_compute; reflexivity). discriminate.
Qed.


(** ** Binary64: rounding to nearest *)

Lemma digits2_size p : digits2_pos p = Pos.size p.
Proof. induction p; simpl; congruence. Qed.

Lemma Zdigits2_bounds m :
  0 < m -> 2 ^ (Zdigits2 m - 1) <= m < 2 ^ Zdigits2 m.
Proof.
  destruct m as [|p|p]; try lia. intros _. simpl Zdigits2.
  rewrite digits2_size. split.
  - pose proof (Pos.size_le p) as H.
    assert (Hp : Z.pos (2 ^ Pos.size p) <= Z.pos p~0) by exact H.
    rewrite Pos2Z.inj_pow in Hp.
    replace (Z.pos (Pos.size p)) with (Z.succ (Z.pos (Pos.size p) - 1)) in Hp by lia.
    rewrite Z.pow_succ_r in Hp by lia. lia.
  - pose proof (Pos.size_gt p) as H.
    assert (Hp : Z.pos p < Z.pos (2 ^ Pos.size p)) by exact H.
    rewrite Pos2Z.inj_pow in Hp. exact Hp.
Qed.

Lemma Zdigits2_unique m d :
  2 ^ (d - 1) <= m < 2 ^ d -> 0 < d -> Zdigits2 m = d.
Proof.
  intros [Hl Hu] Hd.
  assert (Hm : 0 < m) by (pose proof (Z.pow_pos_nonneg 2 (d - 1)); lia).
  destruct (Zdigits2_bounds m Hm) as [Hl' Hu'].
  assert (Hpos : 0 < Zdigits2 m) by (destruct m; simpl; lia).
  destruct (Z.lt_trichotomy (Zdigits2 m) d) as [H|[H|H]]; [|exact H|].
  - assert (2 ^ Zdigits2 m <= 2 ^ (d - 1)) by (apply Z.pow_le_mono_r; lia). lia.
  - assert (2 ^ d <= 2 ^ (Zdigits2 m - 1)) by (apply Z.pow_le_mono_r; lia). lia.
Qed.

Lemma loc_of_shr_record_of_loc m l :
  loc_of_shr_record (shr_record_of_loc m l) = l /\
  shr_m (shr_record_of_loc m l) = m.
Proof. destruct l as [|[| |]]; split; reflexivity. Qed.

Lemma shr_1_fields m r s :
  0 <= m ->
  shr_1 {| shr_m := m; shr_r := r; shr_s := s |}
  = {| shr_m := m / 2; shr_r := Z.odd m; shr_s := r || s |}.
Proof.
  intros Hm. rewrite <- Z.div2_div.
  destruct m as [|[p|p|]|p]; try reflexivity. lia.
Qed.

(** One shift to the right, on the position [a/b] of the exact value in the
    unit interval above the mantissa. *)
Lemma shr_1_spec m a b :
  0 <= m -> 0 <= a < b ->
  shr_1 (shr_record_of_loc m (loc_of a b))
  = shr_record_of_loc (m / 2) (loc_of ((m mod 2) * b + a) (2 * b)).
Proof.
  intros Hm Hab.
  assert (Hs : forall r s, (r, s) = match loc_of a b with
                                    | loc_Exact => (false, false)
                                    | loc_Inexact Lt => (false, true)
                                    | loc_Inexact Eq => (true, false)
                                    | loc_Inexact Gt => (true, true)
                                    end ->
               shr_1 {| shr_m := m; shr_r := r; shr_s := s |}
               = shr_record_of_loc (m / 2) (loc_of ((m mod 2) * b + a) (2 * b))).
  { intros r s Hrs. rewrite shr_1_fields by exact Hm.
    unfold loc_of in *. rewrite Zmod_odd.
    destruct (Z.odd m);
      destruct (Z.eqb_spec a 0) as [Ha|Ha];
      try destruct (Z.compare_spec (2 * a) b);
      inversion Hrs; subst r s;
      match goal with
      | |- context [?x =? 0] => destruct (Z.eqb_spec x 0)
      end; try lia;
      try match goal with
          | |- context [?x ?= ?y] => destruct (Z.compare_spec x y)
          end; try lia; reflexivity. }
  destruct (loc_of a b) as [|[| |]] eqn:E; cbn [shr_record_of_loc];
    apply Hs; reflexivity.
Qed.

Lemma shifted_position m a b n :
  0 <= m -> 0 <= a < b -> 0 < n ->
  0 <= m / n /\ 0 <= (m mod n) * b + a < n * b.
Proof.
  intros Hm Hab Hn.
  pose proof (Z.mod_pos_bound m n Hn).
  pose proof (Z.div_pos m n Hm Hn). nia.
Qed.

Lemma shifted_twice m a b n k :
  0 < n -> 0 < k ->
  shr_record_of_loc (m / n / k)
    (loc_of (((m / n) mod k) * (n * b) + ((m mod n) * b + a)) (k * (n * b)))
  = shr_record_of_loc (m / (n * k))
      (loc_of ((m mod (n * k)) * b + a) (n * k * b)).
Proof.
  intros Hn Hk.
  rewrite Z.div_div by lia.
  rewrite (Z.rem_mul_r m n k) by lia.
  f_equal. f_equal; ring.
Qed.

Lemma shr_iter_spec p : forall m a b,
  0 <= m -> 0 <= a < b ->
  SpecFloat.iter_pos shr_1 p (shr_record_of_loc m (loc_of a b))
  = shr_record_of_loc (m / 2 ^ Z.pos p)
      (loc_of ((m mod 2 ^ Z.pos p) * b + a) (2 ^ Z.pos p * b)).
Proof.
  induction p as [p IH|p IH|]; intros m a b Hm Hab; simpl SpecFloat.iter_pos.
  - assert (HP : 0 < 2 ^ Z.pos p) by (apply Z.pow_pos_nonneg; lia).
    rewrite shr_1_spec by assumption.
    destruct (shifted_position m a b 2 Hm Hab) as [H1 H2]; [lia|].
    rewrite IH by assumption.
    rewrite shifted_twice by lia.
    destruct (shifted_position m a b (2 * 2 ^ Z.pos p) Hm Hab) as [H3 H4];
      [lia|].
    rewrite IH by assumption.
    rewrite shifted_twice by lia.
    replace (2 ^ Z.pos p~1) with (2 * 2 ^ Z.pos p * 2 ^ Z.pos p); [reflexivity|].
    replace (Z.pos p~1) with (1 + (Z.pos p + Z.pos p)) by lia.
    rewrite !Z.pow_add_r, Z.pow_1_r by lia. ring.
  - assert (HP : 0 < 2 ^ Z.pos p) by (apply Z.pow_pos_nonneg; lia).
    rewrite IH by assumption.
    destruct (shifted_position m a b _ Hm Hab HP) as [H3 H4].
    rewrite IH by assumption.
    rewrite shifted_twice by lia.
    replace (2 ^ Z.pos p~0) with (2 ^ Z.pos p * 2 ^ Z.pos p); [reflexivity|].
    replace (Z.pos p~0) with (Z.pos p + Z.pos p) by lia.
    rewrite Z.pow_add_r by lia. ring.
  - rewrite shr_1_spec by assumption. reflexivity.
Qed.

Lemma shr_fexp_spec m e a b :
  0 < m -> 0 <= a < b -> 53 <= Zdigits2 m -> -1074 <= e ->
  shr_fexp 53 1024 m e (loc_of a b)
  = (shr_record_of_loc (m / 2 ^ (Zdigits2 m - 53))
       (loc_of ((m mod 2 ^ (Zdigits2 m - 53)) * b + a)
               (2 ^ (Zdigits2 m - 53) * b)),
     e + (Zdigits2 m - 53)).
Proof.
  intros Hm Hab Hd He. unfold shr_fexp.
  match goal with
  | |- shr _ _ ?k = _ => assert (Hk : k = Zdigits2 m - 53) by (unfold fexp, emin; lia)
  end.
  rewrite Hk. unfold shr.
  destruct (Zdigits2 m - 53) as [|p|p] eqn:E; [| |lia].
  - rewrite Z.pow_0_r, Z.div_1_r, Z.mod_1_r, Z.mul_0_l, Z.add_0_l, Z.mul_1_l,
      Z.add_0_r.
    reflexivity.
  - rewrite shr_iter_spec by lia. reflexivity.
Qed.

Lemma round_nearest_even_spec m a b :
  0 <= a < b ->
  let m1 := round_nearest_even m (loc_of a b) in
  (a = 0 -> m1 = m) /\
  ((m1 = m /\ 2 * a <= b) \/ (m1 = m + 1 /\ b <= 2 * a)).
Proof.
  intros Hab. unfold loc_of, round_nearest_even.
  destruct (Z.eqb_spec a 0) as [Ha|Ha].
  - split; [reflexivity|]. left. lia.
  - split; [contradiction|].
    destruct (Z.compare_spec (2 * a) b).
    + destruct (Z.even m); [left|right]; lia.
    + left. lia.
    + right. lia.
Qed.

(** The second shift of [binary_round_aux]: a carry of the rounding. *)
Lemma carry_spec m1 e1 :
  2 ^ 52 <= m1 <= 2 ^ 53 -> -1074 <= e1 ->
  exists r e2,
    shr_fexp 53 1024 m1 e1 loc_Exact = (r, e2) /\
    2 ^ 52 <= shr_m r < 2 ^ 53 /\
    ((e2 = e1 /\ shr_m r = m1) \/ (e2 = e1 + 1 /\ 2 * shr_m r = m1)).
Proof.
  intros Hm He.
  destruct (Z.eq_dec m1 (2 ^ 53)) as [->|Hn].
  - eexists _, _. split; [|split].
    + change loc_Exact with (loc_of 0 1).
      rewrite shr_fexp_spec; [reflexivity|reflexivity|lia|simpl; lia|exact He].
    + rewrite (proj2 (loc_of_shr_record_of_loc _ _)).
      vm_compute. split; [discriminate|reflexivity].
    + right. split; [reflexivity|reflexivity].
  - assert (Hd : Zdigits2 m1 = 53) by (apply Zdigits2_unique; simpl; lia).
    eexists _, _. split; [|split].
    + change loc_Exact with (loc_of 0 1).
      rewrite shr_fexp_spec; [reflexivity|lia|lia|lia|exact He].
    + rewrite (proj2 (loc_of_shr_record_of_loc _ _)), Hd. simpl.
      rewrite Z.div_1_r. lia.
    + left. rewrite (proj2 (loc_of_shr_record_of_loc _ _)), Hd. simpl.
      rewrite Z.div_1_r. lia.
Qed.

(** Rounding to nearest of the value [(m + a/b) * 2^e], in the range of
    the normal numbers: the result has a full mantissa and is at most half
    a unit in the last place away, and is exact when no bit is lost. *)
Lemma binary_round_aux_spec s m e a b :
  0 < m -> 0 <= a < b -> 53 <= Zdigits2 m -> -1074 <= e ->
  e + (Zdigits2 m - 53) < 971 ->
  exists mf ef,
    binary_round_aux 53 1024 s m e (loc_of a b) = S754_finite s mf ef /\
    2 ^ 52 <= Z.pos mf < 2 ^ 53 /\
    e + (Zdigits2 m - 53) <= ef <= e + (Zdigits2 m - 53) + 1 /\
    Z.abs (2 * (Z.pos mf * 2 ^ (ef - e) * b - (m * b + a))) <= 2 ^ (ef - e) * b /\
    ((m mod 2 ^ (Zdigits2 m - 53)) * b + a = 0 -> Z.pos mf * 2 ^ (ef - e) = m).
Proof.
  intros Hm Hab Hd He Hmax.
  unfold binary_round_aux. rewrite shr_fexp_spec by assumption.
  set (n := Zdigits2 m - 53) in *.
  assert (Hn : 0 <= n) by lia.
  assert (HP : 0 < 2 ^ n) by (apply Z.pow_pos_nonneg; lia).
  destruct (loc_of_shr_record_of_loc (m / 2 ^ n)
              (loc_of ((m mod 2 ^ n) * b + a) (2 ^ n * b))) as [-> ->].
  destruct (Zdigits2_bounds m Hm) as [Hlo Hhi].
  replace (Zdigits2 m - 1) with (52 + n) in Hlo by lia.
  replace (Zdigits2 m) with (53 + n) in Hhi by lia.
  rewrite Z.pow_add_r in Hlo, Hhi by lia.
  assert (Hm' : 2 ^ 52 <= m / 2 ^ n < 2 ^ 53).
  { split; [apply Z.div_le_lower_bound|apply Z.div_lt_upper_bound]; lia. }
  destruct (shifted_position m a b (2 ^ n)) as [_ Hab']; [lia|lia|lia|].
  destruct (round_nearest_even_spec (m / 2 ^ n) _ _ Hab') as [Hex Hrne].
  set (m1 := round_nearest_even (m / 2 ^ n)
               (loc_of ((m mod 2 ^ n) * b + a) (2 ^ n * b))) in *.
  destruct (carry_spec m1 (e + n)) as (r & e2 & -> & Hr & Hc); [lia|lia|].
  destruct (shr_m r) as [|mf|mf] eqn:Emf; [lia| |lia].
  assert (He2 : (e2 <=? 1024 - 53) = true) by (apply Z.leb_le; lia).
  change (Z.leb e2 (Z.sub 1024 53)) with (e2 <=? 1024 - 53). rewrite He2.
  exists mf, e2. split; [reflexivity|]. split; [exact Hr|].
  split; [lia|].
  pose proof (Z.div_mod m (2 ^ n)) as Hdm.
  set (q := m / 2 ^ n) in *. set (k := m mod 2 ^ n) in *.
  assert (Hdm' : m = 2 ^ n * q + k) by (apply Hdm; lia).
  assert (Hpow : Z.pos mf * 2 ^ (e2 - e) = m1 * 2 ^ n).
  { destruct Hc as [[-> <-]|[-> <-]].
    - replace (e + n - e) with n by lia. reflexivity.
    - replace (e + n + 1 - e) with (1 + n) by lia.
      rewrite Z.pow_add_r, Z.pow_1_r by lia. ring. }
  assert (Hge : 2 ^ n <= 2 ^ (e2 - e)) by (apply Z.pow_le_mono_r; lia).
  split.
  - rewrite Hpow, Hdm'.
    destruct Hrne as [[-> H2]|[-> H2]]; apply Z.abs_le; nia.
  - intros H0. rewrite Hpow, Hdm', (Hex H0). nia.
Qed.

Ltac push_inject :=
  repeat first [rewrite inject_Z_plus | rewrite inject_Z_mult
               | rewrite inject_Z_opp].
Ltac push_inject_in H :=
  repeat first [rewrite inject_Z_plus in H | rewrite inject_Z_mult in H
               | rewrite inject_Z_opp in H].

Section Values.
Local Open Scope Q_scope.

Lemma pow2_pos e : 0 < 2 ^ e.
Proof. apply Qpower_0_lt. reflexivity. Qed.

Lemma pow2_add a b : 2 ^ (a + b) == 2 ^ a * 2 ^ b.
Proof. apply Qpower_plus. discriminate. Qed.

Lemma pow2_Z n : (0 <= n)%Z -> inject_Z (2 ^ n) == 2 ^ n.
Proof. intros Hn. apply (Zpower_Qpower 2 n Hn). Qed.

Lemma pow2_shift e1 e2 :
  (e1 <= e2)%Z -> 2 ^ e2 == inject_Z (2 ^ (e2 - e1)) * 2 ^ e1.
Proof.
  intros H. rewrite pow2_Z by lia. rewrite <- pow2_add.
  replace (e2 - e1 + e1)%Z with e2 by lia. reflexivity.
Qed.

Lemma pow2_le a b : (a <= b)%Z -> 2 ^ a <= 2 ^ b.
Proof. intros H. apply Qpower_le_compat_l; [exact H|discriminate]. Qed.

Lemma pow2_lt_inv a b : 2 ^ a < 2 ^ b -> (a < b)%Z.
Proof. intros H. apply (Qpower_lt_compat_l_inv 2); [exact H|reflexivity]. Qed.

(** The rounding lemma on values: twice the distance of [b * result] to
    [(m * b + a) * 2^e] is at most [b] units in the last place. *)
Lemma binary_round_aux_value s m e a b :
  (0 < m)%Z -> (0 <= a < b)%Z -> (53 <= Zdigits2 m)%Z -> (-1074 <= e)%Z ->
  (e + (Zdigits2 m - 53) < 971)%Z ->
  exists mf ef,
    binary_round_aux 53 1024 s m e (loc_of a b) = S754_finite s mf ef /\
    (2 ^ 52 <= Z.pos mf < 2 ^ 53)%Z /\
    (e + (Zdigits2 m - 53) <= ef <= e + (Zdigits2 m - 53) + 1)%Z /\
    2 * (inject_Z b * fval mf ef - inject_Z (m * b + a) * 2 ^ e)
      <= inject_Z b * 2 ^ ef /\
    2 * (inject_Z (m * b + a) * 2 ^ e - inject_Z b * fval mf ef)
      <= inject_Z b * 2 ^ ef /\
    (((m mod 2 ^ (Zdigits2 m - 53)) * b + a = 0)%Z ->
     fval mf ef == inject_Z m * 2 ^ e).
Proof.
  intros Hm Hab Hd He Hmax.
  destruct (binary_round_aux_spec s m e a b Hm Hab Hd He Hmax)
    as (mf & ef & Hr & Hmf & Hef & Habs & Hex).
  exists mf, ef. split; [exact Hr|]. split; [exact Hmf|]. split; [exact Hef|].
  unfold fval. rewrite (pow2_shift e ef) by lia.
  pose proof (pow2_pos e) as HE.
  set (E := 2 ^ e) in *. set (C := (2 ^ (ef - e))%Z) in *.
  apply Z.abs_le in Habs. destruct Habs as [H1 H2].
  unfold Z.sub in H1, H2. rewrite Zle_Qle in H1, H2.
  push_inject_in H1. push_inject_in H2. push_inject.
  change (inject_Z 2) with 2 in *.
  pose proof (proj2 (Qmult_le_l _ _ E HE) H1) as G1.
  pose proof (proj2 (Qmult_le_l _ _ E HE) H2) as G2.
  split; [|split].
  - clearbody E C. lra.
  - clearbody E C. lra.
  - intros H0. rewrite <- (Hex H0). push_inject. ring.
Qed.

Lemma iter_xO m d : Z.pos (Pos.iter xO m d) = (Z.pos m * 2 ^ Z.pos d)%Z.
Proof.
  induction d as [|d IH] using Pos.peano_ind.
  - simpl. lia.
  - rewrite Pos.iter_succ, Pos2Z.inj_xO, IH, Pos2Z.inj_succ, Z.pow_succ_r by lia.
    ring.
Qed.

Lemma shl_align_spec mx ex ex' :
  snd (shl_align mx ex ex') = Z.min ex ex' /\
  Z.pos (fst (shl_align mx ex ex'))
  = (Z.pos mx * 2 ^ (ex - snd (shl_align mx ex ex')))%Z.
Proof.
  unfold shl_align.
  destruct (Z.sub ex' ex) as [|d|d] eqn:E; cbn [fst snd].
  - split; [lia|]. rewrite Z.sub_diag. simpl. lia.
  - split; [lia|]. rewrite Z.sub_diag. simpl. lia.
  - split; [lia|]. rewrite iter_xO. f_equal. f_equal. lia.
Qed.

Lemma normal_digits m : normal m -> Zdigits2 (Z.pos m) = 53%Z.
Proof. intros H. apply Zdigits2_unique; [exact H|lia]. Qed.

(** [float(z)] is exact below [2^53]. *)
Lemma b64_of_Z_spec z :
  (0 < z < 2 ^ 53)%Z ->
  exists m e,
    b64_of_Z z = S754_finite false m e /\ normal m /\
    (-52 <= e <= 0)%Z /\ Z.pos m = (z * 2 ^ (- e))%Z.
Proof.
  intros Hz. destruct z as [|p|p]; try lia.
  unfold b64_of_Z, binary_normalize, binary_round.
  destruct (shl_align_spec p 0 (fexp 53 1024 (Z.add (Z.pos (digits2_pos p)) 0)))
    as [He Hm].
  destruct (shl_align p 0 _) as [mz ez]. cbn [fst snd] in He, Hm.
  destruct (Zdigits2_bounds (Z.pos p)) as [Hlo Hhi]; [lia|].
  change (Zdigits2 (Z.pos p)) with (Z.pos (digits2_pos p)) in Hlo, Hhi.
  set (d := Z.pos (digits2_pos p)) in *.
  assert (Hd : (1 <= d <= 53)%Z).
  { split; [lia|].
    assert (2 ^ (d - 1) < 2 ^ 53)%Z as H by lia.
    apply Z.pow_lt_mono_r_iff in H; lia. }
  assert (Hez : ez = (d - 53)%Z) by (unfold fexp, emin in He; lia).
  clear He. subst ez. replace (0 - (d - 53))%Z with (53 - d)%Z in Hm by lia.
  assert (Hn : normal mz).
  { assert (E52 : (2 ^ 52 = 2 ^ (d - 1) * 2 ^ (53 - d))%Z)
      by (rewrite <- Z.pow_add_r by lia; f_equal; lia).
    assert (E53 : (2 ^ 53 = 2 ^ d * 2 ^ (53 - d))%Z)
      by (rewrite <- Z.pow_add_r by lia; f_equal; lia).
    assert (0 < 2 ^ (53 - d))%Z by (apply Z.pow_pos_nonneg; lia).
    unfold normal. rewrite Hm, E52, E53. nia. }
  destruct (binary_round_aux_spec false (Z.pos mz) (d - 53) 0 1)
    as (mf & ef & Hr & Hmf & Hef & _ & Hex);
    [lia|lia|rewrite (normal_digits mz Hn); lia|lia
    |rewrite (normal_digits mz Hn); lia|].
  change (loc_of 0 1) with loc_Exact in Hr.
  rewrite (normal_digits mz Hn) in Hef, Hex.
  specialize (Hex ltac:(rewrite Z.sub_diag, Z.pow_0_r, Z.mod_1_r; reflexivity)).
  assert (Hef' : ef = (d - 53)%Z).
  { destruct (Z.eq_dec ef (d - 53)%Z) as [E|E]; [exact E|].
    assert (E' : ef = (d - 53 + 1)%Z) by lia.
    rewrite E' in Hex.
    replace (d - 53 + 1 - (d - 53))%Z with 1%Z in Hex by lia.
    unfold normal in Hn. lia. }
  subst ef. rewrite Z.sub_diag, Z.pow_0_r, Z.mul_1_r in Hex.
  injection Hex as ->.
  exists mz, (d - 53)%Z. split; [exact Hr|]. split; [exact Hn|].
  split; [lia|]. rewrite Hm. f_equal. f_equal. lia.
Qed.

Lemma digits_between m lo hi :
  (0 <= lo)%Z -> (2 ^ lo <= m < 2 ^ hi)%Z -> (lo < Zdigits2 m <= hi)%Z.
Proof.
  intros H0 [Hlo Hhi].
  assert (Hm : (0 < m)%Z) by (pose proof (Z.pow_pos_nonneg 2 lo); lia).
  destruct (Zdigits2_bounds m Hm) as [Hl Hu].
  assert (Hpos : (0 < Zdigits2 m)%Z) by (destruct m; simpl; lia).
  split.
  - assert (H : (2 ^ lo < 2 ^ Zdigits2 m)%Z) by lia.
    apply Z.pow_lt_mono_r_iff in H; lia.
  - assert (H : (2 ^ (Zdigits2 m - 1) < 2 ^ hi)%Z) by lia.
    destruct (Z.le_gt_cases hi (Zdigits2 m - 1)) as [G|G]; [|lia].
    assert (2 ^ hi <= 2 ^ (Zdigits2 m - 1))%Z
      by (apply Z.pow_le_mono_r; lia || (destruct (Z.le_gt_cases 0 hi); lia)).
    lia.
Qed.

(** [x * 100.0] is exact when the mantissa of [x] ends in ten zeros. *)
Lemma b64_mul_hundred_spec m e :
  normal m -> (Z.pos m mod 1024 = 0)%Z -> (-900 <= e <= 900)%Z ->
  exists mf ef,
    b64_mul (S754_finite false m e) b64_hundred = S754_finite false mf ef /\
    normal mf /\ (e + 6 <= ef <= e + 8)%Z /\
    fval mf ef == 100 * fval m e.
Proof.
  intros Hn Hdiv He.
  unfold b64_mul, b64_hundred, SFmul.
  change (xorb false false) with false.
  rewrite Pos2Z.inj_mul.
  set (M := (Z.pos m * 7036874417766400)%Z).
  unfold normal in Hn.
  assert (HM : (2 ^ 104 <= M < 2 ^ 106)%Z) by (unfold M; lia).
  destruct (digits_between M 104 106) as [Hd1 Hd2]; [lia|exact HM|].
  assert (Hex : ((M mod 2 ^ (Zdigits2 M - 53)) * 1 + 0 = 0)%Z).
  { rewrite Z.mul_1_r, Z.add_0_r.
    apply Z.mod_divide in Hdiv; [|lia]. destruct Hdiv as [k Hk].
    set (n := (Zdigits2 M - 53)%Z).
    assert (Hn' : (0 <= n <= 53)%Z) by (unfold n; lia). clearbody n.
    assert (HP : (0 < 2 ^ n)%Z) by (apply Z.pow_pos_nonneg; lia).
    replace M with (k * 25 * 2 ^ (58 - n) * 2 ^ n)%Z.
    - apply Z.mod_mul. lia.
    - rewrite <- Z.mul_assoc, <- Z.pow_add_r by lia.
      replace (58 - n + n)%Z with 58%Z by lia.
      unfold M. rewrite Hk. lia. }
  destruct (binary_round_aux_value false M (Z.add e (-46)) 0 1)
    as (mf & ef & Hr & Hmf & Hef & _ & _ & Hv); [lia|lia|lia|lia|lia|].
  change (loc_of 0 1) with loc_Exact in Hr.
  exists mf, ef. split; [exact Hr|]. split; [exact Hmf|]. split; [lia|].
  rewrite (Hv Hex). unfold fval, M. rewrite inject_Z_mult, pow2_add.
  assert (H100 : inject_Z 7036874417766400 * 2 ^ (-46) == 100) by reflexivity.
  rewrite <- H100. ring.
Qed.

Lemma new_location_spec b r :
  (0 <= r < b)%Z -> new_location b r = loc_of r b.
Proof.
  intros Hr. unfold new_location, new_location_even, new_location_odd, loc_of.
  destruct (Z.even b) eqn:Eb; [reflexivity|].
  destruct (Z.eqb_spec r 0); [reflexivity|]. f_equal.
  assert (Hodd : Z.odd b = true) by (rewrite <- Z.negb_even, Eb; reflexivity).
  apply Z.odd_spec in Hodd. destruct Hodd as [k Hk].
  destruct (Z.compare_spec (2 * r + 1) b), (Z.compare_spec (2 * r) b);
    try reflexivity; lia.
Qed.

(** The quotient of two normal numbers is within half a unit in the last
    place of the exact quotient. *)
Lemma b64_div_spec mx ex my ey :
  normal mx -> normal my -> (-400 <= ex <= 400)%Z -> (-400 <= ey <= 400)%Z ->
  exists mf ef,
    b64_div (S754_finite false mx ex) (S754_finite false my ey)
    = S754_finite false mf ef /\
    normal mf /\ (ex - ey - 53 <= ef <= ex - ey - 51)%Z /\
    2 * (fval my ey * fval mf ef - fval mx ex) <= fval my ey * 2 ^ ef /\
    2 * (fval mx ex - fval my ey * fval mf ef) <= fval my ey * 2 ^ ef.
Proof.
  intros Hx Hy Hex Hey.
  unfold b64_div, SFdiv, SFdiv_core_binary.
  rewrite (normal_digits mx Hx), (normal_digits my Hy).
  match goal with
  | |- context [Z.min ?a ?b] =>
      assert (He' : Z.min a b = (ex - ey - 53)%Z) by (unfold fexp, emin; lia);
      rewrite He'
  end.
  match goal with
  | |- context [Z.sub (Z.sub ex ey) ?c] =>
      assert (Hs : Z.sub (Z.sub ex ey) c = 53%Z) by lia; rewrite Hs
  end.
  cbv iota. rewrite Z.shiftl_mul_pow2 by lia.
  pose proof (Z_div_mod (Z.pos mx * 2 ^ 53) (Z.pos my) eq_refl) as Hqr.
  destruct (Z.div_eucl (Z.pos mx * 2 ^ 53) (Z.pos my)) as [q r].
  destruct Hqr as [Hq Hr]. change (xorb false false) with false.
  rewrite new_location_spec by exact Hr.
  unfold normal in Hx, Hy.
  assert (Hqb : (2 ^ 52 <= q < 2 ^ 54)%Z) by nia.
  destruct (digits_between q 52 54) as [Hd1 Hd2]; [lia|exact Hqb|].
  destruct (binary_round_aux_value false q (ex - ey - 53) r (Z.pos my))
    as (mf & ef & Hres & Hmf & Hef & Hle & Hge & _); [lia|lia|lia|lia|lia|].
  exists mf, ef. split; [exact Hres|]. split; [exact Hmf|]. split; [lia|].
  replace (q * Z.pos my + r)%Z with (Z.pos mx * 2 ^ 53)%Z in Hle, Hge by lia.
  rewrite inject_Z_mult, pow2_Z in Hle, Hge by lia.
  assert (Hp : 2 ^ ex == 2 ^ 53 * 2 ^ (ex - ey - 53) * 2 ^ ey).
  { rewrite <- !pow2_add. replace (53 + (ex - ey - 53) + ey)%Z with ex by lia.
    reflexivity. }
  pose proof (pow2_pos ey) as HE.
  unfold fval in *. rewrite Hp.
  set (Y := 2 ^ ey) in *. set (E := 2 ^ (ex - ey - 53)) in *.
  set (U := 2 ^ ef) in *. set (P := 2 ^ 53) in *.
  pose proof (proj2 (Qmult_le_l _ _ Y HE) Hle) as G1.
  pose proof (proj2 (Qmult_le_l _ _ Y HE) Hge) as G2.
  clearbody Y E U P. split; lra.
Qed.

(** The sum of two normal numbers is within half a unit in the last place
    of the exact sum. *)
Lemma b64_add_spec mx ex my ey :
  normal mx -> normal my -> (-400 <= ex <= 400)%Z -> (-400 <= ey <= 400)%Z ->
  exists mf ef,
    b64_add (S754_finite false mx ex) (S754_finite false my ey)
    = S754_finite false mf ef /\
    normal mf /\
    2 * (fval mf ef - (fval mx ex + fval my ey)) <= 2 ^ ef /\
    2 * (fval mx ex + fval my ey - fval mf ef) <= 2 ^ ef.
Proof.
  intros Hx Hy Hex Hey.
  unfold b64_add, SFadd. cbn [cond_Zopp].
  destruct (shl_align_spec mx ex (Z.min ex ey)) as [E1 M1].
  destruct (shl_align_spec my ey (Z.min ex ey)) as [E2 M2].
  rewrite E1 in M1. rewrite E2 in M2.
  replace (Z.min ex (Z.min ex ey)) with (Z.min ex ey) in M1 by lia.
  replace (Z.min ey (Z.min ex ey)) with (Z.min ex ey) in M2 by lia.
  set (ez := Z.min ex ey) in *.
  change (Z.add (Z.pos (fst (shl_align mx ex ez))) (Z.pos (fst (shl_align my ey ez))))
    with (Z.pos (fst (shl_align mx ex ez) + fst (shl_align my ey ez))).
  unfold binary_normalize, binary_round.
  set (s := (fst (shl_align mx ex ez) + fst (shl_align my ey ez))%positive).
  assert (HS : Z.pos s = (Z.pos mx * 2 ^ (ex - ez) + Z.pos my * 2 ^ (ey - ez))%Z)
    by (unfold s; rewrite Pos2Z.inj_add, M1, M2; reflexivity).
  clearbody s. clear E1 E2 M1 M2.
  unfold normal in Hx, Hy.
  assert (Hez : (ez <= ex /\ ez <= ey /\ (ez = ex \/ ez = ey))%Z) by lia.
  set (hi := Z.max ex ey).
  assert (Hpx : (1 <= 2 ^ (ex - ez) <= 2 ^ (hi - ez))%Z).
  { split; [|apply Z.pow_le_mono_r; lia].
    pose proof (Z.pow_pos_nonneg 2 (ex - ez)). lia. }
  assert (Hpy : (1 <= 2 ^ (ey - ez) <= 2 ^ (hi - ez))%Z).
  { split; [|apply Z.pow_le_mono_r; lia].
    pose proof (Z.pow_pos_nonneg 2 (ey - ez)). lia. }
  assert (Hb : (2 ^ 52 <= Z.pos s < 2 ^ (54 + (hi - ez)))%Z).
  { rewrite HS. split; [nia|].
    rewrite Z.pow_add_r by lia. nia. }
  destruct (digits_between (Z.pos s) 52 (54 + (hi - ez))) as [Hd1 Hd2];
    [lia|exact Hb|].
  change (Zdigits2 (Z.pos s)) with (Z.pos (digits2_pos s)) in Hd1, Hd2.
  destruct (shl_align_spec s ez (fexp 53 1024 (Z.add (Z.pos (digits2_pos s)) ez)))
    as [E3 M3].
  destruct (shl_align s ez _) as [mz ez']. cbn [fst snd] in E3, M3.
  assert (Hez' : ez' = ez) by (unfold fexp, emin in E3; lia).
  clear E3. subst ez'. rewrite Z.sub_diag, Z.pow_0_r, Z.mul_1_r in M3.
  injection M3 as ->.
  destruct (binary_round_aux_value false (Z.pos s) ez 0 1)
    as (mf & ef & Hres & Hmf & Hef & Hle & Hge & _);
    [lia|lia|simpl Zdigits2; lia|lia|simpl Zdigits2; lia|].
  change (loc_of 0 1) with loc_Exact in Hres.
  exists mf, ef. split; [exact Hres|]. split; [exact Hmf|].
  rewrite Z.mul_1_r, Z.add_0_r, HS in Hle, Hge.
  assert (Px : 2 ^ ex == inject_Z (2 ^ (ex - ez)) * 2 ^ ez)
    by (apply pow2_shift; lia).
  assert (Py : 2 ^ ey == inject_Z (2 ^ (ey - ez)) * 2 ^ ez)
    by (apply pow2_shift; lia).
  push_inject_in Hle. push_inject_in Hge.
  unfold fval in *. rewrite Px, Py.
  change (inject_Z 1) with 1 in *.
  set (A := inject_Z (2 ^ (ex - ez))) in *.
  set (B := inject_Z (2 ^ (ey - ez))) in *.
  set (E := 2 ^ ez) in *. set (U := 2 ^ ef) in *.
  clearbody A B E U. split; lra.
Qed.

Lemma float_trunc_spec m e :
  (e <= 0)%Z ->
  float_trunc (S754_finite false m e) = Return (Z.pos m / 2 ^ (- e))%Z.
Proof.
  intros He. unfold float_trunc.
  replace e with (- - e)%Z at 1 by lia.
  rewrite Z.shiftl_opp_r, Z.shiftr_div_pow2 by lia. reflexivity.
Qed.

Lemma fval_exact m e z :
  (e <= 0)%Z -> Z.pos m = (z * 2 ^ (- e))%Z -> fval m e == inject_Z z.
Proof.
  intros He Hm. unfold fval. rewrite Hm, inject_Z_mult, pow2_Z by lia.
  rewrite <- Qmult_assoc, <- pow2_add.
  replace (- e + e)%Z with 0%Z by lia. change (2 ^ 0) with 1. ring.
Qed.

Lemma normal_fval m e :
  normal m ->
  4503599627370496 * 2 ^ e <= fval m e /\ fval m e <= 9007199254740992 * 2 ^ e.
Proof.
  intros [Hlo Hhi]. unfold fval. pose proof (pow2_pos e) as HE.
  split; apply Qmult_le_r; try exact HE.
  - change 4503599627370496 with (inject_Z (2 ^ 52)).
    rewrite <- Zle_Qle. exact Hlo.
  - change 9007199254740992 with (inject_Z (2 ^ 53)).
    rewrite <- Zle_Qle. lia.
Qed.

Lemma small_exponent m e : normal m -> fval m e < 128 -> (e <= -46)%Z.
Proof.
  intros Hn Hv. destruct (normal_fval m e Hn) as [Hlo _].
  assert (H : 2 ^ e < 2 ^ (-45)).
  { assert (E : 2 ^ (-45) == 1 # 35184372088832) by reflexivity.
    rewrite E. set (U := 2 ^ e) in *. clearbody U. lra. }
  apply pow2_lt_inv in H. lia.
Qed.

(** Two multiples of [2^e] that differ by at most half of it. *)
Lemma grid m j e :
  2 * (inject_Z j * 2 ^ e - fval m e) <= 2 ^ e -> (j <= Z.pos m)%Z.
Proof.
  intros H. unfold fval in H. pose proof (pow2_pos e) as HE.
  assert (G : 2 ^ e * (2 * (inject_Z j - inject_Z (Z.pos m))) <= 2 ^ e * 1).
  { set (U := 2 ^ e) in *. clearbody U. lra. }
  apply Qmult_le_l in G; [|exact HE].
  assert (G' : inject_Z (2 * (j - Z.pos m)) <= inject_Z 1).
  { unfold Z.sub. push_inject. exact G. }
  rewrite <- Zle_Qle in G'. lia.
Qed.

(** The percentage [int(free * 100.0 / (free + used) + 0.5)] of sizes given
    in KiB, for a total below [2^43] KiB: the quotient rounded half up. *)
Lemma free_perc_of_rounds f u :
  (0 <= f)%Z -> (0 <= u)%Z -> (0 < f + u < 2 ^ 43)%Z ->
  free_perc_of (f * 1024) (u * 1024) = Return (round_half_up (100 * f) (f + u)).
Proof.
  intros Hf Hu Ht. unfold round_half_up.
  replace (2 * (100 * f))%Z with (200 * f)%Z by ring.
  destruct (b64_of_Z_spec (f * 1024 + u * 1024))
    as (mT & eT & HT & HnT & HeT & HmT); [lia|].
  unfold free_perc_of, py_float. rewrite HT.
  destruct (Z.eq_dec f 0%Z) as [->|Hf0].
  { cbn [obind float_truthy Z.mul b64_of_Z binary_normalize b64_mul SFmul
         b64_hundred b64_div SFdiv b64_add SFadd b64_half xorb].
    rewrite Z.div_small by lia. reflexivity. }
  destruct (b64_of_Z_spec (f * 1024)) as (mF & eF & HF & HnF & HeF & HmF); [lia|].
  rewrite HF. cbn [obind float_truthy].
  destruct (b64_mul_hundred_spec mF eF HnF) as (mP & eP & HP & HnP & HeP & HvP);
    [|lia|].
  { rewrite HmF. replace (f * 1024 * 2 ^ (- eF))%Z with (f * 2 ^ (- eF) * 1024)%Z
      by ring. apply Z.mod_mul. lia. }
  rewrite HP.
  destruct (b64_div_spec mP eP mT eT HnP HnT)
    as (mX & eX & HX & HnX & HeX & HX1 & HX2); [lia|lia|].
  rewrite HX. unfold b64_half.
  destruct (b64_add_spec mX eX 4503599627370496 (-53) HnX)
    as (mY & eY & HY & HnY & HY1 & HY2); [unfold normal; lia|lia|lia|].
  rewrite HY.
  (* the exact values *)
  set (t := (f + u)%Z) in *.
  set (k := ((200 * f + t) / (2 * t))%Z).
  assert (Hft : (f <= t)%Z) by (unfold t; lia).
  assert (Hk1 : (2 * t * k <= 200 * f + t)%Z) by (apply Z.mul_div_le; lia).
  assert (Hk2 : (200 * f + t < 2 * t * (k + 1))%Z).
  { pose proof (Z.mul_succ_div_gt (200 * f + t) (2 * t)). unfold k. lia. }
  assert (Hk0 : (0 <= k <= 100)%Z).
  { split; [apply Z.div_pos; lia|].
    assert (k < 101)%Z by (apply Z.div_lt_upper_bound; lia). lia. }
  assert (VT : fval mT eT == 1024 * inject_Z t).
  { rewrite (fval_exact mT eT _ (proj2 HeT) HmT).
    replace (f * 1024 + u * 1024)%Z with (1024 * t)%Z by (unfold t; ring).
    rewrite inject_Z_mult. reflexivity. }
  assert (VP : fval mP eP == 102400 * inject_Z f).
  { rewrite HvP, (fval_exact mF eF _ (proj2 HeF) HmF), inject_Z_mult.
    change (inject_Z 1024) with 1024. ring. }
  assert (VH : fval 4503599627370496 (-53) == 1 # 2) by reflexivity.
  rewrite VT, VP in HX1, HX2. rewrite VH in HY1, HY2.
  assert (Ht0 : 0 < inject_Z t) by (change 0 with (inject_Z 0); rewrite <- Zlt_Qlt; lia).
  assert (Htf : inject_Z f <= inject_Z t) by (rewrite <- Zle_Qle; lia).
  assert (QK1 : 2 * inject_Z t * inject_Z k <= 200 * inject_Z f + inject_Z t).
  { rewrite Zle_Qle in Hk1. push_inject_in Hk1. exact Hk1. }
  assert (QK2 : 200 * inject_Z f + inject_Z t + 1
                <= 2 * inject_Z t * (inject_Z k + 1)).
  { assert (H : (200 * f + t + 1 <= 2 * t * (k + 1))%Z) by lia.
    rewrite Zle_Qle in H. push_inject_in H. exact H. }
  assert (QT : inject_Z t * (1 # 8796093022208) < 1).
  { assert (H : (t < 8796093022208)%Z) by (change 8796093022208%Z with (2 ^ 43)%Z; lia).
    rewrite Zlt_Qlt in H. change (inject_Z 8796093022208) with 8796093022208 in H.
    lra. }
  destruct (normal_fval mX eX HnX) as [NX1 NX2].
  destruct (normal_fval mY eY HnY) as [NY1 NY2].
  pose proof (pow2_pos eX) as UX0. pose proof (pow2_pos eY) as UY0.
  (* the quotient is below 128 *)
  assert (BX : inject_Z t * fval mX eX < inject_Z t * 128).
  { set (X := fval mX eX) in *. set (UX := 2 ^ eX) in *. set (T := inject_Z t) in *.
    set (F := inject_Z f) in *.
    assert (T * (4503599627370496 * UX) <= T * X)
      by (apply Qmult_le_l; assumption).
    clearbody X UX T F. lra. }
  apply Qmult_lt_l in BX; [|exact Ht0].
  pose proof (small_exponent mX eX HnX BX) as SX.
  assert (LX : 2 ^ eX <= 1 # 70368744177664).
  { assert (E : 2 ^ (-46) == 1 # 70368744177664) by reflexivity.
    rewrite <- E. apply pow2_le. exact SX. }
  assert (BX' : inject_Z t * (2 * (fval mX eX - 100)) <= inject_Z t * 2 ^ eX).
  { set (X := fval mX eX) in *. set (UX := 2 ^ eX) in *. set (T := inject_Z t) in *.
    set (F := inject_Z f) in *. clearbody X UX T F. lra. }
  apply Qmult_le_l in BX'; [|exact Ht0].
  assert (BY : fval mY eY < 128).
  { set (X := fval mX eX) in *. set (UX := 2 ^ eX) in *.
    set (Y := fval mY eY) in *. set (UY := 2 ^ eY) in *.
    clearbody X UX Y UY. lra. }
  pose proof (small_exponent mY eY HnY BY) as SY.
  assert (LY : 2 ^ eY <= 1 # 70368744177664).
  { assert (E : 2 ^ (-46) == 1 # 70368744177664) by reflexivity.
    rewrite <- E. apply pow2_le. exact SY. }
  (* the quotient is at least k - 1/2 *)
  assert (JX : inject_Z ((2 * k - 1) * 2 ^ (- eX - 1)) * 2 ^ eX
               == inject_Z k - (1 # 2)).
  { rewrite inject_Z_mult, pow2_Z by lia.
    rewrite <- Qmult_assoc, <- pow2_add.
    replace (- eX - 1 + eX)%Z with (-1)%Z by lia.
    unfold Z.sub. push_inject. change (2 ^ (-1)) with (1 # 2).
    change (inject_Z 2) with 2. change (inject_Z 1) with 1. ring. }
  assert (GX : ((2 * k - 1) * 2 ^ (- eX - 1) <= Z.pos mX)%Z).
  { apply (grid mX _ eX). rewrite JX.
    assert (inject_Z t * (2 * (inject_Z k - (1 # 2) - fval mX eX))
            <= inject_Z t * 2 ^ eX) as G.
    { set (X := fval mX eX) in *. set (UX := 2 ^ eX) in *.
      set (T := inject_Z t) in *. set (F := inject_Z f) in *.
      set (K := inject_Z k) in *. clearbody X UX T F K. lra. }
    apply Qmult_le_l in G; [exact G|exact Ht0]. }
  assert (GX' : inject_Z k - (1 # 2) <= fval mX eX).
  { rewrite <- JX. unfold fval. apply Qmult_le_r; [exact UX0|].
    rewrite <- Zle_Qle. exact GX. }
  (* the sum is at least k *)
  assert (JY : inject_Z (k * 2 ^ (- eY)) * 2 ^ eY == inject_Z k).
  { rewrite inject_Z_mult, pow2_Z by lia.
    rewrite <- Qmult_assoc, <- pow2_add.
    replace (- eY + eY)%Z with 0%Z by lia. change (2 ^ 0) with 1. ring. }
  assert (GY : (k * 2 ^ (- eY) <= Z.pos mY)%Z).
  { apply (grid mY _ eY). rewrite JY.
    set (X := fval mX eX) in *. set (UX := 2 ^ eX) in *.
    set (Y := fval mY eY) in *. set (UY := 2 ^ eY) in *.
    set (K := inject_Z k) in *. clearbody X UX Y UY K. lra. }
  (* the sum is below k + 1 *)
  assert (HY3 : inject_Z t * (fval mY eY) < inject_Z t * (inject_Z k + 1)).
  { set (X := fval mX eX) in *. set (UX := 2 ^ eX) in *.
    set (Y := fval mY eY) in *. set (UY := 2 ^ eY) in *.
    set (T := inject_Z t) in *. set (F := inject_Z f) in *.
    set (K := inject_Z k) in *.
    assert (T * (2 * (Y - X - (1 # 2))) <= T * UY)
      by (apply Qmult_le_l; [assumption|clearbody X UX Y UY T F K; lra]).
    assert (T * UX <= T * (1 # 70368744177664))
      by (apply Qmult_le_l; assumption).
    assert (T * UY <= T * (1 # 70368744177664))
      by (apply Qmult_le_l; assumption).
    clearbody X UX Y UY T F K. lra. }
  apply Qmult_lt_l in HY3; [|exact Ht0].
  assert (GY' : (Z.pos mY < (k + 1) * 2 ^ (- eY))%Z).
  { rewrite Zlt_Qlt.
    assert (E : inject_Z ((k + 1) * 2 ^ (- eY)) * 2 ^ eY == inject_Z k + 1).
    { rewrite inject_Z_mult, pow2_Z by lia.
      rewrite <- Qmult_assoc, <- pow2_add.
      replace (- eY + eY)%Z with 0%Z by lia. change (2 ^ 0) with 1.
      push_inject. change (inject_Z 1) with 1. ring. }
    rewrite <- E in HY3. unfold fval in HY3.
    apply Qmult_lt_r in HY3; [exact HY3|exact UY0]. }
  rewrite float_trunc_spec by lia. f_equal.
  assert (HD : (0 < 2 ^ (- eY))%Z) by (apply Z.pow_pos_nonneg; lia).
  symmetry. apply (Z.div_unique _ _ _ (Z.pos mY - 2 ^ (- eY) * k)); lia.
Qed.

End Values.

Lemma round_half_up_spec n d :
  (0 < d)%Z ->
  (2 * d * round_half_up n d <= 2 * n + d < 2 * d * (round_half_up n d + 1))%Z.
Proof.
  intros Hd. unfold round_half_up. split.
  - apply Z.mul_div_le. lia.
  - pose proof (Z.mul_succ_div_gt (2 * n + d) (2 * d)). lia.
Qed.

Lemma round_half_up_percent f u :
  (0 <= f)%Z -> (0 <= u)%Z -> (0 < f + u)%Z ->
  (0 <= round_half_up (100 * f) (f + u) <= 100)%Z.
Proof.
  intros Hf Hu Ht. unfold round_half_up. split.
  - apply Z.div_pos; lia.
  - assert ((2 * (100 * f) + (f + u)) / (2 * (f + u)) < 101)%Z
      by (apply Z.div_lt_upper_bound; lia).
    lia.
Qed.

(** ** Binary64: rounding to nearest, at any size *)

(** Rounding to nearest of the value [(m + a/b) * 2^e] above the
    subnormal numbers: either the result is infinite, or it has a full
    mantissa and is at most half a unit in the last place away. *)
Lemma binary_round_aux_total s m e a b :
  0 < m -> 0 <= a < b -> 53 <= Zdigits2 m -> -1074 <= e ->
  binary_round_aux 53 1024 s m e (loc_of a b) = S754_infinity s \/
  exists mf ef,
    binary_round_aux 53 1024 s m e (loc_of a b) = S754_finite s mf ef /\
    2 ^ 52 <= Z.pos mf < 2 ^ 53 /\
    e + (Zdigits2 m - 53) <= ef <= 971 /\
    Z.abs (2 * (Z.pos mf * 2 ^ (ef - e) * b - (m * b + a))) <= 2 ^ (ef - e) * b.
Proof.
  intros Hm Hab Hd He.
  unfold binary_round_aux. rewrite shr_fexp_spec by assumption.
  set (n := Zdigits2 m - 53) in *.
  assert (Hn : 0 <= n) by lia.
  assert (HP : 0 < 2 ^ n) by (apply Z.pow_pos_nonneg; lia).
  destruct (loc_of_shr_record_of_loc (m / 2 ^ n)
              (loc_of ((m mod 2 ^ n) * b + a) (2 ^ n * b))) as [-> ->].
  destruct (Zdigits2_bounds m Hm) as [Hlo Hhi].
  replace (Zdigits2 m - 1) with (52 + n) in Hlo by lia.
  replace (Zdigits2 m) with (53 + n) in Hhi by lia.
  rewrite Z.pow_add_r in Hlo, Hhi by lia.
  assert (Hm' : 2 ^ 52 <= m / 2 ^ n < 2 ^ 53).
  { split; [apply Z.div_le_lower_bound|apply Z.div_lt_upper_bound]; lia. }
  destruct (shifted_position m a b (2 ^ n)) as [_ Hab']; [lia|lia|lia|].
  destruct (round_nearest_even_spec (m / 2 ^ n) _ _ Hab') as [Hex Hrne].
  set (m1 := round_nearest_even (m / 2 ^ n)
               (loc_of ((m mod 2 ^ n) * b + a) (2 ^ n * b))) in *.
  destruct (carry_spec m1 (e + n)) as (r & e2 & -> & Hr & Hc); [lia|lia|].
  destruct (shr_m r) as [|mf|mf] eqn:Emf; [lia| |lia].
  change (Z.leb e2 (Z.sub 1024 53)) with (e2 <=? 971).
  destruct (Z.leb_spec e2 971) as [He2|He2]; [right|left; reflexivity].
  exists mf, e2. split; [reflexivity|]. split; [exact Hr|].
  split; [lia|].
  pose proof (Z.div_mod m (2 ^ n)) as Hdm.
  set (q := m / 2 ^ n) in *. set (k := m mod 2 ^ n) in *.
  assert (Hdm' : m = 2 ^ n * q + k) by (apply Hdm; lia).
  assert (Hpow : Z.pos mf * 2 ^ (e2 - e) = m1 * 2 ^ n).
  { destruct Hc as [[-> <-]|[-> <-]].
    - replace (e + n - e) with n by lia. reflexivity.
    - replace (e + n + 1 - e) with (1 + n) by lia.
      rewrite Z.pow_add_r, Z.pow_1_r by lia. ring. }
  assert (Hge : 2 ^ n <= 2 ^ (e2 - e)) by (apply Z.pow_le_mono_r; lia).
  rewrite Hpow, Hdm'.
  destruct Hrne as [[-> H2]|[-> H2]]; apply Z.abs_le; nia.
Qed.

Section Range.
Local Open Scope Q_scope.

Lemma binary_round_aux_value_total s m e a b :
  (0 < m)%Z -> (0 <= a < b)%Z -> (53 <= Zdigits2 m)%Z -> (-1074 <= e)%Z ->
  binary_round_aux 53 1024 s m e (loc_of a b) = S754_infinity s \/
  exists mf ef,
    binary_round_aux 53 1024 s m e (loc_of a b) = S754_finite s mf ef /\
    normal mf /\
    (e + (Zdigits2 m - 53) <= ef <= 971)%Z /\
    2 * (inject_Z b * fval mf ef - inject_Z (m * b + a) * 2 ^ e)
      <= inject_Z b * 2 ^ ef /\
    2 * (inject_Z (m * b + a) * 2 ^ e - inject_Z b * fval mf ef)
      <= inject_Z b * 2 ^ ef.
Proof.
  intros Hm Hab Hd He.
  destruct (binary_round_aux_total s m e a b Hm Hab Hd He)
    as [Hinf|(mf & ef & Hr & Hmf & Hef & Habs)]; [left; exact Hinf|right].
  exists mf, ef. split; [exact Hr|]. split; [exact Hmf|]. split; [exact Hef|].
  unfold fval. rewrite (pow2_shift e ef) by lia.
  pose proof (pow2_pos e) as HE.
  set (E := 2 ^ e) in *. set (C := (2 ^ (ef - e))%Z) in *.
  apply Z.abs_le in Habs. destruct Habs as [H1 H2].
  unfold Z.sub in H1, H2. rewrite Zle_Qle in H1, H2.
  push_inject_in H1. push_inject_in H2. push_inject.
  change (inject_Z 2) with 2 in *.
  pose proof (proj2 (Qmult_le_l _ _ E HE) H1) as G1.
  pose proof (proj2 (Qmult_le_l _ _ E HE) H2) as G2.
  split; clearbody E C; lra.
Qed.

(** [float(z)] for a positive integer of any size. *)
Lemma b64_of_Z_total z :
  (0 < z)%Z ->
  b64_of_Z z = S754_infinity false \/
  exists m e,
    b64_of_Z z = S754_finite false m e /\ normal m /\
    (-52 <= e <= 971)%Z /\
    2 * (fval m e - inject_Z z) <= 2 ^ e /\
    2 * (inject_Z z - fval m e) <= 2 ^ e.
Proof.
  intros Hz.
  destruct (Z.lt_ge_cases z (2 ^ 53)) as [Hs|Hl].
  - right. destruct (b64_of_Z_spec z) as (m & e & Hr & Hn & He & Hm); [lia|].
    exists m, e. split; [exact Hr|]. split; [exact Hn|]. split; [lia|].
    rewrite (fval_exact m e z (proj2 He) Hm).
    pose proof (pow2_pos e) as HE. set (U := 2 ^ e) in *. clearbody U.
    split; lra.
  - destruct z as [|p|p]; try lia.
    unfold b64_of_Z, binary_normalize, binary_round.
    destruct (digits_between (Z.pos p) 53 (Zdigits2 (Z.pos p))) as [Hd _].
    { lia. }
    { split; [exact Hl|]. apply Zdigits2_bounds. lia. }
    change (Zdigits2 (Z.pos p)) with (Z.pos (digits2_pos p)) in Hd.
    destruct (shl_align_spec p 0 (fexp 53 1024 (Z.add (Z.pos (digits2_pos p)) 0)))
      as [He Hm].
    destruct (shl_align p 0 _) as [mz ez]. cbn [fst snd] in He, Hm.
    assert (Hez : ez = 0%Z) by (unfold fexp, emin in He; lia).
    clear He. subst ez. change (0 - 0)%Z with 0%Z in Hm.
    rewrite Z.pow_0_r, Z.mul_1_r in Hm.
    injection Hm as ->.

    change loc_Exact with (loc_of 0 1).
    destruct (binary_round_aux_value_total false (Z.pos p) 0 0 1)
      as [Hinf|(mf & ef & Hr & Hmf & Hef & Hle & Hge)];
      [lia|lia|simpl Zdigits2; lia|lia|left; exact Hinf|right].
    exists mf, ef. split; [exact Hr|]. split; [exact Hmf|].
    simpl Zdigits2 in Hef. split; [lia|].
    rewrite Z.mul_1_r, Z.add_0_r in Hle, Hge.
    change (2 ^ 0) with 1 in Hle, Hge. change (inject_Z 1) with 1 in Hle, Hge.
    set (V := fval mf ef) in *. set (U := 2 ^ ef) in *.
    set (Zp := inject_Z (Z.pos p)) in *. clearbody V U Zp. split; lra.
Qed.

(** [x * 100.0] at any size. *)
Lemma b64_mul_hundred_total m e :
  normal m -> (-52 <= e)%Z ->
  b64_mul (S754_finite false m e) b64_hundred = S754_infinity false \/
  exists mf ef,
    b64_mul (S754_finite false m e) b64_hundred = S754_finite false mf ef /\
    normal mf /\ (e + 6 <= ef <= 971)%Z /\
    2 * (fval mf ef - 100 * fval m e) <= 2 ^ ef /\
    2 * (100 * fval m e - fval mf ef) <= 2 ^ ef.
Proof.
  intros Hn He.
  unfold b64_mul, b64_hundred, SFmul.
  change (xorb false false) with false.
  rewrite Pos2Z.inj_mul.
  set (M := (Z.pos m * 7036874417766400)%Z).
  unfold normal in Hn.
  assert (HM : (2 ^ 104 <= M < 2 ^ 106)%Z) by (unfold M; lia).
  destruct (digits_between M 104 106) as [Hd1 Hd2]; [lia|exact HM|].
  change loc_Exact with (loc_of 0 1).
  destruct (binary_round_aux_value_total false M (Z.add e (-46)) 0 1)
    as [Hinf|(mf & ef & Hr & Hmf & Hef & Hle & Hge)];
    [lia|lia|lia|lia|left; exact Hinf|right].
  exists mf, ef. split; [exact Hr|]. split; [exact Hmf|]. split; [lia|].
  rewrite Z.mul_1_r, Z.add_0_r in Hle, Hge.
  assert (EM : inject_Z M * 2 ^ (e + -46) == 100 * fval m e).
  { unfold fval, M. rewrite inject_Z_mult, pow2_add.
    assert (H100 : inject_Z 7036874417766400 * 2 ^ (-46) == 100) by reflexivity.
    rewrite <- H100. ring. }
  rewrite EM in Hle, Hge. change (inject_Z 1) with 1 in Hle, Hge.
  set (V := fval mf ef) in *. set (U := 2 ^ ef) in *.
  set (X := fval m e) in *. clearbody V U X. split; lra.
Qed.

(** The quotient of two normal numbers, at any size above the subnormal
    numbers. *)
Lemma b64_div_total mx ex my ey :
  normal mx -> normal my -> (-1021 <= ex - ey)%Z ->
  b64_div (S754_finite false mx ex) (S754_finite false my ey)
  = S754_infinity false \/
  exists mf ef,
    b64_div (S754_finite false mx ex) (S754_finite false my ey)
    = S754_finite false mf ef /\
    normal mf /\ (ex - ey - 53 <= ef <= 971)%Z /\
    2 * (fval my ey * fval mf ef - fval mx ex) <= fval my ey * 2 ^ ef /\
    2 * (fval mx ex - fval my ey * fval mf ef) <= fval my ey * 2 ^ ef.
Proof.
  intros Hx Hy Hexy.
  unfold b64_div, SFdiv, SFdiv_core_binary.
  rewrite (normal_digits mx Hx), (normal_digits my Hy).
  match goal with
  | |- context [Z.min ?a ?b] =>
      assert (He' : Z.min a b = (ex - ey - 53)%Z) by (unfold fexp, emin; lia);
      rewrite He'
  end.
  match goal with
  | |- context [Z.sub (Z.sub ex ey) ?c] =>
      assert (Hs : Z.sub (Z.sub ex ey) c = 53%Z) by lia; rewrite Hs
  end.
  cbv iota. rewrite Z.shiftl_mul_pow2 by lia.
  pose proof (Z_div_mod (Z.pos mx * 2 ^ 53) (Z.pos my) eq_refl) as Hqr.
  destruct (Z.div_eucl (Z.pos mx * 2 ^ 53) (Z.pos my)) as [q r].
  destruct Hqr as [Hq Hr]. change (xorb false false) with false.
  rewrite new_location_spec by exact Hr.
  unfold normal in Hx, Hy.
  assert (Hqb : (2 ^ 52 <= q < 2 ^ 54)%Z) by nia.
  destruct (digits_between q 52 54) as [Hd1 Hd2]; [lia|exact Hqb|].
  destruct (binary_round_aux_value_total false q (ex - ey - 53) r (Z.pos my))
    as [Hinf|(mf & ef & Hres & Hmf & Hef & Hle & Hge)];
    [lia|lia|lia|lia|left; exact Hinf|right].
  exists mf, ef. split; [exact Hres|]. split; [exact Hmf|]. split; [lia|].
  replace (q * Z.pos my + r)%Z with (Z.pos mx * 2 ^ 53)%Z in Hle, Hge by lia.
  rewrite inject_Z_mult, pow2_Z in Hle, Hge by lia.
  assert (Hp : 2 ^ ex == 2 ^ 53 * 2 ^ (ex - ey - 53) * 2 ^ ey).
  { rewrite <- !pow2_add. replace (53 + (ex - ey - 53) + ey)%Z with ex by lia.
    reflexivity. }
  pose proof (pow2_pos ey) as HE.
  unfold fval in *. rewrite Hp.
  set (Y := 2 ^ ey) in *. set (E := 2 ^ (ex - ey - 53)) in *.
  set (U := 2 ^ ef) in *. set (P := 2 ^ 53) in *.
  pose proof (proj2 (Qmult_le_l _ _ Y HE) Hle) as G1.
  pose proof (proj2 (Qmult_le_l _ _ Y HE) Hge) as G2.
  clearbody Y E U P. split; lra.
Qed.

(** The sum of two normal numbers, at any size above the subnormal
    numbers. *)
Lemma b64_add_total mx ex my ey :
  normal mx -> normal my -> (-1074 <= ex)%Z -> (-1074 <= ey)%Z ->
  b64_add (S754_finite false mx ex) (S754_finite false my ey)
  = S754_infinity false \/
  exists mf ef,
    b64_add (S754_finite false mx ex) (S754_finite false my ey)
    = S754_finite false mf ef /\
    normal mf /\
    2 * (fval mf ef - (fval mx ex + fval my ey)) <= 2 ^ ef /\
    2 * (fval mx ex + fval my ey - fval mf ef) <= 2 ^ ef.
Proof.
  intros Hx Hy Hex Hey.
  unfold b64_add, SFadd. cbn [cond_Zopp].
  destruct (shl_align_spec mx ex (Z.min ex ey)) as [E1 M1].
  destruct (shl_align_spec my ey (Z.min ex ey)) as [E2 M2].
  rewrite E1 in M1. rewrite E2 in M2.
  replace (Z.min ex (Z.min ex ey)) with (Z.min ex ey) in M1 by lia.
  replace (Z.min ey (Z.min ex ey)) with (Z.min ex ey) in M2 by lia.
  set (ez := Z.min ex ey) in *.
  change (Z.add (Z.pos (fst (shl_align mx ex ez))) (Z.pos (fst (shl_align my ey ez))))
    with (Z.pos (fst (shl_align mx ex ez) + fst (shl_align my ey ez))).
  unfold binary_normalize, binary_round.
  set (s := (fst (shl_align mx ex ez) + fst (shl_align my ey ez))%positive).
  assert (HS : Z.pos s = (Z.pos mx * 2 ^ (ex - ez) + Z.pos my * 2 ^ (ey - ez))%Z)
    by (unfold s; rewrite Pos2Z.inj_add, M1, M2; reflexivity).
  clearbody s. clear E1 E2 M1 M2.
  unfold normal in Hx, Hy.
  assert (Hez : (ez <= ex /\ ez <= ey /\ (ez = ex \/ ez = ey))%Z) by lia.
  set (hi := Z.max ex ey).
  assert (Hpx : (1 <= 2 ^ (ex - ez) <= 2 ^ (hi - ez))%Z).
  { split; [|apply Z.pow_le_mono_r; lia].
    pose proof (Z.pow_pos_nonneg 2 (ex - ez)). lia. }
  assert (Hpy : (1 <= 2 ^ (ey - ez) <= 2 ^ (hi - ez))%Z).
  { split; [|apply Z.pow_le_mono_r; lia].
    pose proof (Z.pow_pos_nonneg 2 (ey - ez)). lia. }
  assert (Hb : (2 ^ 52 <= Z.pos s < 2 ^ (54 + (hi - ez)))%Z).
  { rewrite HS. split; [nia|].
    rewrite Z.pow_add_r by lia. nia. }
  destruct (digits_between (Z.pos s) 52 (54 + (hi - ez))) as [Hd1 Hd2];
    [lia|exact Hb|].
  change (Zdigits2 (Z.pos s)) with (Z.pos (digits2_pos s)) in Hd1, Hd2.
  destruct (shl_align_spec s ez (fexp 53 1024 (Z.add (Z.pos (digits2_pos s)) ez)))
    as [E3 M3].
  destruct (shl_align s ez _) as [mz ez']. cbn [fst snd] in E3, M3.
  assert (Hez' : ez' = ez) by (unfold fexp, emin in E3; lia).
  clear E3. subst ez'. rewrite Z.sub_diag, Z.pow_0_r, Z.mul_1_r in M3.
  injection M3 as ->.
  change loc_Exact with (loc_of 0 1).
  destruct (binary_round_aux_value_total false (Z.pos s) ez 0 1)
    as [Hinf|(mf & ef & Hres & Hmf & Hef & Hle & Hge)];
    [lia|lia|simpl Zdigits2; lia|lia|left; exact Hinf|right].
  exists mf, ef. split; [exact Hres|]. split; [exact Hmf|].
  rewrite Z.mul_1_r, Z.add_0_r, HS in Hle, Hge.
  assert (Px : 2 ^ ex == inject_Z (2 ^ (ex - ez)) * 2 ^ ez)
    by (apply pow2_shift; lia).
  assert (Py : 2 ^ ey == inject_Z (2 ^ (ey - ez)) * 2 ^ ez)
    by (apply pow2_shift; lia).
  push_inject_in Hle. push_inject_in Hge.
  unfold fval in *. rewrite Px, Py.
  change (inject_Z 1) with 1 in *.
  set (A := inject_Z (2 ^ (ex - ez))) in *.
  set (B := inject_Z (2 ^ (ey - ez))) in *.
  set (E := 2 ^ ez) in *. set (U := 2 ^ ef) in *.
  clearbody A B E U. split; lra.
Qed.

(** [int(free * 100.0 / (free + used) + 0.5)] lies between 0 and 100 for
    sizes of any magnitude, whenever it has a value. *)
Lemma free_perc_of_range fs us p :
  (0 <= fs)%Z -> (0 <= us)%Z ->
  free_perc_of fs us = Return p -> (0 <= p <= 100)%Z.
Proof.
  intros Hf Hu H. unfold free_perc_of, py_float in H.
  destruct (Z.eq_dec fs 0%Z) as [->|Hf0].
  - change (b64_of_Z 0) with (S754_zero false) in H. cbn [obind] in H.
    rewrite Z.add_0_l in H.
    destruct (Z.eq_dec us 0%Z) as [->|Hu0]; [discriminate H|].
    destruct (b64_of_Z_total us) as [HT|(mT & eT & HT & _)]; [lia| |];
      rewrite HT in H; [discriminate H|].
    cbn [obind float_truthy] in H.
    change (float_trunc b64_half = Return p) in H.
    injection H as <-. vm_compute. split; discriminate.
  - destruct (b64_of_Z_total fs)
      as [HF|(mF & eF & HF & HnF & HeF & HF1 & HF2)]; [lia| |];
      rewrite HF in H; [discriminate H|].
    cbn [obind] in H.
    destruct (b64_of_Z_total (fs + us))
      as [HT|(mT & eT & HT & HnT & HeT & HT1 & HT2)]; [lia| |];
      rewrite HT in H; [discriminate H|].
    cbn [obind float_truthy] in H.
    destruct (b64_mul_hundred_total mF eF HnF)
      as [HN|(mN & eN & HN & HnN & HeN & HN1 & HN2)]; [lia| |];
      rewrite HN in H; [discriminate H|].
    destruct (b64_div_total mN eN mT eT HnN HnT)
      as [HX|(mX & eX & HX & HnX & HeX & HX1 & HX2)]; [lia| |];
      rewrite HX in H; [discriminate H|].
    unfold b64_half in H.
    destruct (b64_add_total mX eX 4503599627370496 (-53) HnX)
      as [HY|(mY & eY & HY & HnY & HY1 & HY2)];
      [unfold normal; lia|lia|lia| |];
      rewrite HY in H; [discriminate H|].
    assert (VH : fval 4503599627370496 (-53) == 1 # 2) by reflexivity.
    rewrite VH in HY1, HY2.
    destruct (normal_fval mF eF HnF) as [NF _].
    destruct (normal_fval mT eT HnT) as [NT _].
    destruct (normal_fval mN eN HnN) as [NN _].
    destruct (normal_fval mX eX HnX) as [NX _].
    destruct (normal_fval mY eY HnY) as [NY _].
    pose proof (pow2_pos eF) as UF0. pose proof (pow2_pos eT) as UT0.
    pose proof (pow2_pos eN) as UN0. pose proof (pow2_pos eX) as UX0.
    pose proof (pow2_pos eY) as UY0.
    assert (ZFT : inject_Z fs <= inject_Z (fs + us)) by (rewrite <- Zle_Qle; lia).
    set (F := fval mF eF) in *. set (UF := 2 ^ eF) in *.
    set (T := fval mT eT) in *. set (UT := 2 ^ eT) in *.
    set (N := fval mN eN) in *. set (UN := 2 ^ eN) in *.
    set (X := fval mX eX) in *. set (UX := 2 ^ eX) in *.
    set (Y := fval mY eY) in *. set (UY := 2 ^ eY) in *.
    set (ZF := inject_Z fs) in *. set (ZT := inject_Z (fs + us)) in *.
    assert (T0 : 0 < T) by (clearbody F UF T UT N UN X UX Y UY ZF ZT; lra).
    assert (S1 : N <= (1001 # 10) * T)
      by (clearbody F UF T UT N UN X UX Y UY ZF ZT; lra).
    assert (S2 : T * (4503599627370496 * UX) <= T * X)
      by (apply Qmult_le_l; assumption).
    assert (S3 : T * X <= T * (1002 # 10))
      by (clearbody F UF T UT N UN X UX Y UY ZF ZT; lra).
    apply Qmult_le_l in S3; [|exact T0].
    assert (BY : Y < 101)
      by (clearbody F UF T UT N UN X UX Y UY ZF ZT; lra).
    assert (BY' : Y < 128)
      by (clearbody F UF T UT N UN X UX Y UY ZF ZT; lra).
    pose proof (small_exponent mY eY HnY BY') as SY.
    rewrite float_trunc_spec in H by lia. injection H as <-.
    assert (HD : (0 < 2 ^ (- eY))%Z) by (apply Z.pow_pos_nonneg; lia).
    assert (GY : (Z.pos mY < 101 * 2 ^ (- eY))%Z).
    { rewrite Zlt_Qlt.
      assert (E : inject_Z (101 * 2 ^ (- eY)) * 2 ^ eY == 101).
      { rewrite inject_Z_mult, pow2_Z by lia.
        rewrite <- Qmult_assoc, <- pow2_add.
        replace (- eY + eY)%Z with 0%Z by lia. change (2 ^ 0) with 1.
        change (inject_Z 101) with 101. ring. }
      rewrite <- E in BY. unfold Y, fval in BY.
      apply Qmult_lt_r in BY; [exact BY|exact UY0]. }
    split.
    + apply Z.div_pos; lia.
    + assert (Z.pos mY / 2 ^ (- eY) < 101)%Z
        by (apply Z.div_lt_upper_bound; lia).
      lia.
Qed.

End Range.

(** ** The free percentage of an OSD *)

Lemma free_perc_of_total fs us p :
  0 <= fs -> 0 <= us -> free_perc_of fs us = Return p -> 0 < fs + us.
Proof.
  intros Hf Hu H.
  destruct (Z.eq_dec (fs + us) 0) as [E|E]; [|lia].
  assert (fs = 0) as -> by lia. assert (us = 0) as -> by lia.
  discriminate H.
Qed.

(** C2, corrected: when [load_osds] returns, it leaves one object for every
    entry of the OSD dump.  For an entry that is up, the object has status
    [up], its sizes are those, in bytes, of the entry of [osd df] with its
    identifier, and [free_perc] is an integer; when the sizes of the entry
    are not negative, their sum is positive (a load with an empty OSD does
    not return), [free_perc] lies between 0 and 100 whatever the sizes are,
    and, when the sum is below [2^43] KiB (8 PiB), [free_perc] is
    [100 * free / (free + used)] rounded to the nearest integer, a half
    upwards.  For an entry that is down the object has status [down];
    [free_perc], both sizes, the storage type, the eight device and
    partition fields, the configuration and [historic_ops_storage_path]
    are [None], [perf] is the empty mapping, and the object has no
    attribute [historicjs_ops_storage_path]. *)
Theorem load_osds_free_perc st hs ips sums perf lg c' :
  load_osds st (before_osds hs ips sums perf) = (lg, Return c') ->
  Forall2
    (fun d osd =>
       if od_up d then
         osd_status_ osd = Some up /\
         exists df p,
           osd_df_map (osd_df_nodes st) !! od_osd d = Some df /\
           osd_free_space osd = Some (df_kb_avail df * 1024) /\
           osd_used_space osd = Some (df_kb_used df * 1024) /\
           osd_free_perc osd = Some p /\
           (0 <= df_kb_avail df -> 0 <= df_kb_used df ->
            0 < df_kb_avail df + df_kb_used df /\
            0 <= p <= 100 /\
            (df_kb_avail df + df_kb_used df < 2 ^ 43 ->
             p = round_half_up (100 * df_kb_avail df)
                   (df_kb_avail df + df_kb_used df)))
       else
         osd_status_ osd = Some down /\
         osd_free_perc osd = None /\
         osd_used_space osd = None /\ osd_free_space osd = None /\
         osd_storage_type osd = JNull /\
         osd_journal_dev osd = JNull /\ osd_journal_partition osd = JNull /\
         osd_data_dev osd = JNull /\ osd_data_partition osd = JNull /\
         osd_db_dev osd = JNull /\ osd_db_partition osd = JNull /\
         osd_wal_dev osd = JNull /\ osd_wal_partition osd = JNull /\
         osd_config osd = None /\ osd_perf osd = ∅ /\
         osd_historic_ops_storage_path osd = None /\
         osd_historicjs_ops_storage_path osd = NoAttribute)
    (osd_dump_osds st) (osd_heap c').
Proof.
  intros H. apply load_osds_Return in H as (HF & _ & _).
  eapply Forall2_impl; [exact HF|].
  intros d osd (reweight & version & pg_count & host & Hosd). cbv zeta in Hosd.
  destruct (od_up d).
  - apply osd_loaded_Return in Hosd
      as (_ & Hst & df & free_perc & pv & h & hj & Hdf & Hus & Hfs & Hfp & Hof & _).
    split; [rewrite Hst; reflexivity|].
    exists df, free_perc. split; [exact Hdf|]. split; [exact Hfs|].
    split; [exact Hus|]. split; [exact Hfp|].
    intros Hf Hu.
    assert (Hf' : 0 <= df_kb_avail df * 1024) by lia.
    assert (Hu' : 0 <= df_kb_used df * 1024) by lia.
    assert (Ht : 0 < df_kb_avail df + df_kb_used df).
    { pose proof (free_perc_of_total _ _ _ Hf' Hu' Hof). lia. }
    split; [exact Ht|]. split.
    + apply (free_perc_of_range _ _ _ Hf' Hu' Hof).
    + intros Hb. rewrite free_perc_of_rounds in Hof by lia.
      injection Hof as <-. reflexivity.
  - subst osd. repeat split; reflexivity.
Qed.

(** The witness of C2: OSD 0 is up with 3 GiB free of 4 GiB, OSD 1 is
    down. *)
Lemma load_osds_free_perc_witness :
  match load_osds sample_osd_storage sample_cluster with
  | (_, Return c') =>
      exists o0 o1,
        osd_heap c' = [o0; o1] /\
        osd_free_perc o0 = Some 75 /\ osd_free_perc o1 = None
  | (_, Raise _) => False
  end.
Proof.
  assert (Hr : returns (snd (load_osds sample_osd_storage sample_cluster)) = true)
    by (vm_compute; reflexivity).
  unfold sample_cluster in *.
  destruct (load_osds sample_osd_storage _) as [lg [c'|e]] eqn:E;
    [|discriminate Hr].
  pose proof (load_osds_free_perc _ _ _ _ _ _ _ E) as HF.
  cbn [osd_dump_osds sample_osd_storage] in HF.
  apply Forall2_cons_inv_l in HF as (o0 & k0 & H0 & HF & ->).
  apply Forall2_cons_inv_l in HF as (o1 & k1 & H1 & HF & ->).
  apply Forall2_nil_inv_l in HF as ->.
  exists o0, o1. split; [reflexivity|].
  cbn [od_up od_osd] in H0, H1.
  destruct H0 as (_ & df & p & Hdf & _ & _ & Hfp & Hp).
  destruct H1 as (_ & Hnone & _).
  split; [|exact Hnone].
  assert (Hdf0 : osd_df_map (osd_df_nodes sample_osd_storage) !! 0
                 = Some {| df_id := 0; df_kb_used := 1048576;
                           df_kb_avail := 3145728 |})
    by (vm_compute; reflexivity).
  rewrite Hdf0 in Hdf. injection Hdf as <-.
  cbn [df_kb_avail df_kb_used] in Hp.
  destruct Hp as (_ & _ & Hp); [lia|lia|].
  rewrite Hfp, Hp by lia. reflexivity.
Defined.

(** C2 as stated fails, however [round] is read.  With 1 KiB free of
    200 KiB on an OSD that is up, [100 * free / (free + used)] is one half:
    [round()] gives 0, a half going to the even integer, and [free_perc]
    is 1.  With 60725754598939 KiB free and 31985321124632 KiB used,
    [100 * free / (free + used)] is strictly between 64.5 and 65.5, so
    that 65 is the nearest integer whatever becomes of a half, and
    [free_perc] is 66. *)
Lemma free_perc_not_round :
  (let free := 1 in
   let used := 199 in
   2 * (100 * free) = free + used /\
   round_half_even (100 * free) (free + used) = 0 /\
   free_perc_of (free * 1024) (used * 1024) = Return 1 /\
   match snd (load_osds sample_osd_storage_half sample_cluster) with
   | Return c' =>
       option_map (fun osd => (osd_status_ osd, osd_used_space osd,
                               osd_free_space osd, osd_free_perc osd))
         (osd_heap c' !! 0%nat)
       = Some (Some up, Some (used * 1024), Some (free * 1024), Some 1)
   | Raise _ => False
   end) /\
  (let free := 60725754598939 in
   let used := 31985321124632 in
   129 * (free + used) < 200 * free < 131 * (free + used) /\
   round_half_even (100 * free) (free + used) = 65 /\
   round_half_up (100 * free) (free + used) = 65 /\
   free_perc_of (free * 1024) (used * 1024) = Return 66 /\
   match snd (load_osds sample_osd_storage_large sample_cluster) with
   | Return c' =>
       option_map (fun osd => (osd_status_ osd, osd_used_space osd,
                               osd_free_space osd, osd_free_perc osd))
         (osd_heap c' !! 0%nat)
       = Some (Some up, Some (used * 1024), Some (free * 1024), Some 66)
   | Raise _ => False
   end).
Proof.
  cbv zeta. split.
  - split; [reflexivity|]. split; [reflexivity|].
    split; vm_compute; reflexivity.
  - split; [lia|]. split; [reflexivity|]. split; [reflexivity|].
    split; vm_compute; reflexivity.
Qed.


(* ===================================================================== *)
(** * Part III: more properties of the loaders and parsers               *)
(* ===================================================================== *)

(** ** [parse_txt_ceph_config] *)

(** A turn of the loop of [parse_txt_ceph_config]. *)
Lemma config_fold_cons config line lines :
  foldM (fun config line =>
           match split_first "=" line with
           | Some (name, val) => Return (dict_set config (strip name) (strip val))
           | None => Raise ValueError
           end) (line :: lines) config
  = match split_first "=" line with
    | Some (name, val) =>
        foldM (fun config line =>
                 match split_first "=" line with
                 | Some (name, val) => Return (dict_set config (strip name) (strip val))
                 | None => Raise ValueError
                 end) lines (dict_set config (strip name) (strip val))
    | None => Raise ValueError
    end.
Proof. simpl. destruct (split_first "=" line) as [[name val]|]; reflexivity. Qed.

Lemma config_fold_raises lines : forall config line,
  In line lines -> split_first "=" line = None ->
  foldM (fun config line =>
           match split_first "=" line with
           | Some (name, val) => Return (dict_set config (strip name) (strip val))
           | None => Raise ValueError
           end) lines config
  = Raise ValueError.
Proof.
  induction lines as [|l lines IH]; intros config line Hin Hnone; [destruct Hin|].
  rewrite config_fold_cons.
  destruct (split_first "=" l) as [[name val]|] eqn:E; [|reflexivity].
  destruct Hin as [->|Hin]; [congruence|].
  apply (IH _ line Hin Hnone).
Qed.

(** X1: every line of a configuration text needs an [=].
    [parse_txt_ceph_config] raises [ValueError] when a line of the
    stripped text has none; so it does on a text that is empty or white
    space only, which has one empty line. *)
Theorem parse_txt_ceph_config_needs_equals data :
  (forall line,
      In line (split_on newline (strip data)) -> split_first "=" line = None ->
      parse_txt_ceph_config data = Raise ValueError) /\
  (strip data = "" -> parse_txt_ceph_config data = Raise ValueError).
Proof.
  split.
  - intros line Hin Hnone. unfold parse_txt_ceph_config.
    apply (config_fold_raises _ _ line Hin Hnone).
  - intros He. unfold parse_txt_ceph_config. rewrite He. reflexivity.
Qed.

Lemma parse_txt_ceph_config_needs_equals_witness :
  parse_txt_ceph_config ("a = 1" +:+ String newline "b") = Raise ValueError /\
  parse_txt_ceph_config "  " = Raise ValueError.
Proof.
  split.
  - apply (proj1 (parse_txt_ceph_config_needs_equals _) "b");
      [right; left; reflexivity | reflexivity].
  - apply (proj2 (parse_txt_ceph_config_needs_equals _)). reflexivity.
Defined.

Lemma config_fold_keeps lines : forall config config' k,
  foldM (fun config line =>
           match split_first "=" line with
           | Some (name, val) => Return (dict_set config (strip name) (strip val))
           | None => Raise ValueError
           end) lines config = Return config' ->
  (forall line name val,
      In line lines -> split_first "=" line = Some (name, val) -> strip name <> k) ->
  dict_get config' k = dict_get config k.
Proof.
  induction lines as [|l lines IH]; intros config config' k H Hne.
  - injection H as <-. reflexivity.
  - rewrite config_fold_cons in H.
    destruct (split_first "=" l) as [[name val]|] eqn:E; [|discriminate].
    rewrite (IH _ _ k H).
    + rewrite dict_get_set.
      destruct (String.eqb_spec (strip name) k) as [Hk|Hk]; [|reflexivity].
      exfalso. apply (Hne l name val); [left; reflexivity | exact E | exact Hk].
    + intros line n v Hin. apply Hne. right. exact Hin.
Qed.

Lemma config_fold_source lines : forall config config' k v,
  foldM (fun config line =>
           match split_first "=" line with
           | Some (name, val) => Return (dict_set config (strip name) (strip val))
           | None => Raise ValueError
           end) lines config = Return config' ->
  dict_get config' k = Some v ->
  dict_get config k = Some v \/
  exists line name val,
    In line lines /\ split_first "=" line = Some (name, val) /\
    k = strip name /\ v = strip val.
Proof.
  induction lines as [|l lines IH]; intros config config' k v H Hk.
  - injection H as <-. left. exact Hk.
  - rewrite config_fold_cons in H.
    destruct (split_first "=" l) as [[name val]|] eqn:E; [|discriminate].
    destruct (IH _ _ k v H Hk) as [Hget|(line & n & w & Hin & Hs & -> & ->)].
    + rewrite dict_get_set in Hget.
      destruct (String.eqb_spec (strip name) k) as [Hkn|Hkn].
      * injection Hget as <-. right. exists l, name, val.
        split; [left; reflexivity|]. auto.
      * left. exact Hget.
    + right. exists line, n, w. split; [right; exact Hin|]. auto.
Qed.

(** X2: in the dictionary that [parse_txt_ceph_config] returns, a name is
    the text before the first [=] of a line and its value the text after
    it, both stripped of white space; when some name is assigned on more
    than one line, the last line wins; and the dictionary has no other
    entry. *)
Theorem parse_txt_ceph_config_last_wins data config :
  parse_txt_ceph_config data = Return config ->
  (forall pre line post name val,
      split_on newline (strip data) = pre ++ line :: post ->
      split_first "=" line = Some (name, val) ->
      (forall line' name' val',
          In line' post -> split_first "=" line' = Some (name', val') ->
          strip name' <> strip name) ->
      dict_get config (strip name) = Some (strip val)) /\
  (forall k v,
      dict_get config k = Some v ->
      exists line name val,
        In line (split_on newline (strip data)) /\
        split_first "=" line = Some (name, val) /\
        k = strip name /\ v = strip val).
Proof.
  unfold parse_txt_ceph_config. intros H. split.
  - intros pre line post name val Hl Hs Hlast.
    rewrite Hl, foldM_app in H.
    apply obind_Return_inv in H as (c1 & _ & H).
    rewrite config_fold_cons, Hs in H.
    rewrite (config_fold_keeps _ _ _ (strip name) H Hlast), dict_get_set.
    rewrite String.eqb_refl. reflexivity.
  - intros k v Hk.
    destruct (config_fold_source _ _ _ k v H Hk) as [Hnil|Hsrc];
      [discriminate Hnil | exact Hsrc].
Qed.

Lemma parse_txt_ceph_config_last_wins_witness :
  match parse_txt_ceph_config
          (" osd_journal_size = 1024 " +:+ String newline "a=b=c"
           +:+ String newline "osd_journal_size=2048") with
  | Return config =>
      dict_get config "osd_journal_size" = Some "2048" /\
      dict_get config "a" = Some "b=c"
  | Raise _ => False
  end.
Proof.
  destruct (parse_txt_ceph_config _) as [config|e] eqn:E;
    [|vm_compute in E; discriminate E].
  destruct (parse_txt_ceph_config_last_wins _ _ E) as [Hlast _].
  split.
  - apply (Hlast ["osd_journal_size = 1024 "; "a=b=c"] "osd_journal_size=2048" []
             "osd_journal_size" "2048");
      [vm_compute; reflexivity | reflexivity |].
    intros line' n v [].
  - apply (Hlast ["osd_journal_size = 1024 "] "a=b=c" ["osd_journal_size=2048"]
             "a" "b=c"); [vm_compute; reflexivity | reflexivity |].
    intros line' n v [<-|[]] [= <- <-]. discriminate.
Defined.

(** ** [load_osds]: what every object holds *)

(** What [osd_loaded] keeps of the object it is given, and what it reads
    from the folder of the OSD. *)
Lemma osd_loaded_inv st perf base id osd :
  osd_loaded st perf base id = Return osd ->
  osd_id osd = osd_id base /\ osd_reweight osd = osd_reweight base /\
  osd_status_ osd = osd_status_ base /\ osd_host osd = osd_host base /\
  osd_cluster_ip osd = osd_cluster_ip base /\
  osd_public_ip osd = osd_public_ip base /\
  osd_pg_count osd = osd_pg_count base /\ osd_version osd = osd_version base /\
  osd_cmdline osd = None /\
  exists node,
    osd_nodes st !! id = Some node /\
    node_cmdline node = None /\
    osd_procinfo osd = default JNull (node_procinfo node) /\
    py_getitem (node_devs_cfg node) "type" = Return (osd_storage_type osd) /\
    match node_config node with
    | Some text =>
        exists config, parse_txt_ceph_config text = Return config /\
                       osd_config osd = Some config
    | None => osd_config osd = None
    end.
Proof.
  unfold osd_loaded. intros H.
  apply obind_Return_inv in H as (node & Hnode & H).
  apply getitem_Z_Return in Hnode.
  apply obind_Return_inv in H as (storage_type & Htype & H).
  apply obind_Return_inv in H as ([[[[[[[jd jp] dd] dp] bd] bp] wd] wp] & _ & H).
  apply obind_Return_inv in H as (df & _ & H).
  apply obind_Return_inv in H as (free_perc & _ & H).
  apply obind_Return_inv in H as ([[pv h] hj] & _ & H).
  apply obind_Return_inv in H as (config & Hconfig & H).
  apply obind_Return_inv in H as (u & Hcmd & H).
  injection H as <-. simpl.
  repeat (split; [reflexivity|]).
  exists node. split; [exact Hnode|].
  split; [destruct (node_cmdline node); [discriminate Hcmd | reflexivity]|].
  split; [reflexivity|]. split; [exact Htype|].
  destruct (node_config node) as [text|].
  - apply obind_Return_inv in Hconfig as (cfg & Hcfg & Hc).
    injection Hc as <-. exists cfg. auto.
  - injection Hconfig as <-. reflexivity.
Qed.

Lemma osd_entry_fields st ips sums perf d osd :
  osd_entry st ips sums perf d osd ->
  osd_id osd = Some (od_osd d) /\
  osd_status_ osd = Some (if od_up d then up else down) /\
  osd_rw_dict (osd_tree_nodes st) !! od_osd d = Some (osd_reweight osd) /\
  ips !! before_first ":" (od_cluster_addr d) = osd_host osd /\
  is_Some (osd_host osd) /\
  osd_cluster_ip osd = Some (before_first ":" (od_cluster_addr d)) /\
  osd_public_ip osd = Some (before_first ":" (od_public_addr d)) /\
  osd_pg_count osd = Some (default 0 (sums !! od_osd d)) /\
  osd_version osd = osd_versions st !! od_osd d.
Proof.
  intros (rw & host & Hrw & Hhost & H). cbv zeta in H.
  destruct (od_up d).
  - apply osd_loaded_inv in H
      as (-> & -> & -> & -> & -> & -> & -> & -> & _). simpl.
    rewrite Hhost. eauto 10.
  - subst osd. simpl. rewrite Hhost. eauto 10.
Qed.

Lemma load_osd_entry st c d lg c' :
  load_osd st c d = (lg, Return c') ->
  exists osd host,
    osd_entry st (ip2host c) (pg_sum_per_osd c) (perf_data c) d osd /\
    ip2host c !! before_first ":" (od_cluster_addr d) = Some host /\
    osd_heap c' = osd_heap c ++ [osd] /\
    hosts c' = add_osd_id (hosts c) host (od_osd d) /\
    ip2host c' = ip2host c /\ pg_sum_per_osd c' = pg_sum_per_osd c /\
    perf_data c' = perf_data c.
Proof.
  unfold load_osd. intros H.
  apply bind_lift_inv in H as (reweight & Hrw & H).
  apply getitem_Z_Return in Hrw.
  apply bind_Return_inv in H as (l1 & host & l2 & Hhost & H & ->).
  apply bind_Return_inv in H as (l3 & osd & l4 & Hosd & H & ->).
  injection H as <- <-. simpl.
  assert (Hh : ip2host c !! before_first ":" (od_cluster_addr d) = Some host).
  { destruct (ip2host c !! before_first ":" (od_cluster_addr d)) as [h|].
    - injection Hhost as _ ->. reflexivity.
    - discriminate Hhost. }
  exists osd, host. split; [|auto 10].
  exists reweight, host. split; [exact Hrw|]. split; [exact Hh|].
  cbv zeta. destruct (od_up d).
  - unfold lift in Hosd. injection Hosd as _ Ho. exact Ho.
  - injection Hosd as _ <-. reflexivity.
Qed.

Lemma add_osd_id_names hosts h id :
  map host_name (add_osd_id hosts h id) = map host_name hosts.
Proof.
  unfold add_osd_id. revert h.
  induction hosts as [|x hosts IH]; intros [|h]; simpl; try reflexivity.
  f_equal. apply IH.
Qed.

Lemma add_osd_id_lookup hosts h id i host :
  hosts !! i = Some host ->
  exists host',
    add_osd_id hosts h id !! i = Some host' /\
    host_name host' = host_name host /\ host_stor_id host' = host_stor_id host /\
    host_mon_name host' = host_mon_name host /\
    host_perf_monitoring host' = host_perf_monitoring host /\
    host_osd_ids host' = (if decide (i = h) then {[id]} ∪ host_osd_ids host
                          else host_osd_ids host).
Proof.
  intros Hi. unfold add_osd_id. destruct (decide (i = h)) as [->|Hne].
  - rewrite list_lookup_alter_eq, Hi. simpl. eexists. split; [reflexivity|].
    repeat split.
  - rewrite list_lookup_alter_ne by congruence. exists host.
    split; [exact Hi|]. repeat split.
Qed.

(** The loop of [load_osds]: the objects it appends and what it does to
    the hosts. *)
Lemma load_osds_loop_hosts st entries : forall c lg c',
  foldMl (load_osd st) entries c = (lg, Return c') ->
  ip2host c' = ip2host c /\ pg_sum_per_osd c' = pg_sum_per_osd c /\
  perf_data c' = perf_data c /\
  map host_name (hosts c') = map host_name (hosts c) /\
  (exists new,
      Forall2 (osd_entry st (ip2host c) (pg_sum_per_osd c) (perf_data c))
              entries new /\
      osd_heap c' = osd_heap c ++ new) /\
  forall h host,
    hosts c !! h = Some host ->
    exists host',
      hosts c' !! h = Some host' /\
      host_osd_ids host' =
        host_osd_ids host ∪
        list_to_set (map od_osd (entries_of_host (ip2host c) h entries)).
Proof.
  induction entries as [|d entries IH]; intros c lg c' H.
  - injection H as <- <-. repeat (split; [reflexivity|]).
    split; [exists []; rewrite app_nil_r; split; [constructor|reflexivity]|].
    intros h host Hh. exists host. split; [exact Hh|].
    unfold entries_of_host. simpl. rewrite union_empty_r_L. reflexivity.
  - rewrite foldMl_cons in H.
    apply bind_Return_inv in H as (l1 & c1 & l2 & H1 & H & ->).
    apply load_osd_entry in H1
      as (osd & hd & Hosd & Hhd & Hheap & Hhosts & Hip & Hsum & Hperf).
    apply IH in H as (Hip' & Hsum' & Hperf' & Hnames & (new & HF & Hheap') & Hids).
    rewrite Hip, Hsum, Hperf in *.
    repeat (split; [congruence|]).
    split; [rewrite Hnames, Hhosts; apply add_osd_id_names|].
    split.
    + exists (osd :: new). split; [constructor; assumption|].
      rewrite Hheap', Hheap, <- app_assoc. reflexivity.
    + intros h host Hh.
      destruct (add_osd_id_lookup (hosts c) hd (od_osd d) h host Hh)
        as (host1 & Hh1 & _ & _ & _ & _ & Hids1).
      rewrite <- Hhosts in Hh1.
      destruct (Hids h host1 Hh1) as (host' & Hh' & Hids').
      exists host'. split; [exact Hh'|].
      rewrite Hids', Hids1. unfold entries_of_host. rewrite filter_cons.
      destruct (decide (h = hd)) as [->|Hne].
      * rewrite decide_True by exact Hhd. simpl.
        rewrite (union_comm_L {[od_osd d]}), <- union_assoc_L. reflexivity.
      * rewrite decide_False by congruence. reflexivity.
Qed.

(** X3: when [load_osds] returns, every OSD belongs to the host that
    [ip2host] gives for the cluster address of its dump entry (the text
    before the first colon), and holds the reweight of [osd_tree], the
    version of [osd_versions] and the two addresses without their ports;
    the hosts keep their names, and the [osd_ids] of a host have grown by
    exactly the identifiers of the dump entries that resolve to it. *)
Theorem load_osds_hosts st hs ips sums perf lg c' :
  load_osds st (before_osds hs ips sums perf) = (lg, Return c') ->
  Forall2
    (fun d osd =>
       osd_id osd = Some (od_osd d) /\
       ips !! before_first ":" (od_cluster_addr d) = osd_host osd /\
       is_Some (osd_host osd) /\
       osd_cluster_ip osd = Some (before_first ":" (od_cluster_addr d)) /\
       osd_public_ip osd = Some (before_first ":" (od_public_addr d)) /\
       osd_rw_dict (osd_tree_nodes st) !! od_osd d = Some (osd_reweight osd) /\
       osd_version osd = osd_versions st !! od_osd d)
    (osd_dump_osds st) (osd_heap c') /\
  map host_name (hosts c') = map host_name hs /\
  forall h host,
    hs !! h = Some host ->
    exists host',
      hosts c' !! h = Some host' /\
      host_osd_ids host' =
        host_osd_ids host ∪
        list_to_set (map od_osd (entries_of_host ips h (osd_dump_osds st))).
Proof.
  unfold load_osds. intros H.
  apply bind_Return_inv in H as (l1 & c1 & l2 & H1 & H & ->).
  apply bind_lift_inv in H as (keyed & _ & H).
  injection H as <- <-. simpl.
  apply load_osds_loop_hosts in H1
    as (_ & _ & _ & Hnames & (new & HF & Hheap) & Hids).
  simpl in *. subst new.
  split; [|split; [exact Hnames | exact Hids]].
  eapply Forall2_impl; [exact HF|].
  intros d osd Hosd.
  apply osd_entry_fields in Hosd
    as (Hid & _ & Hrw & Hhost & Hsome & Hcip & Hpip & _ & Hver).
  auto 10.
Qed.

Lemma load_osds_hosts_witness :
  match load_osds sample_osd_storage sample_cluster with
  | (_, Return c') =>
      map host_name (hosts c') = ["ceph-1"] /\
      exists host',
        hosts c' !! 0%nat = Some host' /\
        0 ∈ host_osd_ids host' /\ 1 ∈ host_osd_ids host'
  | (_, Raise _) => False
  end.
Proof.
  assert (Hr : returns (snd (load_osds sample_osd_storage sample_cluster)) = true)
    by (vm_compute; reflexivity).
  unfold sample_cluster in *.
  destruct (load_osds sample_osd_storage _) as [lg [c'|e]] eqn:E;
    [|discriminate Hr].
  destruct (load_osds_hosts _ _ _ _ _ _ _ E) as (_ & Hnames & Hids).
  split; [exact Hnames|].
  destruct (Hids 0%nat _ eq_refl) as (host' & Hh & Hset).
  exists host'. split; [exact Hh|].
  assert (Hl : map od_osd (entries_of_host {[ "10.0.0.1" := 0%nat ]} 0
                             (osd_dump_osds sample_osd_storage)) = [0; 1])
    by (vm_compute; reflexivity).
  rewrite Hset, Hl.
  split; apply elem_of_union_r, elem_of_list_to_set.
  - apply list_elem_of_here.
  - apply list_elem_of_further, list_elem_of_here.
Defined.

Lemma load_osds_entries st hs ips sums perf lg c' :
  load_osds st (before_osds hs ips sums perf) = (lg, Return c') ->
  Forall2 (osd_entry st ips sums perf) (osd_dump_osds st) (osd_heap c').
Proof.
  unfold load_osds. intros H.
  apply bind_Return_inv in H as (l1 & c1 & l2 & H1 & H & ->).
  apply bind_lift_inv in H as (keyed & _ & H).
  injection H as <- <-. simpl.
  apply load_osds_loop_hosts in H1 as (_ & _ & _ & _ & (new & HF & Hheap) & _).
  simpl in *. subst new. exact HF.
Qed.

(** X4: [daemon_runs] after [load_osds].  An OSD that is down has no
    configuration, so that [daemon_runs] is false; for an OSD that is up,
    [daemon_runs] tells whether the folder of the OSD has a [config]
    file, and the configuration is that file as [parse_txt_ceph_config]
    reads it. *)
Theorem load_osds_daemon_runs st hs ips sums perf lg c' :
  load_osds st (before_osds hs ips sums perf) = (lg, Return c') ->
  Forall2
    (fun d osd =>
       if od_up d then
         exists node,
           osd_nodes st !! od_osd d = Some node /\
           match node_config node with
           | Some text =>
               daemon_runs osd = true /\
               exists config,
                 parse_txt_ceph_config text = Return config /\
                 osd_config osd = Some config
           | None => daemon_runs osd = false /\ osd_config osd = None
           end
       else daemon_runs osd = false /\ osd_config osd = None)
    (osd_dump_osds st) (osd_heap c').
Proof.
  intros H. apply load_osds_entries in H.
  eapply Forall2_impl; [exact H|].
  intros d osd (rw & host & _ & _ & Hosd). cbv zeta in Hosd.
  destruct (od_up d).
  - apply osd_loaded_inv in Hosd
      as (_ & _ & _ & _ & _ & _ & _ & _ & _ & node & Hnode & _ & _ & _ & Hcfg).
    exists node. split; [exact Hnode|].
    destruct (node_config node) as [text|].
    + destruct Hcfg as (config & Hparse & Hc).
      split; [unfold daemon_runs; rewrite Hc; reflexivity|].
      exists config. auto.
    + split; [unfold daemon_runs; rewrite Hcfg; reflexivity | exact Hcfg].
  - subst osd. split; reflexivity.
Qed.

Lemma load_osds_daemon_runs_witness :
  match load_osds sample_osd_storage sample_cluster with
  | (_, Return c') =>
      exists o0 o1,
        osd_heap c' = [o0; o1] /\
        daemon_runs o0 = true /\ daemon_runs o1 = false /\
        osd_config o0 = Some [("osd_journal_size", "1024")]
  | (_, Raise _) => False
  end.
Proof.
  assert (Hr : returns (snd (load_osds sample_osd_storage sample_cluster)) = true)
    by (vm_compute; reflexivity).
  unfold sample_cluster in *.
  destruct (load_osds sample_osd_storage _) as [lg [c'|e]] eqn:E;
    [|discriminate Hr].
  pose proof (load_osds_daemon_runs _ _ _ _ _ _ _ E) as HF.
  cbn [osd_dump_osds sample_osd_storage] in HF.
  apply Forall2_cons_inv_l in HF as (o0 & k0 & H0 & HF & ->).
  apply Forall2_cons_inv_l in HF as (o1 & k1 & H1 & HF & ->).
  apply Forall2_nil_inv_l in HF as ->.
  exists o0, o1. split; [reflexivity|].
  cbn [od_up od_osd] in H0, H1.
  destruct H0 as (node & Hnode & Hcfg). destruct H1 as (Hdown & _).
  assert (Hn : osd_nodes sample_osd_storage !! 0
               = Some {| node_devs_cfg :=
                           JObj [("type", JStr "filestore"); ("r_data", JStr "/dev/sdb");
                                 ("data", JStr "/dev/sdb1"); ("r_journal", JStr "/dev/sdc");
                                 ("journal", JStr "/dev/sdc1")];
                         node_config := Some "osd_journal_size = 1024";
                         node_cmdline := None;
                         node_procinfo := None |})
    by reflexivity.
  rewrite Hn in Hnode. injection Hnode as <-.
  cbn [node_config] in Hcfg. destruct Hcfg as (Hruns & config & Hparse & Hc).
  split; [exact Hruns|]. split; [exact Hdown|].
  rewrite Hc. f_equal. vm_compute in Hparse. congruence.
Defined.

(** X5: no OSD ever gets a [cmdline].  [get_raw] gives bytes, and
    splitting bytes on the [str] ["\x00"] raises [TypeError], which is not
    the [KeyError] that the code catches: when [load_osds] returns, the
    folder of no OSD that is up has a [cmdline] file, and [cmdline] is
    [None] on every object. *)
Theorem load_osds_cmdline st hs ips sums perf lg c' :
  load_osds st (before_osds hs ips sums perf) = (lg, Return c') ->
  Forall2
    (fun d osd =>
       osd_cmdline osd = None /\
       (od_up d = true ->
        exists node, osd_nodes st !! od_osd d = Some node /\
                     node_cmdline node = None))
    (osd_dump_osds st) (osd_heap c').
Proof.
  intros H. apply load_osds_entries in H.
  eapply Forall2_impl; [exact H|].
  intros d osd (rw & host & _ & _ & Hosd). cbv zeta in Hosd.
  destruct (od_up d).
  - apply osd_loaded_inv in Hosd
      as (_ & _ & _ & _ & _ & _ & _ & _ & Hcmd & node & Hnode & Hnone & _).
    split; [exact Hcmd|]. intros _. exists node. auto.
  - subst osd. split; [reflexivity | discriminate].
Qed.

Lemma load_osds_cmdline_witness :
  match load_osds sample_osd_storage sample_cluster with
  | (_, Return c') => Forall (fun osd => osd_cmdline osd = None) (osd_heap c')
  | (_, Raise _) => False
  end.
Proof.
  assert (Hr : returns (snd (load_osds sample_osd_storage sample_cluster)) = true)
    by (vm_compute; reflexivity).
  unfold sample_cluster in *.
  destruct (load_osds sample_osd_storage _) as [lg [c'|e]] eqn:E;
    [|discriminate Hr].
  pose proof (load_osds_cmdline _ _ _ _ _ _ _ E) as HF.
  apply Forall2_Forall_r with (Q := fun osd => osd_cmdline osd = None) in HF;
    [exact HF|].
  apply Forall_forall. intros d _ osd [Hc _]. exact Hc.
Defined.

(** ** [load_osds]: the order of [osds] *)

Lemma sorted_pairs_inv {A} (R : A -> A -> Prop) a l :
  ForallOrdPairs R (a :: l) -> ForallOrdPairs R l /\ Forall (R a) l.
Proof. inversion 1; auto. Qed.

(** By identifier, and by position in the heap among equal identifiers. *)
Lemma insert_by_id_sorted x l :
  ForallOrdPairs (fun a b : Z * nat =>
                    fst a < fst b \/ (fst a = fst b /\ (snd a < snd b)%nat)) l ->
  Forall (fun y => (snd y < snd x)%nat) l ->
  ForallOrdPairs (fun a b : Z * nat =>
                    fst a < fst b \/ (fst a = fst b /\ (snd a < snd b)%nat))
                 (insert_by_id x l).
Proof.
  induction l as [|y l IH]; intros Hs Hlt; simpl.
  - constructor; constructor.
  - apply sorted_pairs_inv in Hs as [Hs Hy].
    apply Forall_cons in Hlt as [Hyx Hlt].
    destruct (Z.ltb_spec (fst x) (fst y)) as [Hxy|Hxy].
    + constructor; [|constructor; assumption].
      constructor; [left; exact Hxy|].
      eapply Forall_impl; [exact Hy|]. simpl. intros z Hz. left. lia.
    + constructor; [|apply IH; assumption].
      rewrite (insert_by_id_perm x l). constructor; [|exact Hy].
      destruct (Z.eq_dec (fst y) (fst x)); [right; split; assumption | left; lia].
Qed.

Lemma sort_by_id_sorted l :
  ForallOrdPairs (fun a b : Z * nat => (snd a < snd b)%nat) l ->
  ForallOrdPairs (fun a b : Z * nat =>
                    fst a < fst b \/ (fst a = fst b /\ (snd a < snd b)%nat))
                 (sort_by_id l).
Proof.
  unfold sort_by_id.
  assert (H : forall acc,
             ForallOrdPairs (fun a b : Z * nat =>
                               fst a < fst b \/ (fst a = fst b /\ (snd a < snd b)%nat))
                            acc ->
             ForallOrdPairs (fun a b : Z * nat => (snd a < snd b)%nat) l ->
             Forall (fun x => Forall (fun y => (snd y < snd x)%nat) acc) l ->
             ForallOrdPairs (fun a b : Z * nat =>
                               fst a < fst b \/ (fst a = fst b /\ (snd a < snd b)%nat))
                            (fold_left (fun acc x => insert_by_id x acc) l acc)).
  { induction l as [|x l IH]; intros acc Hacc Hl Hall; simpl; [exact Hacc|].
    apply sorted_pairs_inv in Hl as [Hl Hx].
    apply Forall_cons in Hall as [Hxacc Hall].
    apply IH; [apply insert_by_id_sorted; assumption | exact Hl |].
    apply Forall_forall. intros z Hz.
    rewrite (insert_by_id_perm x acc). constructor.
    - rewrite Forall_forall in Hx. apply Hx. exact Hz.
    - rewrite Forall_forall in Hall. apply Hall. exact Hz. }
  intros Hl. apply H; [constructor | exact Hl |].
  apply Forall_forall. intros x _. constructor.
Qed.

Lemma sorted_pairs_lookup {A} (R : A -> A -> Prop) l : forall i j a b,
  ForallOrdPairs R l -> (i < j)%nat ->
  l !! i = Some a -> l !! j = Some b -> R a b.
Proof.
  induction l as [|x l IH]; intros i j a b Hs Hij Ha Hb; [discriminate Ha|].
  apply sorted_pairs_inv in Hs as [Hs Hx].
  destruct j as [|j]; [lia|]. simpl in Hb.
  destruct i as [|i]; simpl in Ha.
  - injection Ha as <-. rewrite Forall_forall in Hx. apply Hx.
    eapply list_elem_of_lookup_2. exact Hb.
  - apply (IH i j); [exact Hs | lia | exact Ha | exact Hb].
Qed.

Lemma seq_keys_sorted heap : forall n a keyed,
  mapM (osd_key heap) (seq a n) = Return keyed ->
  ForallOrdPairs (fun x y : Z * nat => (snd x < snd y)%nat) keyed /\
  Forall (fun k => (a <= snd k)%nat /\
                   exists osd, heap !! snd k = Some osd /\ osd_id osd = Some (fst k))
         keyed.
Proof.
  induction n as [|n IH]; intros a keyed H; simpl in H.
  - injection H as <-. split; constructor.
  - apply obind_Return_inv in H as (k & Hk & H).
    apply obind_Return_inv in H as (ks & Hks & H). injection H as <-.
    apply IH in Hks as [Hs Hall].
    unfold osd_key in Hk.
    destruct (heap !! a) as [osd|] eqn:Ha; [|discriminate Hk].
    destruct (osd_id osd) as [id|] eqn:Hid; [|discriminate Hk].
    injection Hk as <-. split.
    + constructor; [|exact Hs].
      eapply Forall_impl; [exact Hall|]. simpl. intros z [Hz _]. lia.
    + constructor.
      * split; [simpl; lia|]. exists osd. auto.
      * eapply Forall_impl; [exact Hall|]. simpl. intros z [Hz Ho].
        split; [lia | exact Ho].
Qed.

(** X6: when [load_osds] returns, [osds] is in the order of the
    identifiers, and objects of equal identifiers keep the order of the
    dump (the sort is stable): of two places [i < j] of the list, the
    first holds the smaller identifier, or the same identifier and the
    object that was built first. *)
Theorem load_osds_sorted st hs ips sums perf lg c' :
  load_osds st (before_osds hs ips sums perf) = (lg, Return c') ->
  forall i j r1 r2,
    (i < j)%nat -> osds c' !! i = Some r1 -> osds c' !! j = Some r2 ->
    exists o1 o2 id1 id2,
      osd_heap c' !! r1 = Some o1 /\ osd_heap c' !! r2 = Some o2 /\
      osd_id o1 = Some id1 /\ osd_id o2 = Some id2 /\
      (id1 < id2 \/ (id1 = id2 /\ (r1 < r2)%nat)).
Proof.
  unfold load_osds. intros H.
  apply bind_Return_inv in H as (l1 & c1 & l2 & H1 & H & ->).
  apply bind_lift_inv in H as (keyed & Hk & H).
  injection H as <- <-. simpl.
  apply load_osds_loop in H1 as (_ & new & _ & _ & Hosds & _).
  simpl in Hosds. rewrite Hosds in Hk.
  apply seq_keys_sorted in Hk as [Hs Hall].
  pose proof (sort_by_id_sorted keyed Hs) as Hsorted.
  assert (Hin : Forall (fun k => exists osd, osd_heap c1 !! snd k = Some osd /\
                                             osd_id osd = Some (fst k))
                       (sort_by_id keyed)).
  { rewrite (sort_by_id_perm keyed).
    eapply Forall_impl; [exact Hall|]. simpl. intros z [_ Hz]. exact Hz. }
  intros i j r1 r2 Hij Hi Hj.
  rewrite list_lookup_fmap in Hi, Hj.
  destruct (sort_by_id keyed !! i) as [[id1 r1']|] eqn:Ei; [|discriminate Hi].
  destruct (sort_by_id keyed !! j) as [[id2 r2']|] eqn:Ej; [|discriminate Hj].
  simpl in Hi, Hj. injection Hi as ->. injection Hj as ->.
  rewrite Forall_forall in Hin.
  destruct (Hin _ (list_elem_of_lookup_2 _ _ _ Ei)) as (o1 & Ho1 & Hid1).
  destruct (Hin _ (list_elem_of_lookup_2 _ _ _ Ej)) as (o2 & Ho2 & Hid2).
  exists o1, o2, id1, id2. repeat (split; [assumption|]).
  apply (sorted_pairs_lookup _ _ i j (id1, r1) (id2, r2) Hsorted Hij Ei Ej).
Qed.

Lemma load_osds_sorted_witness :
  match load_osds sample_osd_storage_reversed sample_cluster with
  | (_, Return c') =>
      osds c' = [1; 0]%nat /\
      exists o1 o2 id1 id2,
        osd_heap c' !! 1%nat = Some o1 /\ osd_heap c' !! 0%nat = Some o2 /\
        osd_id o1 = Some id1 /\ osd_id o2 = Some id2 /\
        (id1 < id2 \/ (id1 = id2 /\ (1 < 0)%nat))
  | (_, Raise _) => False
  end.
Proof.
  assert (Hr : match snd (load_osds sample_osd_storage_reversed sample_cluster) with
               | Return c' => osds c'
               | Raise _ => []
               end = [1; 0]%nat)
    by (vm_compute; reflexivity).
  unfold sample_cluster in *.
  destruct (load_osds sample_osd_storage_reversed _) as [lg [c'|e]] eqn:E;
    [|discriminate Hr].
  simpl in Hr. split; [exact Hr|].
  apply (load_osds_sorted _ _ _ _ _ _ _ E 0%nat 1%nat); [lia | |];
    rewrite Hr; reflexivity.
Defined.

(** ** [load_PG_distribution] with a [pg_dump] *)

Lemma default_incr `{Countable K} (m : gmap K Z) (k k' : K) :
  default 0 (incr m k !! k')
  = default 0 (m !! k') + (if decide (k = k') then 1 else 0).
Proof.
  unfold incr. destruct (decide (k = k')) as [->|Hne].
  - rewrite lookup_insert_eq. reflexivity.
  - rewrite lookup_insert_ne by exact Hne. lia.
Qed.

(** What a run of credits to the pool [name] adds to the three counters. *)
Lemma credits_count name acting : forall c o n,
  let c' := fold_left (fun c osd_num => credit c osd_num name) acting c in
  default 0 (sum_per_osd c' !! o)
  = default 0 (sum_per_osd c !! o) + Z.of_nat (count_occ Z.eq_dec acting o) /\
  default 0 (sum_per_pool c' !! n)
  = default 0 (sum_per_pool c !! n)
    + (if decide (name = n) then Z.of_nat (length acting) else 0) /\
  default 0 (default ∅ (osd_pool_pg_2d c' !! o) !! n)
  = default 0 (default ∅ (osd_pool_pg_2d c !! o) !! n)
    + (if decide (name = n) then Z.of_nat (count_occ Z.eq_dec acting o) else 0).
Proof.
  induction acting as [|x acting IH]; intros c o n; cbv zeta.
  - simpl. destruct (decide (name = n)); lia.
  - simpl fold_left. specialize (IH (credit c x name) o n). cbv zeta in IH.
    destruct IH as (H1 & H2 & H3). rewrite H1, H2, H3. clear H1 H2 H3.
    change (sum_per_osd (credit c x name)) with (incr (sum_per_osd c) x).
    change (sum_per_pool (credit c x name)) with (incr (sum_per_pool c) name).
    change (osd_pool_pg_2d (credit c x name))
      with (<[x := incr (default ∅ (osd_pool_pg_2d c !! x)) name]>
              (osd_pool_pg_2d c)).
    rewrite !default_incr. simpl count_occ. simpl length.
    split; [|split].
    + destruct (Z.eq_dec x o) as [->|Hne].
      * rewrite decide_True by reflexivity. lia.
      * rewrite decide_False by exact Hne. lia.
    + destruct (decide (name = n)); lia.
    + destruct (Z.eq_dec x o) as [->|Hne].
      * rewrite lookup_insert_eq. simpl. rewrite default_incr.
        destruct (decide (name = n)); lia.
      * rewrite lookup_insert_ne by exact Hne.
        destruct (decide (name = n)); lia.
Qed.

(** The inner loop: no credit for an empty acting set, else the pool must
    be known. *)
Lemma credit_fold (id2name : gmap Z string) (pool : Z) acting : forall c c',
  foldM (fun c (osd_num : Z) =>
           match id2name !! pool with
           | Some pool_name => Return (credit c osd_num pool_name)
           | None => Raise KeyError
           end) acting c = Return c' ->
  (acting = [] /\ c' = c) \/
  exists name, id2name !! pool = Some name /\
               c' = fold_left (fun c osd_num => credit c osd_num name) acting c.
Proof.
  destruct acting as [|x acting]; intros c c' H.
  - injection H as <-. left. auto.
  - right. destruct (id2name !! pool) as [name|] eqn:E; [|discriminate H].
    exists name. split; [reflexivity|].
    revert c c' H. generalize (x :: acting). clear x acting.
    induction l as [|y l IH]; intros c c' H; simpl in *.
    + injection H as <-. reflexivity.
    + apply IH. exact H.
Qed.

Lemma acting_of_pool_cons id2name name pg pgs :
  acting_of_pool id2name name (pg :: pgs)
  = (if decide (pg_pool id2name pg = Some name) then acting pg else [])
    ++ acting_of_pool id2name name pgs.
Proof.
  unfold acting_of_pool. rewrite filter_cons.
  destruct (decide (pg_pool id2name pg = Some name)); reflexivity.
Qed.

Lemma pg_stats_count id2name pg_stats : forall c c' o n,
  foldM (pgs_of_stat id2name) pg_stats c = Return c' ->
  default 0 (sum_per_osd c' !! o)
  = default 0 (sum_per_osd c !! o)
    + Z.of_nat (count_occ Z.eq_dec (concat (map acting pg_stats)) o) /\
  default 0 (sum_per_pool c' !! n)
  = default 0 (sum_per_pool c !! n)
    + Z.of_nat (length (acting_of_pool id2name n pg_stats)) /\
  default 0 (default ∅ (osd_pool_pg_2d c' !! o) !! n)
  = default 0 (default ∅ (osd_pool_pg_2d c !! o) !! n)
    + Z.of_nat (count_occ Z.eq_dec (acting_of_pool id2name n pg_stats) o).
Proof.
  induction pg_stats as [|pg pgs IH]; intros c c' o n H.
  - injection H as <-. unfold acting_of_pool. simpl. lia.
  - simpl in H. apply obind_Return_inv in H as (c1 & H1 & H).
    destruct (IH _ _ o n H) as (E1 & E2 & E3). rewrite E1, E2, E3. clear E1 E2 E3.
    unfold pgs_of_stat in H1.
    apply obind_Return_inv in H1 as (pool & Hpool & H1).
    rewrite acting_of_pool_cons. simpl map. simpl concat.
    rewrite !count_occ_app, length_app, !Nat2Z.inj_add.
    assert (Hpp : pg_pool id2name pg = id2name !! pool)
      by (unfold pg_pool; rewrite Hpool; reflexivity).
    apply credit_fold in H1 as [[Hnil ->]|(name & Hname & ->)].
    + rewrite Hnil. destruct (decide (pg_pool id2name pg = Some n)); simpl; lia.
    + destruct (credits_count name (acting pg) c o n) as (E1 & E2 & E3).
      rewrite E1, E2, E3.
      destruct (decide (name = n)) as [->|Hne].
      * rewrite decide_True by congruence. lia.
      * rewrite decide_False by congruence. simpl. lia.
Qed.

(** X7: with a [pg_dump], [load_PG_distribution] logs nothing and counts
    one placement group for every OSD of every acting set:
    [sum_per_osd[o]] is the number of times [o] occurs in the acting
    sets, [sum_per_pool[n]] the total length of the acting sets of the
    placement groups of pool [n], and [osd_pool_pg_2d[o][n]] the number
    of times [o] occurs in those (an absent key counting as zero). *)
Theorem load_PG_distribution_counts pg_stats osd_lspools txt_osd lg c :
  load_PG_distribution (Some pg_stats) osd_lspools txt_osd = (lg, Return c) ->
  lg = [] /\
  forall o n,
    default 0 (sum_per_osd c !! o)
    = Z.of_nat (count_occ Z.eq_dec (concat (map acting pg_stats)) o) /\
    default 0 (sum_per_pool c !! n)
    = Z.of_nat (length (acting_of_pool (pool_id2name osd_lspools) n pg_stats)) /\
    default 0 (default ∅ (osd_pool_pg_2d c !! o) !! n)
    = Z.of_nat (count_occ Z.eq_dec
                  (acting_of_pool (pool_id2name osd_lspools) n pg_stats) o).
Proof.
  unfold load_PG_distribution, lift. intros [= <- H].
  split; [reflexivity|]. intros o n.
  destruct (pg_stats_count _ _ _ _ o n H) as (E1 & E2 & E3).
  rewrite E1, E2, E3. simpl. rewrite !lookup_empty. simpl. auto.
Qed.

Lemma load_PG_distribution_counts_witness :
  match load_PG_distribution (Some sample_pg_stats) sample_lspools [] with
  | (_, Return c) =>
      default 0 (sum_per_osd c !! 1) = 2 /\
      default 0 (sum_per_pool c !! "rbd") = 4 /\
      default 0 (default ∅ (osd_pool_pg_2d c !! 0) !! "cephfs") = 1 /\
      default 0 (sum_per_osd c !! 7) = 0
  | (_, Raise _) => False
  end.
Proof.
  assert (Hr : returns (snd (load_PG_distribution (Some sample_pg_stats)
                               sample_lspools [])) = true)
    by (vm_compute; reflexivity).
  destruct (load_PG_distribution _ _ _) as [lg [c|e]] eqn:E; [|discriminate Hr].
  destruct (load_PG_distribution_counts _ _ _ _ _ E) as [_ H].
  destruct (H 1 "rbd") as (H1 & H2 & _).
  destruct (H 0 "cephfs") as (_ & _ & H3).
  destruct (H 7 "rbd") as (H4 & _).
  rewrite H1, H2, H3, H4. repeat split; vm_compute; reflexivity.
Defined.

(** X8: the errors of [load_PG_distribution] on a [pg_dump].  A
    placement group whose [pgid] does not start with an integer makes
    the load raise, and so does one with an OSD in its acting set whose
    pool number is not in the pool listing; a placement group with an
    empty acting set never has its pool looked up. *)
Theorem load_PG_distribution_unknown_pool pg_stats osd_lspools txt_osd pg :
  In pg pg_stats ->
  raises (int_of_str (before_first "." (pgid pg))) \/
  (acting pg <> [] /\ pg_pool (pool_id2name osd_lspools) pg = None) ->
  mraises (load_PG_distribution (Some pg_stats) osd_lspools txt_osd).
Proof.
  intros Hin Hbad. unfold load_PG_distribution, lift, mraises. simpl.
  apply (foldM_raises _ _ pg _ Hin). intros c. unfold pgs_of_stat.
  destruct Hbad as [[e He]|[Hact Hpool]].
  - rewrite He. exists e. reflexivity.
  - unfold pg_pool in Hpool.
    destruct (int_of_str (before_first "." (pgid pg))) as [pool|e];
      [|exists e; reflexivity].
    simpl. destruct (acting pg) as [|x l]; [contradiction|].
    simpl. rewrite Hpool. exists KeyError. reflexivity.
Qed.

Lemma load_PG_distribution_unknown_pool_witness :
  mraises (load_PG_distribution
             (Some [{| pgid := "1.0"; acting := [0] |};
                    {| pgid := "3.0"; acting := [1] |}])
             sample_lspools []) /\
  snd (load_PG_distribution
         (Some [{| pgid := "1.0"; acting := [0] |};
                {| pgid := "3.0"; acting := [] |}])
         sample_lspools [])
  = Return (credit no_pgs 0 "rbd").
Proof.
  split; [|reflexivity].
  apply (load_PG_distribution_unknown_pool _ _ _ {| pgid := "3.0"; acting := [1] |}).
  - right. left. reflexivity.
  - right. split; [discriminate | reflexivity].
Defined.

(** X9: [pg_count] after [load_PG_distribution] and [load_osds], as
    [load] runs them.  With a [pg_dump], the [pg_count] of every OSD is
    the number of times its identifier occurs in the acting sets;
    without one it is 0 on every OSD, since nothing was counted. *)
Theorem load_osds_pg_count pg_dump osd_lspools txt_osd lg1 pgs
    st hs ips perf lg c' :
  load_PG_distribution pg_dump osd_lspools txt_osd = (lg1, Return pgs) ->
  load_osds st (before_osds hs ips (sum_per_osd pgs) perf) = (lg, Return c') ->
  Forall2
    (fun d osd =>
       osd_pg_count osd
       = Some match pg_dump with
              | Some pg_stats =>
                  Z.of_nat (count_occ Z.eq_dec (concat (map acting pg_stats))
                                      (od_osd d))
              | None => 0
              end)
    (osd_dump_osds st) (osd_heap c').
Proof.
  intros Hpg H. apply load_osds_entries in H.
  eapply Forall2_impl; [exact H|].
  intros d osd Hosd.
  apply osd_entry_fields in Hosd as (_ & _ & _ & _ & _ & _ & _ & Hcount & _).
  rewrite Hcount. f_equal.
  destruct pg_dump as [pg_stats|].
  - unfold load_PG_distribution, lift in Hpg. injection Hpg as _ Hpg.
    destruct (pg_stats_count _ _ _ _ (od_osd d) "" Hpg) as (E1 & _).
    rewrite E1. simpl. rewrite lookup_empty. reflexivity.
  - unfold load_PG_distribution in Hpg.
    pose proof (pgs_fold_cases (pool_id2name osd_lspools) no_pgs false txt_osd) as Hc.
    cbv zeta in Hc.
    destruct (foldMl (pgs_of_entry (pool_id2name osd_lspools)) txt_osd (no_pgs, false))
      as [l [st0|e]]; simpl in Hc, Hpg; [|discriminate Hpg].
    injection Hpg as _ <-.
    destruct Hc as [[[e He]|[b' Hb]] _]; [discriminate He|].
    injection Hb as ->. simpl. rewrite lookup_empty. reflexivity.
Qed.

Lemma load_osds_pg_count_witness :
  match load_PG_distribution (Some sample_pg_stats) sample_lspools [] with
  | (_, Return pgs) =>
      match load_osds sample_osd_storage
              (before_osds sample_osd_hosts {[ "10.0.0.1" := 0%nat ]}
                           (sum_per_osd pgs) None) with
      | (_, Return c') =>
          exists o0 o1, osd_heap c' = [o0; o1] /\
                        osd_pg_count o0 = Some 2 /\ osd_pg_count o1 = Some 2
      | (_, Raise _) => False
      end
  | (_, Raise _) => False
  end.
Proof.
  assert (Hr : match load_PG_distribution (Some sample_pg_stats) sample_lspools [] with
               | (_, Return pgs) =>
                   returns (snd (load_osds sample_osd_storage
                                   (before_osds sample_osd_hosts
                                      {[ "10.0.0.1" := 0%nat ]}
                                      (sum_per_osd pgs) None)))
               | (_, Raise _) => false
               end = true)
    by (vm_compute; reflexivity).
  revert Hr.
  destruct (load_PG_distribution _ _ _) as [lg1 [pgs|e]] eqn:E1; [|discriminate].
  intros Hr2.
  destruct (load_osds _ _) as [lg [c'|e]] eqn:E2; [|discriminate Hr2].
  pose proof (load_osds_pg_count _ _ _ _ _ _ _ _ _ _ _ E1 E2) as HF.
  cbn [osd_dump_osds sample_osd_storage] in HF.
  apply Forall2_cons_inv_l in HF as (o0 & k0 & H0 & HF & ->).
  apply Forall2_cons_inv_l in HF as (o1 & k1 & H1 & HF & ->).
  apply Forall2_nil_inv_l in HF as ->.
  exists o0, o1. split; [reflexivity|]. split; [exact H0 | exact H1].
Defined.

(** ** [load_pools]: the pools loaded *)

Lemma add_pool_keys is_luminous infos : forall pools pools',
  foldM (add_pool is_luminous) infos pools = Return pools' ->
  forall key,
    is_Some (pools' !! key) <->
    is_Some (pools !! key) \/
    exists info pid, In info infos /\ py_getitem info "pool" = Return pid /\
                     py_int pid = Return key.
Proof.
  induction infos as [|info infos IH]; intros pools pools' H key.
  - injection H as <-. split; [auto | intros [H|(i & p & [] & _)]; exact H].
  - simpl in H. apply obind_Return_inv in H as (pools1 & H1 & H).
    rewrite (IH _ _ H key). clear IH H.
    unfold add_pool in H1.
    apply obind_Return_inv in H1 as (pool_id & Hid & H1).
    apply obind_Return_inv in H1 as (name & _ & H1).
    apply obind_Return_inv in H1 as (size & _ & H1).
    apply obind_Return_inv in H1 as (min_size & _ & H1).
    apply obind_Return_inv in H1 as (pg & _ & H1).
    apply obind_Return_inv in H1 as (pgp & _ & H1).
    apply obind_Return_inv in H1 as (crush_rule & _ & H1).
    apply obind_Return_inv in H1 as (k & Hk & H1).
    injection H1 as <-. rewrite lookup_insert_is_Some. split.
    + intros [[<- | [_ H]]|(i & p & Hin & Hp)].
      * right. exists info, pool_id. split; [left; reflexivity|]. auto.
      * left. exact H.
      * right. exists i, p. split; [right; exact Hin | exact Hp].
    + intros [H|(i & p & [<-|Hin] & Hp & Hkey)].
      * destruct (decide (k = key)); [left; left; assumption|].
        left. right. auto.
      * left. left. congruence.
      * right. exists i, p. auto.
Qed.

Lemma merge_usage_keys pools pool_part pools' :
  merge_usage pools pool_part = Return pools' ->
  (forall key, is_Some (pools' !! key) <-> is_Some (pools !! key)) /\
  exists id key,
    py_getitem pool_part "id" = Return id /\ py_int id = Return key /\
    is_Some (pools !! key).
Proof.
  assert (Hpart : forall key pool,
             pool_of_part pools pool_part = Return (key, pool) ->
             pools !! key = Some pool /\
             exists id, py_getitem pool_part "id" = Return id /\
                        py_int id = Return key).
  { unfold pool_of_part. intros key pool H.
    apply obind_Return_inv in H as (id & Hid & H).
    apply obind_Return_inv in H as (k & Hk & H).
    destruct (pools !! k) as [p|] eqn:E; [|discriminate H].
    injection H as <- <-. split; [exact E|]. exists id. auto. }
  assert (Hins : forall key pool x,
             pools !! key = Some pool ->
             forall k, is_Some (<[key := x]> pools !! k) <-> is_Some (pools !! k)).
  { intros key pool x Hk k. rewrite lookup_insert_is_Some. split.
    - intros [<-|[_ H]]; [rewrite Hk; eauto | exact H].
    - intros H. destruct (decide (key = k)); [left; assumption | right; auto]. }
  unfold merge_usage. intros H.
  apply obind_Return_inv in H as (has & _ & H).
  destruct (negb has).
  - apply obind_Return_inv in H as ([key pool] & Hp & H).
    apply obind_Return_inv in H as (fields & _ & H). injection H as <-.
    destruct (Hpart _ _ Hp) as (Hk & id & Hid & Hint).
    split; [apply (Hins key pool); exact Hk|].
    exists id, key. rewrite Hk. eauto.
  - apply obind_Return_inv in H as (categories & _ & H).
    apply obind_Return_inv in H as (n & _ & H).
    apply obind_Return_inv in H as (u & _ & H).
    apply obind_Return_inv in H as (first & _ & H).
    apply obind_Return_inv in H as (cat & _ & H).
    apply obind_Return_inv in H as (fields & _ & H).
    apply obind_Return_inv in H as ([key pool] & Hp & H). injection H as <-.
    destruct (Hpart _ _ Hp) as (Hk & id & Hid & Hint).
    split; [apply (Hins key pool); exact Hk|].
    exists id, key. rewrite Hk. eauto.
Qed.

Lemma merge_usage_fold_keys parts : forall pools pools',
  foldM merge_usage parts pools = Return pools' ->
  (forall key, is_Some (pools' !! key) <-> is_Some (pools !! key)) /\
  Forall (fun part =>
            exists id key,
              py_getitem part "id" = Return id /\ py_int id = Return key /\
              is_Some (pools !! key)) parts.
Proof.
  induction parts as [|part parts IH]; intros pools pools' H.
  - injection H as <-. split; [reflexivity | constructor].
  - simpl in H. apply obind_Return_inv in H as (pools1 & H1 & H).
    apply merge_usage_keys in H1 as (Hk1 & Hpart).
    apply IH in H as (Hk & Hall).
    split; [intros key; rewrite Hk; apply Hk1|].
    constructor; [exact Hpart|].
    eapply Forall_impl; [exact Hall|]. simpl.
    intros p (id & key & Hid & Hint & Hs). exists id, key.
    rewrite <- Hk1. auto.
Qed.

(** X10: the pools that [load_pools] returns are those of
    [osd_dump['pools']], under the keys [int(info['pool'])]: the records
    of [rados_df] add no pool, and each of them must name, by its [id],
    a pool of [osd_dump] (with an unknown [id], [load_pools] raises
    [KeyError] and returns nothing). *)
Theorem load_pools_keys is_luminous osd_dump rados_df pools :
  load_pools is_luminous osd_dump rados_df = Return pools ->
  exists infos parts,
    (do l <- py_getitem osd_dump "pools"; py_iter l) = Return infos /\
    (do l <- py_getitem rados_df "pools"; py_iter l) = Return parts /\
    (forall key,
        is_Some (pools !! key) <->
        exists info pid, In info infos /\ py_getitem info "pool" = Return pid /\
                         py_int pid = Return key) /\
    Forall (fun part =>
              exists id key,
                py_getitem part "id" = Return id /\ py_int id = Return key /\
                is_Some (pools !! key)) parts.
Proof.
  unfold load_pools. intros H.
  apply obind_Return_inv in H as (infos & Hinfos & H).
  apply obind_Return_inv in H as (pools0 & H0 & H).
  apply obind_Return_inv in H as (parts & Hparts & H).
  exists infos, parts. split; [exact Hinfos|]. split; [exact Hparts|].
  apply merge_usage_fold_keys in H as (Hk & Hall).
  pose proof (add_pool_keys _ _ _ _ H0) as Hk0.
  split.
  - intros key. rewrite Hk, Hk0. rewrite lookup_empty. split.
    + intros [[x Hx]|H]; [discriminate Hx | exact H].
    + intros H. right. exact H.
  - eapply Forall_impl; [exact Hall|]. simpl.
    intros p (id & key & Hid & Hint & Hs). exists id, key.
    rewrite Hk. auto.
Qed.

Lemma load_pools_keys_witness :
  match load_pools false (JObj [("pools", JList [sample_pool_info])])
                   (JObj [("pools", JList [JObj sample_usage_one])]) with
  | Return pools => is_Some (pools !! 1) /\ pools !! 2 = None
  | Raise _ => False
  end.
Proof.
  assert (Hr : returns (load_pools false (JObj [("pools", JList [sample_pool_info])])
                          (JObj [("pools", JList [JObj sample_usage_one])])) = true)
    by (vm_compute; reflexivity).
  destruct (load_pools _ _ _) as [pools|e] eqn:E; [|discriminate Hr].
  destruct (load_pools_keys _ _ _ _ E) as (infos & parts & Hinfos & _ & Hkeys & _).
  simpl in Hinfos. injection Hinfos as <-.
  split.
  - apply Hkeys. exists sample_pool_info, (JInt 1).
    split; [left; reflexivity|]. split; reflexivity.
  - destruct (pools !! 2) as [p|] eqn:E2; [|reflexivity].
    destruct (proj1 (Hkeys 2) (ex_intro _ p E2)) as (info & pid & [<-|[]] & Hp & Hk).
    simpl in Hp. injection Hp as <-. discriminate Hk.
Defined.

(** ** [load_monitors]: what the hosts learn *)

Lemma assign_monitor_hosts hosts n hosts' :
  assign_monitor hosts n n = Some hosts' ->
  Forall2 (fun h h' => h' = h \/ (n = JStr (host_name h) /\ h' = set_mon_name h n))
          hosts hosts' /\
  exists h', In h' hosts' /\ n = JStr (host_name h') /\ host_mon_name h' = n.
Proof.
  revert hosts'. induction hosts as [|h hs IH]; intros hosts'; simpl; [discriminate|].
  destruct (is_str (host_name h) n) eqn:E.
  - intros [= <-]. apply is_str_true in E. split.
    + constructor; [right; auto|]. apply Forall2_same_length_lookup_2; [reflexivity|].
      intros i x y Hx Hy. left. congruence.
    + exists (set_mon_name h n). split; [left; reflexivity|]. auto.
  - destruct (assign_monitor hs n n) as [hs'|]; [|discriminate].
    intros [= <-]. destruct (IH hs' eq_refl) as (HF & h' & Hin & Hh).
    split; [constructor; [left; reflexivity | exact HF]|].
    exists h'. split; [right; exact Hin | exact Hh].
Qed.

Lemma Forall2_In_l {A B} (R : A -> B -> Prop) l k x :
  Forall2 R l k -> In x l -> exists y, In y k /\ R x y.
Proof.
  induction 1 as [|a b l k Hab HF IH]; intros Hin; [destruct Hin|].
  destruct Hin as [->|Hin].
  - exists b. split; [left; reflexivity | exact Hab].
  - destruct (IH Hin) as (y & Hy & Hr). exists y. split; [right; exact Hy | exact Hr].
Qed.

Lemma load_monitors_loop is_luminous srvs : forall hosts mons lg hosts' mons',
  foldMl (load_monitor is_luminous) srvs (hosts, mons) = (lg, Return (hosts', mons')) ->
  Forall2 (fun h h' =>
             host_name h' = host_name h /\ host_stor_id h' = host_stor_id h /\
             host_osd_ids h' = host_osd_ids h /\
             host_perf_monitoring h' = host_perf_monitoring h /\
             (host_mon_name h' = host_mon_name h \/
              host_mon_name h' = JStr (host_name h)))
          hosts hosts' /\
  exists new,
    mons' = mons ++ new /\
    Forall (fun m => exists h', In h' hosts' /\ mon_name m = JStr (host_name h') /\
                                host_mon_name h' = mon_name m) new.
Proof.
  induction srvs as [|srv srvs IH]; intros hosts mons lg hosts' mons' H.
  - injection H as <- <- <-. split.
    + apply Forall2_same_length_lookup_2; [reflexivity|].
      intros i x y Hx Hy. assert (x = y) as -> by congruence. auto 10.
    + exists []. rewrite app_nil_r. split; [reflexivity | constructor].
  - rewrite foldMl_cons in H.
    apply bind_Return_inv in H as (l1 & [hs1 ms1] & l2 & H1 & H & ->).
    apply IH in H as (HF & new & -> & Hnew). clear IH.
    unfold load_monitor in H1.
    apply bind_lift_inv in H1 as (health & _ & H1).
    apply bind_lift_inv in H1 as (name & _ & H1).
    destruct (assign_monitor hosts name name) as [hs|] eqn:Ha; [|discriminate].
    apply assign_monitor_hosts in Ha as (Hstep & h1 & Hin1 & Hn1 & Hm1).
    apply bind_lift_inv in H1 as (kb & _ & H1).
    apply bind_lift_inv in H1 as (ap & _ & H1).
    injection H1 as _ <- <-.
    split.
    + clear - HF Hstep. revert hosts' HF.
      induction Hstep as [|h h0 hosts hs Hh Hstep IH]; intros hosts' HF.
      * apply Forall2_nil_inv_l in HF as ->. constructor.
      * apply Forall2_cons_inv_l in HF as (h' & k & Hh' & HF & ->).
        constructor; [|apply IH; exact HF].
        destruct Hh' as (E1 & E2 & E3 & E4 & E5).
        destruct Hh as [->|[Hn ->]]; [auto 10|].
        simpl in *. rewrite E1, E2, E3, E4.
        repeat (split; [reflexivity|]).
        destruct E5 as [->| ->]; right; [exact Hn | reflexivity].
    + eexists. rewrite <- app_assoc. split; [reflexivity|].
      constructor; [|exact Hnew]. simpl.
      destruct (Forall2_In_l _ _ _ h1 HF Hin1) as (h' & Hin' & E1 & _ & _ & _ & E5).
      exists h'. split; [exact Hin'|]. rewrite E1. split; [exact Hn1|].
      destruct E5 as [->| ->]; [exact Hm1 | symmetry; exact Hn1].
Qed.

(** X11: what [load_monitors] does to the hosts.  When it returns, the
    hosts are the same but for [mon_name], which is unchanged or has
    become the host's own name; and for every monitor appended there is
    a host of the monitor's name whose [mon_name] is that name. *)
Theorem load_monitors_mon_name is_luminous status hosts mons lg hosts' mons' :
  load_monitors is_luminous status (hosts, mons) = (lg, Return (hosts', mons')) ->
  Forall2 (fun h h' =>
             host_name h' = host_name h /\ host_stor_id h' = host_stor_id h /\
             host_osd_ids h' = host_osd_ids h /\
             host_perf_monitoring h' = host_perf_monitoring h /\
             (host_mon_name h' = host_mon_name h \/
              host_mon_name h' = JStr (host_name h)))
          hosts hosts' /\
  exists new,
    mons' = mons ++ new /\
    Forall (fun m => exists h', In h' hosts' /\ mon_name m = JStr (host_name h') /\
                                host_mon_name h' = mon_name m) new.
Proof.
  unfold load_monitors. intros H.
  apply bind_lift_inv in H as (listing & _ & H).
  apply bind_lift_inv in H as (srvs & _ & H).
  apply load_monitors_loop in H. exact H.
Qed.

Lemma load_monitors_mon_name_witness :
  match load_monitors true (sample_status "ceph-2") (sample_hosts, []) with
  | (_, Return (hosts', mons')) =>
      exists h', In h' hosts' /\ host_name h' = "ceph-2" /\
                 host_mon_name h' = JStr "ceph-2"
  | (_, Raise _) => False
  end.
Proof.
  destruct (load_monitors true (sample_status "ceph-2") (sample_hosts, []))
    as [lg [[hosts' mons']|e]] eqn:E; [|discriminate E].
  destruct (load_monitors_mon_name _ _ _ _ _ _ _ E) as (_ & new & Hm & Hnew).
  assert (Hmons : mons' = [{| mon_name := JStr "ceph-2"; mon_status := JNull;
                              mon_host := JStr "ceph-2"; mon_role := JNull;
                              mon_health := JNull; mon_kb_avail := JNull;
                              mon_avail_percent := JNull |}])
    by (injection E as _ _ <-; reflexivity).
  rewrite Hmons in Hm. simpl in Hm. subst new.
  apply Forall_cons in Hnew as [(h' & Hin & Hn & Hmn) _].
  exists h'. simpl in Hn, Hmn. injection Hn as Hn. auto.
Defined.

(** ** [parse_lsblkjs]: the disks and their partitions *)

Lemma lsblk_partition_Return parent prt_js part :
  lsblk_partition parent prt_js = Return part ->
  exists name,
    py_getitem prt_js "name" = Return (JStr name) /\
    is_substring "/" name = false /\
    mnt_name part = "/dev/" +:+ name /\
    mnt_parent part = Some parent /\ mnt_free_space part = JNull /\
    py_getitem prt_js "size" = Return (mnt_size part) /\
    py_getitem prt_js "mountpoint" = Return (mnt_mountpoint part) /\
    py_getitem prt_js "fstype" = Return (mnt_fs part).
Proof.
  unfold lsblk_partition. intros H.
  apply obind_Return_inv in H as (nm & Hnm & H).
  apply obind_Return_inv in H as (slash & Hslash & H).
  apply obind_Return_inv in H as (u & Hassert & H).
  apply obind_Return_inv in H as (name & Hname & H).
  apply obind_Return_inv in H as (size & Hsize & H).
  apply obind_Return_inv in H as (mp & Hmp & H).
  apply obind_Return_inv in H as (fs & Hfs & H).
  injection H as <-. simpl.
  destruct nm; try discriminate Hname. injection Hname as ->.
  simpl in Hslash. injection Hslash as <-.
  exists name. split; [exact Hnm|].
  split; [destruct (is_substring "/" name); [discriminate Hassert | reflexivity]|].
  auto 10.
Qed.

Lemma lsblk_partitions_spec parent children : forall parts0 parts,
  foldM (fun parts prt_js =>
           do part <- lsblk_partition parent prt_js;
           Return (dict_set parts (mnt_name part) part)) children parts0
  = Return parts ->
  (forall pname part,
      dict_get parts pname = Some part ->
      dict_get parts0 pname = Some part \/
      exists prt_js, In prt_js children /\
                     lsblk_partition parent prt_js = Return part /\
                     mnt_name part = pname) /\
  (forall pname, is_Some (dict_get parts0 pname) -> is_Some (dict_get parts pname)) /\
  (forall prt_js,
      In prt_js children ->
      exists part, lsblk_partition parent prt_js = Return part /\
                   is_Some (dict_get parts (mnt_name part))).
Proof.
  induction children as [|c children IH]; intros parts0 parts H.
  - injection H as <-. split; [auto|]. split; [auto|]. intros p [].
  - simpl in H. apply obind_Return_inv in H as (parts1 & H1 & H).
    apply obind_Return_inv in H1 as (part1 & Hp1 & H1). injection H1 as <-.
    destruct (IH _ _ H) as (Hsrc & Hkeep & Hall). clear IH.
    split; [|split].
    + intros pname part Hget.
      destruct (Hsrc pname part Hget) as [Hg|(prt_js & Hin & Hp & Hn)].
      * rewrite dict_get_set in Hg.
        destruct (String.eqb_spec (mnt_name part1) pname) as [E|E].
        -- injection Hg as <-. right. exists c. split; [left; reflexivity|]. auto.
        -- left. exact Hg.
      * right. exists prt_js. split; [right; exact Hin|]. auto.
    + intros pname Hs. apply Hkeep. rewrite dict_get_set.
      destruct (String.eqb (mnt_name part1) pname); [eauto | exact Hs].
    + intros prt_js [<-|Hin]; [|apply Hall; exact Hin].
      exists part1. split; [exact Hp1|]. apply Hkeep.
      rewrite dict_get_set, String.eqb_refl. eauto.
Qed.

Lemma lsblk_disk_fields hostname disk_js lg dsk :
  lsblk_disk hostname disk_js = (lg, Return (Some dsk)) ->
  exists name children,
    py_getitem disk_js "name" = Return (JStr name) /\
    dsk_name dsk = "/dev/" +:+ name /\ dsk_extra dsk = disk_js /\
    (do c <- py_getitem disk_js "children"; py_iter c) = Return children /\
    lsblk_partitions ("/dev/" +:+ name) children = Return (dsk_partitions dsk) /\
    py_getitem disk_js "size" = Return (dsk_size dsk) /\
    py_getitem disk_js "mountpoint" = Return (dsk_mountpoint dsk) /\
    py_getitem disk_js "fstype" = Return (dsk_fs dsk) /\
    dsk_free_space dsk = JNull /\ dsk_load dsk = None /\ dsk_parent dsk = None.
Proof.
  unfold lsblk_disk. intros H.
  apply bind_lift_inv in H as (nm & Hnm & H).
  apply bind_lift_inv in H as (name & Hname & H).
  destruct nm; try discriminate. injection Hname as ->.
  destruct (re_match synthetic_re name) eqn:Hm; [discriminate|].
  apply bind_lift_inv in H as (tp & Htp & H).
  destruct (is_str "disk" tp) eqn:Hd; [|discriminate]. simpl negb in H. cbv iota in H.
  apply bind_lift_inv in H as (tran & Htran & H).
  apply bind_lift_inv in H as (rota & Hrota & H).
  apply bind_lift_inv in H as (found & Hfound & H).
  apply bind_Return_inv in H as (l1 & stor_tp & l2 & Hst & H & ->).
  apply bind_lift_inv in H as (size & Hsize & H).
  apply bind_lift_inv in H as (mp & Hmp & H).
  apply bind_lift_inv in H as (fs & Hfs & H).
  apply bind_lift_inv in H as (children & Hch & H).
  apply bind_lift_inv in H as (parts & Hparts & H).
  injection H as <- <-.
  exists name, children. simpl. auto 15.
Qed.

(** X12: the disks that [parse_lsblkjs] yields.  A disk is named
    [/dev/] and the name of its record; its size, mount point and file
    system are the record's; it has no free space and no load yet.  Its
    partitions are keyed by their own names; each comes from a child of
    the record whose name has no [/], is named [/dev/] and that name,
    and refers to the disk as its parent; and every child of the record
    has its partition. *)
Theorem parse_lsblkjs_partitions data hostname lg disks dsk :
  parse_lsblkjs data hostname = (lg, Return disks) ->
  In dsk disks ->
  exists name children,
    py_getitem (dsk_extra dsk) "name" = Return (JStr name) /\
    dsk_name dsk = "/dev/" +:+ name /\
    py_getitem (dsk_extra dsk) "size" = Return (dsk_size dsk) /\
    py_getitem (dsk_extra dsk) "mountpoint" = Return (dsk_mountpoint dsk) /\
    py_getitem (dsk_extra dsk) "fstype" = Return (dsk_fs dsk) /\
    dsk_free_space dsk = JNull /\ dsk_load dsk = None /\
    (do c <- py_getitem (dsk_extra dsk) "children"; py_iter c) = Return children /\
    (forall pname part,
        dict_get (dsk_partitions dsk) pname = Some part ->
        mnt_name part = pname /\ mnt_parent part = Some (dsk_name dsk) /\
        mnt_free_space part = JNull /\
        exists prt_js child,
          In prt_js children /\
          py_getitem prt_js "name" = Return (JStr child) /\
          is_substring "/" child = false /\ pname = "/dev/" +:+ child /\
          py_getitem prt_js "size" = Return (mnt_size part) /\
          py_getitem prt_js "mountpoint" = Return (mnt_mountpoint part) /\
          py_getitem prt_js "fstype" = Return (mnt_fs part)) /\
    (forall prt_js,
        In prt_js children ->
        exists child,
          py_getitem prt_js "name" = Return (JStr child) /\
          is_substring "/" child = false /\
          is_Some (dict_get (dsk_partitions dsk) ("/dev/" +:+ child))).
Proof.
  intros H Hin.
  destruct (parse_lsblkjs_In _ _ _ _ _ H Hin) as (es & d & l & _ & _ & Hd).
  apply lsblk_disk_fields in Hd
    as (name & children & Hn & Hnm & Hex & Hch & Hparts & Hsz & Hmp & Hfs
        & Hfree & Hload & _).
  subst d. exists name, children. repeat (split; [assumption|]).
  unfold lsblk_partitions in Hparts.
  apply lsblk_partitions_spec in Hparts as (Hsrc & _ & Hall).
  split.
  - intros pname part Hget.
    destruct (Hsrc pname part Hget) as [Hnil|(prt_js & Hinc & Hp & Hpn)];
      [discriminate Hnil|].
    apply lsblk_partition_Return in Hp
      as (child & Hc & Hslash & Hmn & Hpar & Hfr & Hs & Hm & Hf).
    split; [exact Hpn|]. split; [rewrite Hnm; exact Hpar|]. split; [exact Hfr|].
    exists prt_js, child. rewrite <- Hpn, Hmn. auto 10.
  - intros prt_js Hinc. destruct (Hall prt_js Hinc) as (part & Hp & Hs).
    apply lsblk_partition_Return in Hp as (child & Hc & Hslash & Hmn & _).
    exists child. rewrite <- Hmn. auto.
Qed.

Lemma parse_lsblkjs_partitions_witness :
  match parse_lsblkjs (JList [JObj [("name", JStr "sr0")]; sample_sdb]) "node-1" with
  | (_, Return [dsk]) =>
      dsk_name dsk = "/dev/sdb" /\
      is_Some (dict_get (dsk_partitions dsk) "/dev/sdb1") /\
      is_Some (dict_get (dsk_partitions dsk) "/dev/sdb2") /\
      dict_get (dsk_partitions dsk) "/dev/sdb" = None
  | _ => False
  end.
Proof.
  destruct (parse_lsblkjs _ _) as [lg [disks|e]] eqn:E;
    [|vm_compute in E; discriminate E].
  assert (Hl : length disks = 1%nat)
    by (apply (f_equal snd) in E; vm_compute in E; injection E as <-; reflexivity).
  destruct disks as [|dsk [|d2 ds]]; try discriminate Hl.
  destruct (parse_lsblkjs_partitions _ _ _ _ dsk E (or_introl eq_refl))
    as (name & children & Hn & Hnm & _ & _ & _ & _ & _ & Hch & Hparts & Hall).
  assert (Hex : dsk_extra dsk = sample_sdb)
    by (apply (f_equal snd) in E; vm_compute in E; injection E as <-; reflexivity).
  rewrite Hex in Hn, Hch. simpl in Hn, Hch.
  injection Hn as <-. injection Hch as <-.
  split; [exact Hnm|].
  destruct (Hall (sample_part "sdb1" (JStr "/var/lib/ceph/osd/ceph-0"))
              (or_introl eq_refl)) as (c1 & Hc1 & _ & Hs1).
  destruct (Hall (sample_part "sdb2" JNull) (or_intror (or_introl eq_refl)))
    as (c2 & Hc2 & _ & Hs2).
  simpl in Hc1, Hc2. injection Hc1 as <-. injection Hc2 as <-.
  split; [exact Hs1|]. split; [exact Hs2|].
  destruct (dict_get (dsk_partitions dsk) "/dev/sdb") as [part|] eqn:Eg;
    [|reflexivity].
  destruct (Hparts _ _ Eg) as (_ & _ & _ & p & child & [<-|[<-|[]]] & Hc & _ & Hp & _);
    simpl in Hc; injection Hc as <-; discriminate Hp.
Defined.

(** ** [parse_df] *)

Lemma df_row_spec fields :
  dict_get (df_row fields) "name" = fields !! 0%nat /\
  dict_get (df_row fields) "size" = fields !! 1%nat /\
  dict_get (df_row fields) "free" = fields !! 3%nat /\
  dict_get (df_row fields) "mountpoint" = fields !! 5%nat /\
  forall key,
    is_Some (dict_get (df_row fields) key) ->
    In key ["name"; "size"; "free"; "mountpoint"].
Proof.
  destruct fields as [|a [|b [|c [|d [|e [|f rest]]]]]];
    (repeat (split; [reflexivity|]));
    intros key;
    match goal with
    | |- context [df_row ?l] => set (r := df_row l); vm_compute in r; subst r
    end;
    cbn [dict_get];
    repeat match goal with
           | |- context [String.eqb ?s key] =>
               destruct (String.eqb_spec s key) as [<-|?]
           end;
    intros [x Hx]; try discriminate Hx; simpl; auto 10.
Qed.

(** X13: [parse_df] checks the header and reads the rows by position.
    Unless the first line of the stripped text splits into exactly the
    seven words of the header of [df], the generator raises
    [AssertionError]; else it yields one dictionary for every other line,
    with the first, second, fourth and sixth field of the line under
    [name], [size], [free] and [mountpoint] (a field that the line lacks
    gives no key), and no other key. *)
Theorem parse_df_rows data :
  (split_ws (hd "" (split_on newline (strip data))) <> df_header ->
   parse_df data = Raise AssertionError) /\
  (split_ws (hd "" (split_on newline (strip data))) = df_header ->
   exists rows,
     parse_df data = Return rows /\
     Forall2
       (fun ln row =>
          dict_get row "name" = split_ws ln !! 0%nat /\
          dict_get row "size" = split_ws ln !! 1%nat /\
          dict_get row "free" = split_ws ln !! 3%nat /\
          dict_get row "mountpoint" = split_ws ln !! 5%nat /\
          forall key, is_Some (dict_get row key) ->
                      In key ["name"; "size"; "free"; "mountpoint"])
       (tl (split_on newline (strip data))) rows).
Proof.
  unfold parse_df.
  assert (Hne : split_on newline (strip data) <> []).
  { destruct (strip data) as [|c s]; simpl; [discriminate|].
    destruct (Ascii.eqb c newline); [discriminate|].
    destruct (split_on newline s); discriminate. }
  destruct (split_on newline (strip data)) as [|first rest]; [contradiction|].
  simpl hd. simpl tl. split.
  - intros H. rewrite bool_decide_eq_false_2 by exact H. reflexivity.
  - intros H. rewrite bool_decide_eq_true_2 by exact H. simpl.
    eexists. split; [reflexivity|].
    apply Forall2_fmap_r, Forall_Forall2_diag, Forall_forall.
    intros ln _. apply df_row_spec.
Qed.

Lemma parse_df_rows_witness :
  parse_df "Filesystem Size" = Raise AssertionError /\
  exists r1 r2,
    parse_df sample_df = Return [r1; r2] /\
    dict_get r1 "name" = Some "/dev/sda1" /\
    dict_get r2 "free" = Some "97760516" /\
    dict_get r2 "mountpoint" = Some "/var/lib/ceph/osd/ceph-0".
Proof.
  split.
  - apply (proj1 (parse_df_rows "Filesystem Size")). vm_compute. discriminate.
  - destruct (proj2 (parse_df_rows sample_df)) as (rows & Hp & HF);
      [vm_compute; reflexivity|].
    assert (Hl : tl (split_on newline (strip sample_df))
                 = ["/dev/sda1       41251136 9232160  30270872  24% /";
                    "/dev/sdb1      103081248   61468  97760516   1% /var/lib/ceph/osd/ceph-0"])
      by (vm_compute; reflexivity).
    rewrite Hl in HF.
    apply Forall2_cons_inv_l in HF as (r1 & k1 & H1 & HF & ->).
    apply Forall2_cons_inv_l in HF as (r2 & k2 & H2 & HF & ->).
    apply Forall2_nil_inv_l in HF as ->.
    exists r1, r2. split; [exact Hp|].
    destruct H1 as (Hn1 & _). destruct H2 as (_ & _ & Hf2 & Hm2 & _).
    rewrite Hn1, Hf2, Hm2. vm_compute. auto.
Defined.

(** ** [load_hdds] *)

Lemma df_by_name_fold rows : forall df0 df_info,
  foldM (fun df_info info =>
           match dict_get info "name" with
           | Some name => Return (dict_set df_info name info)
           | None => Raise KeyError
           end) rows df0 = Return df_info ->
  (forall name,
      Forall (fun r => dict_get r "name" <> Some name) rows ->
      dict_get df_info name = dict_get df0 name) /\
  (forall pre info post name,
      rows = pre ++ info :: post -> dict_get info "name" = Some name ->
      Forall (fun r => dict_get r "name" <> Some name) post ->
      dict_get df_info name = Some info) /\
  (forall name info,
      dict_get df_info name = Some info ->
      dict_get df0 name = Some info \/
      (In info rows /\ dict_get info "name" = Some name)).
Proof.
  induction rows as [|r rows IH]; intros df0 df_info H.
  - injection H as <-. split; [auto|]. split; [|auto].
    intros [|x pre] info post name Hl; discriminate Hl.
  - simpl in H. destruct (dict_get r "name") as [rn|] eqn:Ern; [|discriminate H].
    simpl in H. destruct (IH _ _ H) as (Hno & Hlast & Hsrc). clear IH.
    split; [|split].
    + intros name Hall. apply Forall_cons in Hall as [Hr Hall].
      rewrite (Hno name Hall), dict_get_set.
      destruct (String.eqb_spec rn name) as [->|Hne]; [contradiction | reflexivity].
    + intros [|x pre] info post name Hl Hn Hpost; injection Hl as -> ->.
      * rewrite (Hno name Hpost), dict_get_set.
        assert (rn = name) as -> by congruence.
        rewrite String.eqb_refl. reflexivity.
      * apply (Hlast pre info post name eq_refl Hn Hpost).
    + intros name info Hget.
      destruct (Hsrc name info Hget) as [Hg|[Hin Hn]].
      * rewrite dict_get_set in Hg.
        destruct (String.eqb_spec rn name) as [->|Hne].
        -- injection Hg as <-. right. split; [left; reflexivity | exact Ern].
        -- left. exact Hg.
      * right. split; [right; exact Hin | exact Hn].
Qed.

Lemma dict_get_map_values {A B} (f : A -> B) (d : dict A) k :
  dict_get (map (fun kv => (fst kv, f (snd kv))) d) k = option_map f (dict_get d k).
Proof.
  induction d as [|[k0 v0] d IH]; simpl; [reflexivity|].
  destruct (String.eqb k0 k); [reflexivity | exact IH].
Qed.

Lemma devs_fold_keys (parts : dict Mountable) : forall devs : dict storage_dev,
  (forall n, is_Some (dict_get devs n) ->
             is_Some (dict_get (fold_left (fun devs kv =>
                                             dict_set devs (fst kv) (DevPart (snd kv)))
                                          parts devs) n)) /\
  (forall n, is_Some (dict_get parts n) ->
             is_Some (dict_get (fold_left (fun devs kv =>
                                             dict_set devs (fst kv) (DevPart (snd kv)))
                                          parts devs) n)).
Proof.
  induction parts as [|[k p] parts IH]; intros devs; simpl.
  - split; [auto|]. intros n [x Hx]. discriminate Hx.
  - destruct (IH (dict_set devs k (DevPart p))) as [Hkeep Hnew]. split.
    + intros n Hs. apply Hkeep. rewrite dict_get_set.
      destruct (String.eqb k n); [eauto | exact Hs].
    + intros n Hs. destruct (String.eqb_spec k n) as [->|Hne].
      * apply Hkeep. rewrite dict_get_set, String.eqb_refl. eauto.
      * apply Hnew. exact Hs.
Qed.

Lemma add_disk_fold df_info dsks : forall st,
  (forall name dsk,
      dict_get (fst (fold_left (add_disk df_info) dsks st)) name = Some dsk ->
      dict_get (fst st) name = Some dsk \/
      exists d0, In d0 dsks /\ dsk = set_free_space df_info d0 /\
                 dsk_name d0 = name) /\
  (forall n, is_Some (dict_get (snd st) n) ->
             is_Some (dict_get (snd (fold_left (add_disk df_info) dsks st)) n)) /\
  (forall d0, In d0 dsks ->
     is_Some (dict_get (snd (fold_left (add_disk df_info) dsks st)) (dsk_name d0)) /\
     forall pname,
       is_Some (dict_get (dsk_partitions d0) pname) ->
       is_Some (dict_get (snd (fold_left (add_disk df_info) dsks st)) pname)).
Proof.
  induction dsks as [|d dsks IH]; intros st; simpl.
  - split; [auto|]. split; [auto|]. intros d0 [].
  - destruct (IH (add_disk df_info st d)) as (Hsrc & Hkeep & Hall). clear IH.
    destruct (devs_fold_keys (dsk_partitions (set_free_space df_info d))
                (dict_set (snd st) (dsk_name d) (DevDisk (set_free_space df_info d))))
      as [Hk Hn].
    split; [|split].
    + intros name dsk Hget.
      destruct (Hsrc name dsk Hget) as [Hg|(d0 & Hin & Hd & Hnm)].
      * simpl in Hg. rewrite dict_get_set in Hg.
        destruct (String.eqb_spec (dsk_name d) name) as [E|E].
        -- injection Hg as <-. right. exists d. split; [left; reflexivity|]. auto.
        -- left. exact Hg.
      * right. exists d0. split; [right; exact Hin|]. auto.
    + intros n Hs. apply Hkeep. simpl. apply Hk. rewrite dict_get_set.
      destruct (String.eqb (dsk_name d) n); [eauto | exact Hs].
    + intros d0 [<-|Hin]; [|apply Hall; exact Hin]. split.
      * apply Hkeep. simpl. apply Hk.
        rewrite dict_get_set, String.eqb_refl. eauto.
      * intros pname Hs. apply Hkeep. simpl. apply Hn.
        unfold set_free_space. cbn [dsk_partitions].
        rewrite (dict_get_map_values (part_with_free df_info)).
        destruct Hs as [x ->]. simpl. eauto.
Qed.

(** X14: what [load_hdds] returns.  The [free_space] of a disk of
    [disks] and of each of its partitions is the [free] figure of the
    row of [df] that names the device, the last one if there are
    several, and [None] when no row names it; the disk is stored under
    its own name, and it and its partitions are keys of
    [storage_devs]. *)
Theorem load_hdds_devices hostname lsblkjs df lg disks devs :
  load_hdds hostname lsblkjs df = (lg, Return (disks, devs)) ->
  exists rows df_info,
    parse_df df = Return rows /\
    (forall name,
        Forall (fun r => dict_get r "name" <> Some name) rows ->
        free_of df_info name = JNull) /\
    (forall pre info post name,
        rows = pre ++ info :: post -> dict_get info "name" = Some name ->
        Forall (fun r => dict_get r "name" <> Some name) post ->
        free_of df_info name = match dict_get info "free" with
                               | Some free => JStr free
                               | None => JNull
                               end) /\
    forall name dsk,
      dict_get disks name = Some dsk ->
      dsk_name dsk = name /\
      dsk_free_space dsk = free_of df_info name /\
      (forall pname part,
          dict_get (dsk_partitions dsk) pname = Some part ->
          mnt_free_space part = free_of df_info (mnt_name part)) /\
      is_Some (dict_get devs name) /\
      (forall pname,
          is_Some (dict_get (dsk_partitions dsk) pname) ->
          is_Some (dict_get devs pname)).
Proof.
  unfold load_hdds. intros H.
  apply bind_lift_inv in H as (rows & Hrows & H).
  apply bind_lift_inv in H as (df_info & Hdf & H).
  apply bind_lift_inv in H as (blockdevices & _ & H).
  apply bind_Return_inv in H as (l1 & dsks & l2 & _ & H & ->).
  injection H as _ H.
  exists rows, df_info. split; [exact Hrows|].
  apply df_by_name_fold in Hdf as (Hno & Hlast & _).
  split; [|split].
  - intros name Hall. unfold free_of. rewrite (Hno name Hall). reflexivity.
  - intros pre info post name Hl Hn Hpost. unfold free_of.
    rewrite (Hlast pre info post name Hl Hn Hpost). reflexivity.
  - destruct (add_disk_fold df_info dsks ([], [])) as (Hsrc & _ & Hall).
    rewrite H in Hsrc, Hall. simpl in Hsrc, Hall.
    intros name dsk Hget.
    destruct (Hsrc name dsk Hget) as [Hnil|(d0 & Hin & -> & Hnm)];
      [discriminate Hnil|].
    destruct (Hall d0 Hin) as [Hd Hp]. simpl.
    split; [exact Hnm|]. split; [rewrite Hnm; reflexivity|].
    split; [|split].
    + intros pname part Hg.
      rewrite (dict_get_map_values (part_with_free df_info)) in Hg.
      destruct (dict_get (dsk_partitions d0) pname) as [p0|]; [|discriminate Hg].
      injection Hg as <-. reflexivity.
    + rewrite <- Hnm. exact Hd.
    + intros pname Hs. apply Hp.
      rewrite (dict_get_map_values (part_with_free df_info)) in Hs.
      destruct (dict_get (dsk_partitions d0) pname); [eauto|].
      destruct Hs as [x Hx]. discriminate Hx.
Qed.

Lemma load_hdds_devices_witness :
  match load_hdds "node-1" sample_lsblkjs sample_df with
  | (_, Return (disks, devs)) =>
      exists dsk part,
        dict_get disks "/dev/sdb" = Some dsk /\
        dsk_free_space dsk = JNull /\
        dict_get (dsk_partitions dsk) "/dev/sdb1" = Some part /\
        mnt_free_space part = JStr "97760516" /\
        is_Some (dict_get devs "/dev/sdb1")
  | (_, Raise _) => False
  end.
Proof.
  assert (Hr : match snd (load_hdds "node-1" sample_lsblkjs sample_df) with
               | Return (disks, _) =>
                   match dict_get disks "/dev/sdb" with
                   | Some dsk =>
                       match dict_get (dsk_partitions dsk) "/dev/sdb1" with
                       | Some part => String.eqb (mnt_name part) "/dev/sdb1"
                       | None => false
                       end
                   | None => false
                   end
               | Raise _ => false
               end = true)
    by (vm_compute; reflexivity).
  destruct (load_hdds _ _ _) as [lg [[disks devs]|e]] eqn:E; [|discriminate Hr].
  simpl in Hr.
  destruct (dict_get disks "/dev/sdb") as [dsk|] eqn:Ed; [|discriminate Hr].
  destruct (dict_get (dsk_partitions dsk) "/dev/sdb1") as [part|] eqn:Ep;
    [|discriminate Hr].
  apply String.eqb_eq in Hr.
  destruct (load_hdds_devices _ _ _ _ _ _ E)
    as (rows & df_info & Hrows & Hnone & Hlast & Hdisks).
  assert (Hrows' : parse_df sample_df
                   = Return [df_row ["/dev/sda1"; "41251136"; "9232160"; "30270872";
                                     "24%"; "/"];
                             df_row ["/dev/sdb1"; "103081248"; "61468"; "97760516";
                                     "1%"; "/var/lib/ceph/osd/ceph-0"]])
    by (vm_compute; reflexivity).
  rewrite Hrows' in Hrows. injection Hrows as <-.
  destruct (Hdisks _ _ Ed) as (_ & Hfree & Hparts & _ & Hdevs).
  exists dsk, part. split; [reflexivity|].
  split.
  - rewrite Hfree. apply Hnone.
    constructor; [vm_compute; discriminate|].
    constructor; [vm_compute; discriminate|]. constructor.
  - split; [exact Ep|]. split.
    + rewrite (Hparts _ _ Ep), Hr.
      rewrite (Hlast [_] _ [] "/dev/sdb1" eq_refl); [reflexivity| reflexivity |constructor].
    + apply Hdevs. rewrite Ep. eauto.
Defined.

Lemma df_by_name_raises rows : forall df0 row,
  In row rows -> dict_get row "name" = None ->
  foldM (fun df_info info =>
           match dict_get info "name" with
           | Some name => Return (dict_set df_info name info)
           | None => Raise KeyError
           end) rows df0 = Raise KeyError.
Proof.
  induction rows as [|r rows IH]; intros df0 row Hin Hnone; [destruct Hin|].
  simpl. destruct (dict_get r "name") as [rn|] eqn:E; [|reflexivity].
  simpl. destruct Hin as [->|Hin]; [congruence|].
  apply (IH _ row Hin Hnone).
Qed.

Lemma split_on_nonempty sep s : split_on sep s <> [].
Proof.
  destruct s as [|c s]; simpl; [discriminate|].
  destruct (Ascii.eqb c sep); [discriminate|].
  destruct (split_on sep s); discriminate.
Qed.

(** X15: the errors of [load_hdds] on the text of [df].  With another
    header than that of [df], [load_hdds] raises [AssertionError]; with
    the right header and a line without any field below it (an empty
    line inside the text), it raises [KeyError]; either way before it
    looks at a disk, so that nothing is logged. *)
Theorem load_hdds_df_errors hostname lsblkjs df :
  (split_ws (hd "" (split_on newline (strip df))) <> df_header ->
   load_hdds hostname lsblkjs df = ([], Raise AssertionError)) /\
  (split_ws (hd "" (split_on newline (strip df))) = df_header ->
   (exists ln, In ln (tl (split_on newline (strip df))) /\ split_ws ln = []) ->
   load_hdds hostname lsblkjs df = ([], Raise KeyError)).
Proof.
  unfold load_hdds, parse_df.
  pose proof (split_on_nonempty newline (strip df)) as Hne.
  destruct (split_on newline (strip df)) as [|first rest]; [contradiction|].
  simpl hd. simpl tl. split.
  - intros H. rewrite bool_decide_eq_false_2 by exact H. reflexivity.
  - intros H (ln & Hin & Hln). rewrite bool_decide_eq_true_2 by exact H.
    simpl. unfold df_by_name.
    rewrite (df_by_name_raises _ [] (df_row (split_ws ln))).
    + reflexivity.
    + apply in_map_iff. exists ln. auto.
    + rewrite Hln. reflexivity.
Qed.

Lemma load_hdds_df_errors_witness :
  load_hdds "node-1" sample_lsblkjs "Filesystem Size" = ([], Raise AssertionError) /\
  load_hdds "node-1" sample_lsblkjs
    ("Filesystem 1K-blocks Used Available Use% Mounted on" +:+ String newline ""
     +:+ String newline "/dev/sda1 41251136 9232160 30270872 24% /")
  = ([], Raise KeyError).
Proof.
  split.
  - apply (proj1 (load_hdds_df_errors _ _ _)). vm_compute. discriminate.
  - apply (proj2 (load_hdds_df_errors _ _ _)); [vm_compute; reflexivity|].
    exists "". split; [vm_compute; auto | reflexivity].
Defined.

(** ** [load_interfaces]: the addresses *)

Lemma ipv4_network_spec ip size net :
  ipv4_network ip size = Return net ->
  snd net = size /\
  fst net <= ip < fst net + 2 ^ (32 - size) /\
  fst net mod 2 ^ (32 - size) = 0.
Proof.
  unfold ipv4_network. destruct (Z.leb_spec size 32) as [Hs|]; [|discriminate].
  intros [= <-]. simpl.
  rewrite Z.shiftl_mul_pow2, Z.shiftr_div_pow2 by lia.
  assert (Hp : 0 < 2 ^ (32 - size)) by (apply Z.pow_pos_nonneg; lia).
  split; [reflexivity|]. split.
  - pose proof (Z.mod_pos_bound ip _ Hp).
    pose proof (Z.div_mod ip (2 ^ (32 - size))). lia.
  - apply Z.mod_mul. lia.
Qed.

Lemma make_adapter_ips host ifs_info dtime dev fields lg adapter :
  make_adapter host ifs_info dtime dev fields = (lg, Return adapter) ->
  na_ips adapter = [].
Proof.
  unfold make_adapter. intros H.
  apply bind_Return_inv in H as (l1 & attrs' & l2 & _ & H & _).
  apply bind_lift_inv in H as (load & _ & H).
  injection H as _ <-. reflexivity.
Qed.

Lemma add_address_fold ipa4 : forall d lg d',
  foldMl add_address ipa4 d = (lg, Return d') ->
  forall dev,
    match dict_get d dev with
    | None => dict_get d' dev = None
    | Some a =>
        exists a' new,
          dict_get d' dev = Some a' /\ na_ips a' = na_ips a ++ new /\
          map (fun x => (addr_ip x, snd (addr_net x))) new
          = map (fun l => (snd (fst l), snd l))
                (List.filter (fun l => String.eqb (fst (fst l)) dev) ipa4) /\
          Forall (fun x =>
                    fst (addr_net x) <= addr_ip x
                      < fst (addr_net x) + 2 ^ (32 - snd (addr_net x)) /\
                    fst (addr_net x) mod 2 ^ (32 - snd (addr_net x)) = 0) new
    end.
Proof.
  induction ipa4 as [|[[dev_name ip] size] rest IH]; intros d lg d' H dev.
  - injection H as <- <-. destruct (dict_get d dev) as [a|]; [|reflexivity].
    exists a, []. rewrite app_nil_r. repeat split. constructor.
  - rewrite foldMl_cons in H.
    apply bind_Return_inv in H as (l1 & d1 & l2 & H1 & H2 & ->).
    specialize (IH _ _ _ H2 dev).
    unfold add_address in H1.
    apply bind_lift_inv in H1 as (net & Hnet & H1).
    apply ipv4_network_spec in Hnet as (Hsz & Hin & Hal).
    cbn [List.filter fst snd].
    destruct (dict_get d dev_name) as [a0|] eqn:Ea.
    + injection H1 as <- <-. rewrite dict_get_set in IH.
      destruct (String.eqb_spec dev_name dev) as [<-|Hne].
      * rewrite Ea. destruct IH as (a' & new & Ha' & Hips & Hmap & Hall).
        cbn [na_ips] in Hips. rewrite <- app_assoc in Hips.
        exists a', ({| addr_ip := ip; addr_net := net |} :: new).
        split; [exact Ha'|]. split; [exact Hips|]. split.
        -- cbn [map addr_ip addr_net fst snd]. rewrite Hmap, Hsz. reflexivity.
        -- constructor; [|exact Hall]. cbn [addr_ip addr_net].
           rewrite Hsz. auto.
      * exact IH.
    + cbv in H1. injection H1 as <- <-.
      destruct (String.eqb_spec dev_name dev) as [<-|Hne]; [|exact IH].
      rewrite Ea in IH |- *. exact IH.
Qed.

(** X16: the addresses [load_interfaces] gives to an adapter.  When
    [load_interfaces] returns, the addresses of every adapter are, in
    order and with repetitions, the addresses and prefix lengths of the
    lines of [ipa4] that name the adapter; and every address lies in the
    network stored with it, whose address has no host bit set. *)
Theorem load_interfaces_addresses host interfaces ifs_info ipa4 dtime lg adapters :
  load_interfaces host interfaces ifs_info ipa4 dtime = (lg, Return adapters) ->
  forall dev adapter,
    dict_get adapters dev = Some adapter ->
    map (fun a => (addr_ip a, snd (addr_net a))) (na_ips adapter)
    = map (fun l => (snd (fst l), snd l))
          (List.filter (fun l => String.eqb (fst (fst l)) dev) ipa4) /\
    Forall (fun a =>
              fst (addr_net a) <= addr_ip a
                < fst (addr_net a) + 2 ^ (32 - snd (addr_net a)) /\
              fst (addr_net a) mod 2 ^ (32 - snd (addr_net a)) = 0)
           (na_ips adapter).
Proof.
  unfold load_interfaces. intros H dev adapter Hd.
  apply bind_Return_inv in H as (l1 & d1 & l2 & H1 & H2 & ->).
  assert (Hd1 : forall dev a, dict_get d1 dev = Some a -> na_ips a = []).
  { eapply (foldMl_inv _ (fun d : dict NetworkAdapter =>
              forall dev a, dict_get d dev = Some a -> na_ips a = []));
      [| |exact H1].
    - intros d [dev0 fields] lg0 d' _ Hinv Hf.
      apply bind_Return_inv in Hf as (l3 & a & l4 & Ha & Hr & ->).
      injection Hr as <- <-.
      intros dev' a'. rewrite dict_get_set.
      destruct (String.eqb_spec dev0 dev') as [<-|_].
      + intros [= <-]. eapply make_adapter_ips. exact Ha.
      + apply Hinv.
    - intros dev0 a [=]. }
  pose proof (add_address_fold _ _ _ _ H2 dev) as Hf.
  destruct (dict_get d1 dev) as [a|] eqn:Ea; [|congruence].
  destruct Hf as (a' & new & Ha' & Hips & Hmap & Hall).
  rewrite Hd in Ha'. injection Ha' as <-.
  rewrite (Hd1 _ _ Ea) in Hips. simpl in Hips. rewrite Hips. auto.
Qed.

Lemma load_interfaces_addresses_witness :
  match load_interfaces (sample_host sample_eth0_partial)
          [("eth0", [("is_phy", JBool true)]); ("lo", [])] {[ "eth0" := 1500 ]}
          [("eth0", 167772161, 24); ("lo", 2130706433, 8);
           ("eth0", 3232235876, 16); ("eth7", 167772162, 24)]
          (Some sample_dtime) with
  | (_, Return adapters) =>
      match dict_get adapters "eth0" with
      | Some adapter =>
          map (fun a => (addr_ip a, snd (addr_net a))) (na_ips adapter)
          = [(167772161, 24); (3232235876, 16)]
      | None => False
      end
  | (_, Raise _) => False
  end.
Proof.
  assert (Hr : match load_interfaces (sample_host sample_eth0_partial)
                       [("eth0", [("is_phy", JBool true)]); ("lo", [])]
                       {[ "eth0" := 1500 ]}
                       [("eth0", 167772161, 24); ("lo", 2130706433, 8);
                        ("eth0", 3232235876, 16); ("eth7", 167772162, 24)]
                       (Some sample_dtime) with
               | (_, Return adapters) =>
                   match dict_get adapters "eth0" with
                   | Some _ => true
                   | None => false
                   end
               | (_, Raise _) => false
               end = true)
    by (vm_compute; reflexivity).
  destruct (load_interfaces _ _ _ _ _) as [lg [adapters|e]] eqn:E;
    [|discriminate Hr].
  destruct (dict_get adapters "eth0") as [adapter|] eqn:Ea; [|discriminate Hr].
  exact (proj1 (load_interfaces_addresses _ _ _ _ _ lg adapters E "eth0" adapter Ea)).
Defined.
(** ** [load_hosts]: the addresses of a host *)

Lemma register_ip_cases host cn pn adapter errors st a :
  (is_loopback a = true /\
   register_ip host cn pn adapter (errors, st) a = (errors, st)) \/
  (is_loopback a = false /\
   exists owner, hn_ip2host st !! addr_key a = Some owner /\
     register_ip host cn pn adapter (errors, st) a
     = (errors ++ [{| clash_ip := addr_key a; clash_host := host;
                      clash_owner := owner |}], st)) \/
  (is_loopback a = false /\ hn_ip2host st !! addr_key a = None /\
   register_ip host cn pn adapter (errors, st) a
   = (errors,
      {| hn_ip2host := <[addr_key a := host]> (hn_ip2host st);
         ceph_cluster_adapter :=
           if net_contains cn (addr_ip a) then Some adapter
           else ceph_cluster_adapter st;
         ceph_public_adapter :=
           if net_contains pn (addr_ip a) then Some adapter
           else ceph_public_adapter st |})).
Proof.
  unfold register_ip, is_loopback, addr_key.
  destruct (is_prefix "127." (ip_str (addr_ip a))); [left; auto|right].
  destruct (hn_ip2host st !! ip_str (addr_ip a)) as [owner|];
    [left; eauto|right; auto].
Qed.

Lemma load_hosts_ips_flat host cn pn net_adapters st :
  load_hosts_ips host cn pn net_adapters st
  = fold_left (fun acc p => register_ip host cn pn (fst p) acc (snd p))
              (adapter_addrs net_adapters) ([], st).
Proof.
  unfold load_hosts_ips, adapter_addrs.
  generalize (@nil ip_clash, st).
  induction net_adapters as [|[dev adapter] rest IH]; intros acc; [reflexivity|].
  cbn [fold_left flat_map snd]. rewrite fold_left_app, IH. f_equal.
  generalize acc. clear.
  induction (na_ips adapter) as [|a l IH]; intros acc; [reflexivity|].
  cbn [snd fst hn_ip2host ceph_cluster_adapter ceph_public_adapter]. apply IH.
Qed.

Lemma in_adapter_addrs net_adapters adapter a :
  In (adapter, a) (adapter_addrs net_adapters) <->
  exists dev, In (dev, adapter) net_adapters /\ In a (na_ips adapter).
Proof.
  unfold adapter_addrs. rewrite in_flat_map. split.
  - intros ([dev ad] & Hin & Hp). cbn [snd fst hn_ip2host ceph_cluster_adapter ceph_public_adapter] in Hp.
    apply in_map_iff in Hp as (a' & [= <- <-] & Ha). eauto.
  - intros (dev & Hin & Ha). exists (dev, adapter). split; [exact Hin|].
    cbn [snd fst hn_ip2host ceph_cluster_adapter ceph_public_adapter]. apply in_map. exact Ha.
Qed.

Lemma register_fold host cn pn l : forall errors st errors' st',
  fold_left (fun acc p => register_ip host cn pn (fst p) acc (snd p)) l (errors, st)
  = (errors', st') ->
  (forall k o, hn_ip2host st !! k = Some o -> hn_ip2host st' !! k = Some o) /\
  (forall k o, hn_ip2host st' !! k = Some o ->
     hn_ip2host st !! k = Some o \/
     (o = host /\ exists p, In p l /\ is_loopback (snd p) = false /\ addr_key (snd p) = k)) /\
  (forall p, In p l -> is_loopback (snd p) = false ->
     is_Some (hn_ip2host st' !! addr_key (snd p))) /\
  (exists new, errors' = errors ++ new /\
     (new = [] <->
      List.NoDup (map (fun p => addr_key (snd p))
                 (List.filter (fun p => negb (is_loopback (snd p))) l)) /\
      forall p, In p l -> is_loopback (snd p) = false ->
                hn_ip2host st !! addr_key (snd p) = None)).
Proof.
  induction l as [|[adapter a] l IH]; intros errors st errors' st' H.
  - injection H as <- <-. split; [auto|]. split; [auto|]. split.
    + intros p [].
    + exists []. rewrite app_nil_r. split; [reflexivity|]. split; [|reflexivity].
      intros _. split; [constructor|intros p []].
  - cbn [fold_left fst snd] in H.
    destruct (register_ip_cases host cn pn adapter errors st a)
      as [[Hl E]|[(Hl & owner & Ho & E)|(Hl & Hn & E)]];
      rewrite E in H; clear E;
      apply IH in H as (HA & HB & HC & new & Hnew & Hiff);
      cbn [List.filter snd]; rewrite Hl; cbn [negb].
    + (* a loopback address *)
      split; [exact HA|]. split; [|split].
      * intros k o Hk. destruct (HB k o Hk) as [?|(-> & p & Hp & ? & ?)]; [auto|].
        right. split; [reflexivity|]. exists p. auto with datatypes.
      * intros p [<-|Hp] Hlp; [cbn [snd] in Hlp; congruence|auto].
      * exists new. split; [exact Hnew|]. rewrite Hiff. split.
        -- intros [Hnd Hall]. split; [exact Hnd|].
           intros p [<-|Hp] Hlp; [cbn [snd] in Hlp; congruence|auto].
        -- intros [Hnd Hall]. split; [exact Hnd|]. auto with datatypes.
    + (* the address has a host already *)
      split; [exact HA|]. split; [|split].
      * intros k o Hk. destruct (HB k o Hk) as [?|(-> & p & Hp & ? & ?)]; [auto|].
        right. split; [reflexivity|]. exists p. auto with datatypes.
      * intros p [<-|Hp] Hlp; [|auto]. cbn [snd fst hn_ip2host ceph_cluster_adapter ceph_public_adapter]. apply HA in Ho. eauto.
      * exists ({| clash_ip := addr_key a; clash_host := host;
                   clash_owner := owner |} :: new).
        split; [rewrite Hnew, <- app_assoc; reflexivity|].
        split; [discriminate|].
        intros [_ Hall]. specialize (Hall (adapter, a) (or_introl eq_refl) Hl).
        cbn [snd fst hn_ip2host ceph_cluster_adapter ceph_public_adapter] in Hall. congruence.
    + (* a new address *)
      cbn [snd fst hn_ip2host ceph_cluster_adapter ceph_public_adapter] in HA, HB. split; [|split; [|split]].
      * intros k o Hk. apply HA. rewrite lookup_insert_ne; [exact Hk|].
        intros <-. congruence.
      * intros k o Hk. destruct (HB k o Hk) as [Hi|(-> & p & Hp & ? & ?)].
        -- destruct (decide (addr_key a = k)) as [<-|Hne].
           ++ rewrite lookup_insert_eq in Hi. injection Hi as <-.
              right. split; [reflexivity|]. exists (adapter, a). auto with datatypes.
           ++ rewrite lookup_insert_ne in Hi by exact Hne. auto.
        -- right. split; [reflexivity|]. exists p. auto with datatypes.
      * intros p [<-|Hp] Hlp; [|auto]. cbn [snd fst hn_ip2host ceph_cluster_adapter ceph_public_adapter]. exists host.
        apply HA. apply lookup_insert_eq.
      * exists new. split; [exact Hnew|]. rewrite Hiff.
        cbn [map snd]. rewrite List.NoDup_cons_iff. cbn [hn_ip2host]. split.
        -- intros [Hnd Hall]. split; [split; [|exact Hnd]|].
           ++ intros Hin. apply in_map_iff in Hin as (p & Hk & Hp).
              apply filter_In in Hp as [Hp Hlp].
              apply negb_true_iff in Hlp. specialize (Hall p Hp Hlp).
              rewrite Hk, lookup_insert_eq in Hall. discriminate.
           ++ intros p [<-|Hp] Hlp; [exact Hn|].
              specialize (Hall p Hp Hlp).
              apply lookup_insert_None in Hall as [Hall _]. exact Hall.
        -- intros [[Hni Hnd] Hall]. split; [exact Hnd|].
           intros p Hp Hlp. apply lookup_insert_None. split; [auto with datatypes|].
           intros Hk. apply Hni. apply in_map_iff. exists p. split; [auto|].
           apply filter_In. split; [exact Hp|]. rewrite Hlp. reflexivity.
Qed.

Lemma register_fold_adapters host cn pn l : forall errors st errors' st',
  fold_left (fun acc p => register_ip host cn pn (fst p) acc (snd p)) l (errors, st)
  = (errors', st') ->
  (ceph_cluster_adapter st' = ceph_cluster_adapter st \/
   exists p, In p l /\ ceph_cluster_adapter st' = Some (fst p) /\
     is_loopback (snd p) = false /\ net_contains cn (addr_ip (snd p)) = true /\
     hn_ip2host st !! addr_key (snd p) = None) /\
  (ceph_public_adapter st' = ceph_public_adapter st \/
   exists p, In p l /\ ceph_public_adapter st' = Some (fst p) /\
     is_loopback (snd p) = false /\ net_contains pn (addr_ip (snd p)) = true /\
     hn_ip2host st !! addr_key (snd p) = None).
Proof.
  induction l as [|[adapter a] l IH]; intros errors st errors' st' H.
  - injection H as <- <-. auto.
  - cbn [fold_left fst snd] in H.
    destruct (register_ip_cases host cn pn adapter errors st a)
      as [[Hl E]|[(Hl & owner & Ho & E)|(Hl & Hn & E)]];
      rewrite E in H; clear E; apply IH in H as [HC HP].
    + split.
      * destruct HC as [?|(p & ? & ?)]; [auto|right; exists p; auto with datatypes].
      * destruct HP as [?|(p & ? & ?)]; [auto|right; exists p; auto with datatypes].
    + split.
      * destruct HC as [?|(p & ? & ?)]; [auto|right; exists p; auto with datatypes].
      * destruct HP as [?|(p & ? & ?)]; [auto|right; exists p; auto with datatypes].
    + assert (Hsub : forall k, <[addr_key a := host]> (hn_ip2host st) !! k = None ->
                               hn_ip2host st !! k = None).
      { intros k Hk. apply lookup_insert_None in Hk as [Hk _]. exact Hk. }
      cbn [snd fst hn_ip2host ceph_cluster_adapter ceph_public_adapter] in HC, HP. split.
      * destruct HC as [HC|(p & Hp & Hs & Hlp & Hc & Hk)].
        -- revert HC. destruct (net_contains cn (addr_ip a)) eqn:Ec; intros HC;
             [|left; exact HC].
           right. exists (adapter, a). cbn [fst snd].
           split; [left; reflexivity|]. auto.
        -- right. exists p. split; [right; exact Hp|]. auto.
      * destruct HP as [HP|(p & Hp & Hs & Hlp & Hc & Hk)].
        -- revert HP. destruct (net_contains pn (addr_ip a)) eqn:Ec; intros HP;
             [|left; exact HP].
           right. exists (adapter, a). cbn [fst snd].
           split; [left; reflexivity|]. auto.
        -- right. exists p. split; [right; exact Hp|]. auto.
Qed.

(** X17: what the last loop of [load_hosts] writes to [ip2host].  An
    address that has a host keeps it: the loop never gives an address to
    another host.  An address without a host gets one exactly when it is
    an address of an adapter of the host being loaded whose text does not
    begin with [127.], and that host is then the one it gets. *)
Theorem load_hosts_ip2host host cn pn net_adapters st :
  let st' := snd (load_hosts_ips host cn pn net_adapters st) in
  (forall k o, hn_ip2host st !! k = Some o -> hn_ip2host st' !! k = Some o) /\
  (forall k, hn_ip2host st !! k = None ->
     forall o, hn_ip2host st' !! k = Some o <->
       o = host /\
       exists dev adapter a,
         In (dev, adapter) net_adapters /\ In a (na_ips adapter) /\
         is_loopback a = false /\ addr_key a = k).
Proof.
  rewrite load_hosts_ips_flat.
  destruct (fold_left _ _ _) as [errors' st'] eqn:E. cbn [snd].
  apply register_fold in E as (HA & HB & HC & _).
  split; [exact HA|]. intros k Hk o. split.
  - intros Ho. destruct (HB k o Ho) as [?|(-> & [adapter a] & Hp & Hl & Hkey)];
      [congruence|].
    split; [reflexivity|].
    apply in_adapter_addrs in Hp as (dev & Hin & Ha). exists dev, adapter, a. auto.
  - intros (-> & dev & adapter & a & Hin & Ha & Hl & <-).
    assert (Hp : In (adapter, a) (adapter_addrs net_adapters))
      by (apply in_adapter_addrs; eauto).
    destruct (HC _ Hp Hl) as [o Ho]. cbn [snd fst hn_ip2host ceph_cluster_adapter ceph_public_adapter] in Ho.
    destruct (HB _ _ Ho) as [?|[-> _]]; [congruence|exact Ho].
Qed.

Lemma load_hosts_ip2host_witness :
  hn_ip2host (snd (load_hosts_ips 3 (167772160, 24) (167772160, 24)
                     sample_net_adapters no_nets)) !! "10.0.0.1" = Some 3%nat.
Proof.
  apply (proj2 (load_hosts_ip2host 3 (167772160, 24) (167772160, 24)
                  sample_net_adapters no_nets) "10.0.0.1" (lookup_empty _) 3%nat).
  split; [reflexivity|].
  exists "eth0", (sample_adapter "eth0" [sample_addr 167772161 24;
                                        sample_addr 2130706433 8]),
         (sample_addr 167772161 24).
  split; [left; reflexivity|]. split; [left; reflexivity|].
  split; vm_compute; reflexivity.
Defined.

(** X18: when the last loop of [load_hosts] logs an error.  No error is
    logged exactly when the addresses of the adapters of the host that do
    not begin with [127.] are pairwise distinct and none of them has a
    host yet: an address the host itself has on two adapters is reported
    like one of another host. *)
Theorem load_hosts_ip_errors host cn pn net_adapters st :
  fst (load_hosts_ips host cn pn net_adapters st) = [] <->
  List.NoDup (map (fun p => addr_key (snd p))
             (List.filter (fun p => negb (is_loopback (snd p)))
                          (adapter_addrs net_adapters))) /\
  (forall dev adapter a,
     In (dev, adapter) net_adapters -> In a (na_ips adapter) ->
     is_loopback a = false -> hn_ip2host st !! addr_key a = None).
Proof.
  rewrite load_hosts_ips_flat.
  destruct (fold_left _ _ _) as [errors' st'] eqn:E. cbn [fst].
  apply register_fold in E as (_ & _ & _ & new & -> & Hiff).
  cbn [snd fst hn_ip2host ceph_cluster_adapter ceph_public_adapter]. rewrite Hiff. split; intros [Hnd Hall]; (split; [exact Hnd|]).
  - intros dev adapter a Hin Ha. apply (Hall (adapter, a)).
    apply in_adapter_addrs. eauto.
  - intros [adapter a] Hp. apply in_adapter_addrs in Hp as (dev & Hin & Ha).
    eapply Hall; eassumption.
Qed.

Lemma load_hosts_ip_errors_witness :
  fst (load_hosts_ips 3 (167772160, 24) (167772160, 24)
         [("eth0", sample_adapter "eth0" [sample_addr 167772161 24;
                                          sample_addr 2130706433 8])]
         no_nets) = [] /\
  fst (load_hosts_ips 3 (167772160, 24) (167772160, 24)
         sample_net_adapters no_nets) <> [].
Proof.
  split.
  - apply (proj2 (load_hosts_ip_errors _ _ _ _ _)). split.
    + vm_compute. constructor; [intros []|constructor].
    + intros dev adapter a _ _ _. apply lookup_empty.
  - intros H. apply (proj1 (load_hosts_ip_errors _ _ _ _ _)) in H as [H _].
    vm_compute in H. apply List.NoDup_cons_iff in H as [H _].
    apply H. left. reflexivity.
Defined.

(** X19: the adapters [load_hosts] takes for the cluster and the public
    network.  The last loop changes [ceph_cluster_adapter] only to an
    adapter of the host with an address in the cluster network that does
    not begin with [127.] and had no host before; and so for
    [ceph_public_adapter] and the public network.  An address that
    another host has already never chooses the adapter. *)
Theorem load_hosts_ceph_adapters host cn pn net_adapters st :
  let st' := snd (load_hosts_ips host cn pn net_adapters st) in
  (ceph_cluster_adapter st' = ceph_cluster_adapter st \/
   exists dev adapter a,
     In (dev, adapter) net_adapters /\ In a (na_ips adapter) /\
     ceph_cluster_adapter st' = Some adapter /\
     is_loopback a = false /\ net_contains cn (addr_ip a) = true /\
     hn_ip2host st !! addr_key a = None) /\
  (ceph_public_adapter st' = ceph_public_adapter st \/
   exists dev adapter a,
     In (dev, adapter) net_adapters /\ In a (na_ips adapter) /\
     ceph_public_adapter st' = Some adapter /\
     is_loopback a = false /\ net_contains pn (addr_ip a) = true /\
     hn_ip2host st !! addr_key a = None).
Proof.
  rewrite load_hosts_ips_flat.
  destruct (fold_left _ _ _) as [errors' st'] eqn:E. cbn [snd].
  apply register_fold_adapters in E as [HC HP]. split.
  - destruct HC as [?|([adapter a] & Hp & ?)]; [auto|right].
    apply in_adapter_addrs in Hp as (dev & Hin & Ha). exists dev, adapter, a. auto.
  - destruct HP as [?|([adapter a] & Hp & ?)]; [auto|right].
    apply in_adapter_addrs in Hp as (dev & Hin & Ha). exists dev, adapter, a. auto.
Qed.

(** ** [fill_io_devices_usage_stats] *)














